(** * The plan state manager of the travel planner

    A shallow embedding of the [App] component of the planner (its state
    hooks, derived values, effects and event handlers) and the properties
    of the flight filter, the paginated flight list, the image fill, the
    checklist toggle, the search history and the save/load bridge. *)

From Stdlib Require Import ZArith Lia Ascii.
From stdpp Require Import base option list strings pretty gmap.

Local Open Scope string_scope.
Local Open Scope Z_scope.

(** ** JavaScript numbers

    A number is NaN, an infinity, or a finite value, written here as the
    decimal [mantissa * 10 ^ exponent] it denotes (every finite double and
    every decimal literal is such a value).  Rounding of literals to the
    nearest double is outside the model. *)

Inductive number : Type :=
  | NaN
  | Infinity (negative : bool)
  | Finite (mantissa exponent : Z).

#[global] Instance number_eq_dec : EqDecision number.
Proof. solve_decision. Defined.

Definition of_int (z : Z) : number := Finite z 0.

(** [m1 * 10^e1 <= m2 * 10^e2], both sides scaled to the smaller exponent. *)
Definition finite_leb (m1 e1 m2 e2 : Z) : bool :=
  let e := Z.min e1 e2 in
  m1 * 10 ^ (e1 - e) <=? m2 * 10 ^ (e2 - e).

(** The relation [x <= y] of the language: false as soon as one side is NaN. *)
Definition num_leb (x y : number) : bool :=
  match x, y with
  | NaN, _ | _, NaN => false
  | Infinity true, _ => true
  | _, Infinity false => true
  | Infinity false, _ => false
  | _, Infinity true => false
  | Finite m1 e1, Finite m2 e2 => finite_leb m1 e1 m2 e2
  end.

(** The same order as a proposition, on the values the operands denote. *)
Inductive num_le : number -> number -> Prop :=
  | le_neg_inf y : y <> NaN -> num_le (Infinity true) y
  | le_pos_inf x : x <> NaN -> num_le x (Infinity false)
  | le_finite m1 e1 m2 e2 :
      m1 * 10 ^ (e1 - Z.min e1 e2) <= m2 * 10 ^ (e2 - Z.min e1 e2) ->
      num_le (Finite m1 e1) (Finite m2 e2).

(** *** [Number(s)] on a string: StringToNumber *)

Definition is_white (c : ascii) : bool :=
  let n := nat_of_ascii c in
  ((9 <=? n) && (n <=? 13))%nat || (n =? 32)%nat.

Fixpoint trim_left (l : list ascii) : list ascii :=
  match l with
  | c :: r => if is_white c then trim_left r else l
  | [] => []
  end.

Definition trim (l : list ascii) : list ascii :=
  rev (trim_left (rev (trim_left l))).

(** The value of a digit in a radix up to 16, if it is one. *)
Definition digit_value (radix : Z) (c : ascii) : option Z :=
  let n := Z.of_nat (nat_of_ascii c) in
  let v :=
    if (48 <=? n) && (n <=? 57) then Some (n - 48)
    else if (97 <=? n) && (n <=? 102) then Some (n - 87)
    else if (65 <=? n) && (n <=? 70) then Some (n - 55)
    else None in
  match v with
  | Some d => if d <? radix then Some d else None
  | None => None
  end.

(** Reads the longest run of digits: the value read so far, how many
    digits were read, and what is left. *)
Fixpoint read_digits (radix acc : Z) (count : nat) (l : list ascii)
  : Z * nat * list ascii :=
  match l with
  | c :: r =>
      match digit_value radix c with
      | Some d => read_digits radix (acc * radix + d) (S count) r
      | None => (acc, count, l)
      end
  | [] => (acc, count, [])
  end.

Definition signed (negative : bool) (z : Z) : Z :=
  if negative then - z else z.

Definition read_sign (l : list ascii) : bool * list ascii :=
  match l with
  | "+"%char :: r => (false, r)
  | "-"%char :: r => (true, r)
  | _ => (false, l)
  end.

(** The exponent part [e[+-]digits], or nothing. *)
Definition read_exponent (l : list ascii) : option (Z * list ascii) :=
  match l with
  | c :: r =>
      if bool_decide (c = "e"%char) || bool_decide (c = "E"%char) then
        let '(neg, r1) := read_sign r in
        let '(v, k, r2) := read_digits 10 0 0%nat r1 in
        if (k =? 0)%nat then None else Some (signed neg v, r2)
      else Some (0, l)
  | [] => Some (0, [])
  end.

(** StrDecimalLiteral: [[+-]Infinity] or [[+-]digits[.digits][exponent]]
    with a digit on at least one side of the point. *)
Definition StrDecimalLiteral (l : list ascii) : number :=
  let '(neg, l1) := read_sign l in
  if bool_decide (l1 = String.list_ascii_of_string "Infinity") then Infinity neg
  else
    let '(ip, ki, l2) := read_digits 10 0 0%nat l1 in
    let '(m, kf, l3) :=
      match l2 with
      | "."%char :: r => read_digits 10 ip 0%nat r
      | _ => (ip, 0%nat, l2)
      end in
    if ((ki + kf)%nat =? 0)%nat then NaN
    else
      match read_exponent l3 with
      | Some (ex, []) => Finite (signed neg m) (ex - Z.of_nat kf)
      | _ => NaN
      end.

(** NonDecimalIntegerLiteral: [0x], [0o] and [0b] literals, unsigned. *)
Definition NonDecimalIntegerLiteral (l : list ascii) : option number :=
  match l with
  | "0"%char :: p :: r =>
      let radix :=
        if bool_decide (p = "x"%char) || bool_decide (p = "X"%char) then Some 16
        else if bool_decide (p = "o"%char) || bool_decide (p = "O"%char) then Some 8
        else if bool_decide (p = "b"%char) || bool_decide (p = "B"%char) then Some 2
        else None in
      match radix with
      | Some b =>
          match read_digits b 0 0%nat r with
          | (v, S _, []) => Some (Finite v 0)
          | _ => Some NaN
          end
      | None => None
      end
  | _ => None
  end.

(** [Number(s)]: white space is trimmed, the empty string is 0, and a
    string that is no numeric literal is NaN. *)
Definition JS_Number (s : string) : number :=
  let l := trim (String.list_ascii_of_string s) in
  match l with
  | [] => Finite 0 0
  | _ =>
      match NonDecimalIntegerLiteral l with
      | Some n => n
      | None => StrDecimalLiteral l
      end
  end.

(** [String(n)] on an integer: its decimal digits, with a minus sign. *)
Definition JS_String (z : Z) : string := pretty z.

(** [!s] on a string: only the empty string is falsy. *)
Definition string_falsy (s : string) : bool := String.eqb s "".

(** ** Data model: the interfaces of the source, one record each *)

Module Flight.
Record t : Type := mk {
  airline : string;
  stops : Z;          (* an integer in the response schema *)
  price : number;
  class : string
}.
End Flight.

Module Location.
Record t : Type := mk { city : string; lat : number; lng : number }.
End Location.

Module ChecklistItem.
Record t : Type := mk { task : string; details : string; completed : bool }.
End ChecklistItem.

Module PackingItem.
Record t : Type := mk { item : string; quantity : number; packed : bool }.
End PackingItem.

Module PackingCategory.
Record t : Type := mk { category : string; items : list PackingItem.t }.
End PackingCategory.

Module WeatherInfo.
Record t : Type := mk {
  destination : string;
  avg_temp_celsius : number;
  forecast_summary : string
}.
End WeatherInfo.

Module FoodRecommendation.
Record t : Type := mk { name : string; description : string }.
End FoodRecommendation.

Module DailyActivity.
Record t : Type := mk { day : number; activity : string }.
End DailyActivity.

(** [imageUrl?: string | 'loading' | null]: [None] is the absent key,
    [Some None] is [null], [Some (Some s)] a string. *)
Definition ImageUrl : Type := option (option string).

Definition image_loading : ImageUrl := Some (Some "loading").
Definition image_data (base64Image : string) : ImageUrl :=
  Some (Some ("data:image/jpeg;base64," +:+ base64Image)).
Definition image_null : ImageUrl := Some None.

Module ItineraryDestination.
Record t : Type := mk {
  destination_name : string;
  destination_summary : string;
  daily_plan : list DailyActivity.t;
  transport_tips : string;
  safety_tips : string;
  food_recommendations : list FoodRecommendation.t;
  imageUrl : ImageUrl
}.

Definition with_imageUrl (u : ImageUrl) (d : t) : t :=
  mk (destination_name d) (destination_summary d) (daily_plan d)
     (transport_tips d) (safety_tips d) (food_recommendations d) u.
End ItineraryDestination.

Module CostDetails.
Record t : Type := mk {
  accommodation : number;
  food : number;
  activities : number;
  transport : number;
  total_without_flights : number
}.
End CostDetails.

Module Plan.
Record t : Type := mk {
  itinerary : list ItineraryDestination.t;
  costs : CostDetails.t;
  checklist : list ChecklistItem.t;
  flights : list Flight.t;
  locations : list Location.t;
  weather : list WeatherInfo.t;
  packing_list : list PackingCategory.t
}.

Definition with_itinerary (v : list ItineraryDestination.t) (p : t) : t :=
  mk v (costs p) (checklist p) (flights p) (locations p) (weather p) (packing_list p).
Definition with_checklist (v : list ChecklistItem.t) (p : t) : t :=
  mk (itinerary p) (costs p) v (flights p) (locations p) (weather p) (packing_list p).
Definition with_packing_list (v : list PackingCategory.t) (p : t) : t :=
  mk (itinerary p) (costs p) (checklist p) (flights p) (locations p) (weather p) v.
End Plan.

(** A form field that starts as a number and holds the input's string once
    the user has edited it ([handleInputChange] stores [e.target.value]). *)
Inductive FormValue : Type :=
  | FNum (n : number)
  | FStr (s : string).

Module TripDetails.
Record t : Type := mk {
  prediction : FormValue;
  type : string;
  origin : string;
  destinations : list string;
  adults : FormValue;
  children : FormValue;
  startDate : string;
  endDate : string;
  class : string;
  stopover : bool;
  tripType : string
}.
End TripDetails.

Module HistoryItem.
Record t : Type := mk { id : string; title : string; details : TripDetails.t }.
End HistoryItem.

Module Filters.
Record t : Type := mk { airline : string; stops : string; maxPrice : string }.
End Filters.

(** ** Flight catalog: the filter *)

Definition FLIGHTS_PER_PAGE : nat := 10.

(** The callback of [plan.flights.filter] in [filteredFlights]. *)
Definition flightMatches (filters : Filters.t) (flight : Flight.t) : bool :=
  let airlineMatch :=
    String.eqb (Filters.airline filters) "all"
    || String.eqb (Flight.airline flight) (Filters.airline filters) in
  let stopsMatch :=
    String.eqb (Filters.stops filters) "all"
    || String.eqb (JS_String (Flight.stops flight)) (Filters.stops filters) in
  let priceMatch :=
    String.eqb (Filters.maxPrice filters) ""
    || string_falsy (Filters.maxPrice filters)
    || num_leb (Flight.price flight) (JS_Number (Filters.maxPrice filters)) in
  airlineMatch && stopsMatch && priceMatch.

(** [filteredFlights]: the memo over [plan?.flights] and [filters]. *)
Definition filteredFlights (plan : option Plan.t) (filters : Filters.t)
  : list Flight.t :=
  match plan with
  | None => []
  | Some p => List.filter (flightMatches filters) (Plan.flights p)
  end.

(** [airlines]: the distinct airlines of the plan, in order of first
    appearance ([[...new Set(plan.flights.map(f => f.airline))]]). *)
Definition airlines (plan : option Plan.t) : list string :=
  match plan with
  | None => []
  | Some p => rev (remove_dups (rev (Flight.airline <$> Plan.flights p)))
  end.

(** The predicate of the filter as the specification words it: the price
    is constrained only by a maximum that is a valid positive number. *)
Definition valid_positive_max (maxPrice : string) : option number :=
  match JS_Number maxPrice with
  | Finite m e => if 0 <? m then Some (Finite m e) else None
  | Infinity false => Some (Infinity false)
  | _ => None
  end.

Definition spec_flightMatches (filters : Filters.t) (flight : Flight.t) : Prop :=
  (Flight.airline flight = Filters.airline filters \/ Filters.airline filters = "all")
  /\ (JS_String (Flight.stops flight) = Filters.stops filters
      \/ Filters.stops filters = "all")
  /\ match valid_positive_max (Filters.maxPrice filters) with
     | Some m => num_le (Flight.price flight) m
     | None => True
     end.

(** The predicate the filter computes: the price is constrained by every
    maximum that is not the empty string. *)
Definition price_within (maxPrice : string) (price : number) : Prop :=
  maxPrice = "" \/ num_le price (JS_Number maxPrice).

Definition flight_passes (filters : Filters.t) (flight : Flight.t) : Prop :=
  (Filters.airline filters = "all" \/ Flight.airline flight = Filters.airline filters)
  /\ (Filters.stops filters = "all"
      \/ JS_String (Flight.stops flight) = Filters.stops filters)
  /\ price_within (Filters.maxPrice filters) (Flight.price flight).

(** Sample data for the examples below. *)
Definition no_costs : CostDetails.t :=
  CostDetails.mk (Finite 0 0) (Finite 0 0) (Finite 0 0) (Finite 0 0) (Finite 0 0).

Definition plan_of_flights (flights : list Flight.t) : Plan.t :=
  Plan.mk [] no_costs [] flights [] [] [].

Definition flight_A : Flight.t := Flight.mk "A" 0 (Finite 100 0) "Y".
Definition flight_B : Flight.t := Flight.mk "B" 1 (Finite 200 0) "Y".
Definition flight_C : Flight.t := Flight.mk "C" 2 (Finite 50 0) "Y".
Definition flight_D : Flight.t := Flight.mk "D" 3 (Finite 100 0) "Y".

(** ** JSON values

    What [JSON.parse] returns and [JSON.stringify] takes.  The members of an
    object are kept in insertion order, as the language does. *)

#[warnings="-register-all"]
Inductive json : Type :=
  | JNull
  | JBool (b : bool)
  | JNum (n : number)
  | JStr (s : string)
  | JArr (elements : list json)
  | JObj (members : list (string * json)).

Fixpoint assoc_get (k : string) (m : list (string * json)) : option json :=
  match m with
  | (k', v) :: r => if String.eqb k k' then Some v else assoc_get k r
  | [] => None
  end.

(** [{...m, k: v}]: an existing key keeps its place, a new one goes last. *)
Fixpoint set_member (k : string) (v : json) (m : list (string * json))
  : list (string * json) :=
  match m with
  | (k', v') :: r =>
      if String.eqb k k' then (k, v) :: r else (k', v') :: set_member k v r
  | [] => [(k, v)]
  end.

(** [x.k]: [None] is the TypeError of reading a member of [null]; inside,
    [None] is [undefined]. *)
Definition member (k : string) (x : json) : option (option json) :=
  match x with
  | JNull => None
  | JObj m => Some (assoc_get k m)
  | _ => Some None
  end.

Fixpoint string_chars (s : string) : list string :=
  match s with
  | EmptyString => []
  | String c r => String c EmptyString :: string_chars r
  end.

(** [{...x}]: the own enumerable members of [x]. *)
Definition spread (x : json) : list (string * json) :=
  match x with
  | JObj m => m
  | JArr l => imap (fun i v => (pretty i, v)) l
  | JStr s => imap (fun i c => (pretty i, JStr c)) (string_chars s)
  | _ => []
  end.

Definition num_is_zero (n : number) : bool :=
  match n with
  | Finite m _ => m =? 0
  | _ => false
  end.

(** Truthiness of a value that is not [undefined]. *)
Definition truthy (x : json) : bool :=
  match x with
  | JNull => false
  | JBool b => b
  | JNum NaN => false
  | JNum n => negb (num_is_zero n)
  | JStr s => negb (string_falsy s)
  | JArr _ | JObj _ => true
  end.

(** [x || v], where [None] is [undefined]. *)
Definition js_or (x : option json) (v : json) : json :=
  match x with
  | Some a => if truthy a then a else v
  | None => v
  end.

(** [x.map(f)]: a TypeError unless [x] is an array; an exception of [f]
    propagates. *)
Definition array_map (f : json -> option json) (x : option json) : option json :=
  match x with
  | Some (JArr l) => JArr <$> mapM f l
  | _ => None
  end.

(** ** The platform

    The built-in functions the component calls.  [JSON_parse] returns
    [None] where the built-in throws a SyntaxError; [Date_valueOf s] is
    the time value of [new Date(s)]. *)

Record Platform : Type := {
  JSON_stringify : json -> string;
  JSON_parse : string -> option json;
  Date_valueOf : string -> number
}.

(** *** localStorage: string keys and values under a quota. *)

Record Storage : Type := {
  items : gmap string string;
  quota : nat
}.

Definition storage_size (m : gmap string string) : nat :=
  map_fold (fun k v acc => (String.length k + String.length v + acc)%nat) 0%nat m.

Definition getItem (k : string) (st : Storage) : option string := items st !! k.

(** [None] is the QuotaExceededError of a write that does not fit. *)
Definition setItem (k v : string) (st : Storage) : option Storage :=
  let m := <[k := v]> (items st) in
  if (storage_size m <=? quota st)%nat
  then Some {| items := m; quota := quota st |}
  else None.

Definition removeItem (k : string) (st : Storage) : Storage :=
  {| items := delete k (items st); quota := quota st |}.

(** ** Typed values as JSON values

    The component keeps plain objects; here they are records, and the two
    functions of each interface give the object a record stands for and
    the record an object of that shape is.  A record's keys are written in
    the order of the interface. *)

Definition as_string (x : option json) : option string :=
  match x with Some (JStr s) => Some s | _ => None end.

Definition as_number (x : option json) : option number :=
  match x with Some (JNum n) => Some n | _ => None end.

Definition as_bool (x : option json) : option bool :=
  match x with Some (JBool b) => Some b | _ => None end.

(** A number that is an integer, as that integer. *)
Definition as_int (x : option json) : option Z :=
  match x with
  | Some (JNum (Finite m e)) =>
      if 0 <=? e then Some (m * 10 ^ e)
      else if m mod 10 ^ (- e) =? 0 then Some (m / 10 ^ (- e))
      else None
  | _ => None
  end.

Definition as_list {A} (dec : json -> option A) (x : option json) : option (list A) :=
  match x with Some (JArr l) => mapM dec l | _ => None end.

Definition as_object {A} (dec : list (string * json) -> option A) (x : json) : option A :=
  match x with JObj m => dec m | _ => None end.

Definition encode_Flight (f : Flight.t) : json :=
  JObj [("airline", JStr (Flight.airline f));
        ("stops", JNum (of_int (Flight.stops f)));
        ("price", JNum (Flight.price f));
        ("class", JStr (Flight.class f))].

Definition decode_Flight : json -> option Flight.t :=
  as_object (fun m =>
    a ← as_string (assoc_get "airline" m);
    s ← as_int (assoc_get "stops" m);
    p ← as_number (assoc_get "price" m);
    c ← as_string (assoc_get "class" m);
    Some (Flight.mk a s p c)).

Definition encode_Location (l : Location.t) : json :=
  JObj [("city", JStr (Location.city l));
        ("lat", JNum (Location.lat l));
        ("lng", JNum (Location.lng l))].

Definition decode_Location : json -> option Location.t :=
  as_object (fun m =>
    c ← as_string (assoc_get "city" m);
    a ← as_number (assoc_get "lat" m);
    g ← as_number (assoc_get "lng" m);
    Some (Location.mk c a g)).

Definition encode_ChecklistItem (i : ChecklistItem.t) : json :=
  JObj [("task", JStr (ChecklistItem.task i));
        ("details", JStr (ChecklistItem.details i));
        ("completed", JBool (ChecklistItem.completed i))].

Definition decode_ChecklistItem : json -> option ChecklistItem.t :=
  as_object (fun m =>
    t ← as_string (assoc_get "task" m);
    d ← as_string (assoc_get "details" m);
    c ← as_bool (assoc_get "completed" m);
    Some (ChecklistItem.mk t d c)).

Definition encode_PackingItem (i : PackingItem.t) : json :=
  JObj [("item", JStr (PackingItem.item i));
        ("quantity", JNum (PackingItem.quantity i));
        ("packed", JBool (PackingItem.packed i))].

Definition decode_PackingItem : json -> option PackingItem.t :=
  as_object (fun m =>
    i ← as_string (assoc_get "item" m);
    q ← as_number (assoc_get "quantity" m);
    p ← as_bool (assoc_get "packed" m);
    Some (PackingItem.mk i q p)).

Definition encode_PackingCategory (c : PackingCategory.t) : json :=
  JObj [("category", JStr (PackingCategory.category c));
        ("items", JArr (encode_PackingItem <$> PackingCategory.items c))].

Definition decode_PackingCategory : json -> option PackingCategory.t :=
  as_object (fun m =>
    c ← as_string (assoc_get "category" m);
    i ← as_list decode_PackingItem (assoc_get "items" m);
    Some (PackingCategory.mk c i)).

Definition encode_WeatherInfo (w : WeatherInfo.t) : json :=
  JObj [("destination", JStr (WeatherInfo.destination w));
        ("avg_temp_celsius", JNum (WeatherInfo.avg_temp_celsius w));
        ("forecast_summary", JStr (WeatherInfo.forecast_summary w))].

Definition decode_WeatherInfo : json -> option WeatherInfo.t :=
  as_object (fun m =>
    d ← as_string (assoc_get "destination" m);
    t ← as_number (assoc_get "avg_temp_celsius" m);
    f ← as_string (assoc_get "forecast_summary" m);
    Some (WeatherInfo.mk d t f)).

Definition encode_FoodRecommendation (r : FoodRecommendation.t) : json :=
  JObj [("name", JStr (FoodRecommendation.name r));
        ("description", JStr (FoodRecommendation.description r))].

Definition decode_FoodRecommendation : json -> option FoodRecommendation.t :=
  as_object (fun m =>
    n ← as_string (assoc_get "name" m);
    d ← as_string (assoc_get "description" m);
    Some (FoodRecommendation.mk n d)).

Definition encode_DailyActivity (a : DailyActivity.t) : json :=
  JObj [("day", JNum (DailyActivity.day a));
        ("activity", JStr (DailyActivity.activity a))].

Definition decode_DailyActivity : json -> option DailyActivity.t :=
  as_object (fun m =>
    d ← as_number (assoc_get "day" m);
    a ← as_string (assoc_get "activity" m);
    Some (DailyActivity.mk d a)).

(** An absent [imageUrl] has no member; [null] and strings are written. *)
Definition encode_ImageUrl (u : ImageUrl) : list (string * json) :=
  match u with
  | None => []
  | Some None => [("imageUrl", JNull)]
  | Some (Some s) => [("imageUrl", JStr s)]
  end.

Definition decode_ImageUrl (x : option json) : option ImageUrl :=
  match x with
  | None => Some None
  | Some JNull => Some (Some None)
  | Some (JStr s) => Some (Some (Some s))
  | _ => None
  end.

Definition encode_ItineraryDestination (d : ItineraryDestination.t) : json :=
  JObj ([("destination_name", JStr (ItineraryDestination.destination_name d));
         ("destination_summary", JStr (ItineraryDestination.destination_summary d));
         ("daily_plan",
           JArr (encode_DailyActivity <$> ItineraryDestination.daily_plan d));
         ("transport_tips", JStr (ItineraryDestination.transport_tips d));
         ("safety_tips", JStr (ItineraryDestination.safety_tips d));
         ("food_recommendations",
           JArr (encode_FoodRecommendation
                   <$> ItineraryDestination.food_recommendations d))]
        ++ encode_ImageUrl (ItineraryDestination.imageUrl d)).

Definition decode_ItineraryDestination : json -> option ItineraryDestination.t :=
  as_object (fun m =>
    n ← as_string (assoc_get "destination_name" m);
    s ← as_string (assoc_get "destination_summary" m);
    p ← as_list decode_DailyActivity (assoc_get "daily_plan" m);
    t ← as_string (assoc_get "transport_tips" m);
    y ← as_string (assoc_get "safety_tips" m);
    f ← as_list decode_FoodRecommendation (assoc_get "food_recommendations" m);
    u ← decode_ImageUrl (assoc_get "imageUrl" m);
    Some (ItineraryDestination.mk n s p t y f u)).

Definition encode_CostDetails (c : CostDetails.t) : json :=
  JObj [("accommodation", JNum (CostDetails.accommodation c));
        ("food", JNum (CostDetails.food c));
        ("activities", JNum (CostDetails.activities c));
        ("transport", JNum (CostDetails.transport c));
        ("total_without_flights", JNum (CostDetails.total_without_flights c))].

Definition decode_CostDetails : json -> option CostDetails.t :=
  as_object (fun m =>
    a ← as_number (assoc_get "accommodation" m);
    f ← as_number (assoc_get "food" m);
    c ← as_number (assoc_get "activities" m);
    t ← as_number (assoc_get "transport" m);
    w ← as_number (assoc_get "total_without_flights" m);
    Some (CostDetails.mk a f c t w)).

Definition encode_Plan (p : Plan.t) : json :=
  JObj [("itinerary", JArr (encode_ItineraryDestination <$> Plan.itinerary p));
        ("costs", encode_CostDetails (Plan.costs p));
        ("checklist", JArr (encode_ChecklistItem <$> Plan.checklist p));
        ("flights", JArr (encode_Flight <$> Plan.flights p));
        ("locations", JArr (encode_Location <$> Plan.locations p));
        ("weather", JArr (encode_WeatherInfo <$> Plan.weather p));
        ("packing_list", JArr (encode_PackingCategory <$> Plan.packing_list p))].

Definition decode_Plan : json -> option Plan.t :=
  as_object (fun m =>
    i ← as_list decode_ItineraryDestination (assoc_get "itinerary" m);
    c ← assoc_get "costs" m ≫= decode_CostDetails;
    k ← as_list decode_ChecklistItem (assoc_get "checklist" m);
    f ← as_list decode_Flight (assoc_get "flights" m);
    l ← as_list decode_Location (assoc_get "locations" m);
    w ← as_list decode_WeatherInfo (assoc_get "weather" m);
    p ← as_list decode_PackingCategory (assoc_get "packing_list" m);
    Some (Plan.mk i c k f l w p)).

Definition encode_FormValue (v : FormValue) : json :=
  match v with FNum n => JNum n | FStr s => JStr s end.

Definition decode_FormValue (x : option json) : option FormValue :=
  match x with
  | Some (JNum n) => Some (FNum n)
  | Some (JStr s) => Some (FStr s)
  | _ => None
  end.

Definition encode_TripDetails (d : TripDetails.t) : json :=
  JObj [("prediction", encode_FormValue (TripDetails.prediction d));
        ("type", JStr (TripDetails.type d));
        ("origin", JStr (TripDetails.origin d));
        ("destinations", JArr (JStr <$> TripDetails.destinations d));
        ("adults", encode_FormValue (TripDetails.adults d));
        ("children", encode_FormValue (TripDetails.children d));
        ("startDate", JStr (TripDetails.startDate d));
        ("endDate", JStr (TripDetails.endDate d));
        ("class", JStr (TripDetails.class d));
        ("stopover", JBool (TripDetails.stopover d));
        ("tripType", JStr (TripDetails.tripType d))].

Definition decode_TripDetails : json -> option TripDetails.t :=
  as_object (fun m =>
    p ← decode_FormValue (assoc_get "prediction" m);
    t ← as_string (assoc_get "type" m);
    o ← as_string (assoc_get "origin" m);
    d ← as_list (fun x => as_string (Some x)) (assoc_get "destinations" m);
    a ← decode_FormValue (assoc_get "adults" m);
    c ← decode_FormValue (assoc_get "children" m);
    s ← as_string (assoc_get "startDate" m);
    e ← as_string (assoc_get "endDate" m);
    k ← as_string (assoc_get "class" m);
    v ← as_bool (assoc_get "stopover" m);
    y ← as_string (assoc_get "tripType" m);
    Some (TripDetails.mk p t o d a c s e k v y)).

Definition encode_HistoryItem (h : HistoryItem.t) : json :=
  JObj [("id", JStr (HistoryItem.id h));
        ("title", JStr (HistoryItem.title h));
        ("details", encode_TripDetails (HistoryItem.details h))].

Definition decode_HistoryItem : json -> option HistoryItem.t :=
  as_object (fun m =>
    i ← as_string (assoc_get "id" m);
    t ← as_string (assoc_get "title" m);
    d ← assoc_get "details" m ≫= decode_TripDetails;
    Some (HistoryItem.mk i t d)).

(** [Flight | null] *)
Definition encode_selectedFlight (f : option Flight.t) : json :=
  match f with Some x => encode_Flight x | None => JNull end.

Definition decode_selectedFlight (x : json) : option (option Flight.t) :=
  match x with
  | JNull => Some None
  | _ => Some <$> decode_Flight x
  end.

(** ** The state of the component

    The closure of a pending page-load timer: the two lists of the render
    in which the observer that started it was created. *)
Record PageTimer : Type := {
  timer_displayedFlights : list Flight.t;
  timer_filteredFlights : list Flight.t
}.

(** The [useState] hooks of [App], then what lives outside the component:
    the local storage, the timers started and not yet fired, the plan
    requests and the image batches still awaited (each with the values its
    closure holds). *)
Record AppState : Type := MkApp {
  tripDetails : TripDetails.t;
  currentDestination : string;
  loading : bool;
  error : string;
  plan : option Plan.t;
  isSaved : bool;
  searchHistory : list HistoryItem.t;
  activeTab : string;
  currentItineraryPage : nat;
  selectedFlight : option Flight.t;
  filters : Filters.t;
  displayedFlights : list Flight.t;
  isLoadingMore : bool;
  localStorage : Storage;
  pageTimers : list PageTimer;
  planRequests : list TripDetails.t;
  imageRequests : list (list ItineraryDestination.t)
}.

Definition set_tripDetails (v : TripDetails.t) (s : AppState) : AppState :=
  MkApp v (currentDestination s) (loading s) (error s) (plan s) (isSaved s)
    (searchHistory s) (activeTab s) (currentItineraryPage s)
    (selectedFlight s) (filters s) (displayedFlights s) (isLoadingMore s)
    (localStorage s) (pageTimers s) (planRequests s) (imageRequests s).

Definition set_currentDestination (v : string) (s : AppState) : AppState :=
  MkApp (tripDetails s) v (loading s) (error s) (plan s) (isSaved s)
    (searchHistory s) (activeTab s) (currentItineraryPage s)
    (selectedFlight s) (filters s) (displayedFlights s) (isLoadingMore s)
    (localStorage s) (pageTimers s) (planRequests s) (imageRequests s).

Definition set_loading (v : bool) (s : AppState) : AppState :=
  MkApp (tripDetails s) (currentDestination s) v (error s) (plan s)
    (isSaved s) (searchHistory s) (activeTab s) (currentItineraryPage s)
    (selectedFlight s) (filters s) (displayedFlights s) (isLoadingMore s)
    (localStorage s) (pageTimers s) (planRequests s) (imageRequests s).

Definition set_error (v : string) (s : AppState) : AppState :=
  MkApp (tripDetails s) (currentDestination s) (loading s) v (plan s)
    (isSaved s) (searchHistory s) (activeTab s) (currentItineraryPage s)
    (selectedFlight s) (filters s) (displayedFlights s) (isLoadingMore s)
    (localStorage s) (pageTimers s) (planRequests s) (imageRequests s).

Definition set_plan (v : option Plan.t) (s : AppState) : AppState :=
  MkApp (tripDetails s) (currentDestination s) (loading s) (error s) v
    (isSaved s) (searchHistory s) (activeTab s) (currentItineraryPage s)
    (selectedFlight s) (filters s) (displayedFlights s) (isLoadingMore s)
    (localStorage s) (pageTimers s) (planRequests s) (imageRequests s).

Definition set_isSaved (v : bool) (s : AppState) : AppState :=
  MkApp (tripDetails s) (currentDestination s) (loading s) (error s) (plan s)
    v (searchHistory s) (activeTab s) (currentItineraryPage s)
    (selectedFlight s) (filters s) (displayedFlights s) (isLoadingMore s)
    (localStorage s) (pageTimers s) (planRequests s) (imageRequests s).

Definition set_searchHistory (v : list HistoryItem.t) (s : AppState) : AppState :=
  MkApp (tripDetails s) (currentDestination s) (loading s) (error s) (plan s)
    (isSaved s) v (activeTab s) (currentItineraryPage s) (selectedFlight s)
    (filters s) (displayedFlights s) (isLoadingMore s) (localStorage s)
    (pageTimers s) (planRequests s) (imageRequests s).

Definition set_activeTab (v : string) (s : AppState) : AppState :=
  MkApp (tripDetails s) (currentDestination s) (loading s) (error s) (plan s)
    (isSaved s) (searchHistory s) v (currentItineraryPage s)
    (selectedFlight s) (filters s) (displayedFlights s) (isLoadingMore s)
    (localStorage s) (pageTimers s) (planRequests s) (imageRequests s).

Definition set_currentItineraryPage (v : nat) (s : AppState) : AppState :=
  MkApp (tripDetails s) (currentDestination s) (loading s) (error s) (plan s)
    (isSaved s) (searchHistory s) (activeTab s) v (selectedFlight s)
    (filters s) (displayedFlights s) (isLoadingMore s) (localStorage s)
    (pageTimers s) (planRequests s) (imageRequests s).

Definition set_selectedFlight (v : option Flight.t) (s : AppState) : AppState :=
  MkApp (tripDetails s) (currentDestination s) (loading s) (error s) (plan s)
    (isSaved s) (searchHistory s) (activeTab s) (currentItineraryPage s) v
    (filters s) (displayedFlights s) (isLoadingMore s) (localStorage s)
    (pageTimers s) (planRequests s) (imageRequests s).

Definition set_filters (v : Filters.t) (s : AppState) : AppState :=
  MkApp (tripDetails s) (currentDestination s) (loading s) (error s) (plan s)
    (isSaved s) (searchHistory s) (activeTab s) (currentItineraryPage s)
    (selectedFlight s) v (displayedFlights s) (isLoadingMore s)
    (localStorage s) (pageTimers s) (planRequests s) (imageRequests s).

Definition set_displayedFlights (v : list Flight.t) (s : AppState) : AppState :=
  MkApp (tripDetails s) (currentDestination s) (loading s) (error s) (plan s)
    (isSaved s) (searchHistory s) (activeTab s) (currentItineraryPage s)
    (selectedFlight s) (filters s) v (isLoadingMore s) (localStorage s)
    (pageTimers s) (planRequests s) (imageRequests s).

Definition set_isLoadingMore (v : bool) (s : AppState) : AppState :=
  MkApp (tripDetails s) (currentDestination s) (loading s) (error s) (plan s)
    (isSaved s) (searchHistory s) (activeTab s) (currentItineraryPage s)
    (selectedFlight s) (filters s) (displayedFlights s) v (localStorage s)
    (pageTimers s) (planRequests s) (imageRequests s).

Definition set_localStorage (v : Storage) (s : AppState) : AppState :=
  MkApp (tripDetails s) (currentDestination s) (loading s) (error s) (plan s)
    (isSaved s) (searchHistory s) (activeTab s) (currentItineraryPage s)
    (selectedFlight s) (filters s) (displayedFlights s) (isLoadingMore s) v
    (pageTimers s) (planRequests s) (imageRequests s).

Definition set_pageTimers (v : list PageTimer) (s : AppState) : AppState :=
  MkApp (tripDetails s) (currentDestination s) (loading s) (error s) (plan s)
    (isSaved s) (searchHistory s) (activeTab s) (currentItineraryPage s)
    (selectedFlight s) (filters s) (displayedFlights s) (isLoadingMore s)
    (localStorage s) v (planRequests s) (imageRequests s).

Definition set_planRequests (v : list TripDetails.t) (s : AppState) : AppState :=
  MkApp (tripDetails s) (currentDestination s) (loading s) (error s) (plan s)
    (isSaved s) (searchHistory s) (activeTab s) (currentItineraryPage s)
    (selectedFlight s) (filters s) (displayedFlights s) (isLoadingMore s)
    (localStorage s) (pageTimers s) v (imageRequests s).

Definition set_imageRequests (v : list (list ItineraryDestination.t)) (s : AppState) : AppState :=
  MkApp (tripDetails s) (currentDestination s) (loading s) (error s) (plan s)
    (isSaved s) (searchHistory s) (activeTab s) (currentItineraryPage s)
    (selectedFlight s) (filters s) (displayedFlights s) (isLoadingMore s)
    (localStorage s) (pageTimers s) (planRequests s) v.

(** ** Derived values and effects *)

(** [filteredFlights] in the current render. *)
Definition filtered (s : AppState) : list Flight.t :=
  filteredFlights (plan s) (filters s).

(** The effect on [filteredFlights]: the first page is displayed. *)
Definition reset_displayed (s : AppState) : AppState :=
  set_displayedFlights (take FLIGHTS_PER_PAGE (filtered s)) s.

(** [setPlan(v)] with a plan of its own arrays (or null), and the effects
    of the render that follows: [plan?.flights] changes, hence the memo and
    the displayed page, unless the plan was null and stays null. *)
Definition setPlan_value (v : option Plan.t) (s : AppState) : AppState :=
  match plan s, v with
  | None, None => s
  | _, _ => reset_displayed (set_plan v s)
  end.

(** ** Form handlers *)

(** [[name]: type === 'checkbox' ? checked : value] on the fields of the
    form: the one checkbox is [stopover], the other inputs hold the text
    typed.  A name that is no such field leaves the details as they are. *)
Definition handleInputChange (name value type : string) (checked : bool)
  (s : AppState) : AppState :=
  let d := tripDetails s in
  let '(TripDetails.mk p t o ds a c sd ed k v y) := d in
  let d' :=
    if String.eqb type "checkbox" then
      if String.eqb name "stopover" then TripDetails.mk p t o ds a c sd ed k checked y
      else d
    else if String.eqb name "prediction" then TripDetails.mk (FStr value) t o ds a c sd ed k v y
    else if String.eqb name "type" then TripDetails.mk p value o ds a c sd ed k v y
    else if String.eqb name "origin" then TripDetails.mk p t value ds a c sd ed k v y
    else if String.eqb name "adults" then TripDetails.mk p t o ds (FStr value) c sd ed k v y
    else if String.eqb name "children" then TripDetails.mk p t o ds a (FStr value) sd ed k v y
    else if String.eqb name "startDate" then TripDetails.mk p t o ds a c value ed k v y
    else if String.eqb name "endDate" then TripDetails.mk p t o ds a c sd value k v y
    else if String.eqb name "class" then TripDetails.mk p t o ds a c sd ed value v y
    else if String.eqb name "tripType" then TripDetails.mk p t o ds a c sd ed k v value
    else d in
  set_tripDetails d' s.

Definition with_destinations (ds : list string) (d : TripDetails.t) : TripDetails.t :=
  let '(TripDetails.mk p t o _ a c sd ed k v y) := d in
  TripDetails.mk p t o ds a c sd ed k v y.

Definition handleAddDestination (s : AppState) : AppState :=
  let d := tripDetails s in
  if negb (string_falsy (currentDestination s))
     && negb (bool_decide (currentDestination s ∈ TripDetails.destinations d))
  then
    set_currentDestination ""
      (set_tripDetails
         (with_destinations (TripDetails.destinations d ++ [currentDestination s]) d) s)
  else s.

Definition handleRemoveDestination (destToRemove : string) (s : AppState) : AppState :=
  let d := tripDetails s in
  set_tripDetails
    (with_destinations
       (List.filter (fun dest => negb (String.eqb dest destToRemove))
                    (TripDetails.destinations d)) d) s.

(** ** Flight list handlers *)

Definition handleFilterChange (name value : string) (s : AppState) : AppState :=
  let f := filters s in
  let f' :=
    if String.eqb name "airline" then Filters.mk value (Filters.stops f) (Filters.maxPrice f)
    else if String.eqb name "stops" then Filters.mk (Filters.airline f) value (Filters.maxPrice f)
    else if String.eqb name "maxPrice" then Filters.mk (Filters.airline f) (Filters.stops f) value
    else f in
  reset_displayed (set_filters f' s).

(** [lastFlightElementRef]: the observer of the current render, as the
    closure of its callback.  None is created while [isLoadingMore], and
    it observes a node only where the last row of the flight table is
    rendered: a plan, the tab "voos", a flight displayed. *)
Definition lastFlightElementRef (s : AppState) : option PageTimer :=
  if isLoadingMore s then None
  else
    match plan s, displayedFlights s with
    | Some _, _ :: _ =>
        if String.eqb (activeTab s) "voos"
        then Some {| timer_displayedFlights := displayedFlights s;
                     timer_filteredFlights := filtered s |}
        else None
    | _, _ => None
    end.

(** The callback of the IntersectionObserver: starts the 500ms timer. *)
Definition observer_callback (isIntersecting : bool) (s : AppState) : AppState :=
  match lastFlightElementRef s with
  | None => s
  | Some c =>
      let hasMore :=
        (length (timer_displayedFlights c) <? length (timer_filteredFlights c))%nat in
      if isIntersecting && hasMore
      then set_pageTimers (pageTimers s ++ [c]) (set_isLoadingMore true s)
      else s
  end.

(** [a.slice(from, to)] for [from <= to]. *)
Definition slice {A} (from to : nat) (a : list A) : list A :=
  take (to - from) (drop from a).

(** The callback of [setTimeout]: appends the page computed from the lists
    of its closure to the list displayed now. *)
Definition page_timer_callback (c : PageTimer) (s : AppState) : AppState :=
  let currentLength := length (timer_displayedFlights c) in
  let newFlights :=
    slice currentLength (currentLength + FLIGHTS_PER_PAGE) (timer_filteredFlights c) in
  set_isLoadingMore false (set_displayedFlights (displayedFlights s ++ newFlights) s).

Definition page_timer_fires (s : AppState) : AppState :=
  match pageTimers s with
  | c :: rest => page_timer_callback c (set_pageTimers rest s)
  | [] => s
  end.

(** ** Toggles and selection *)

Definition toggle_completed (item : ChecklistItem.t) : ChecklistItem.t :=
  ChecklistItem.mk (ChecklistItem.task item) (ChecklistItem.details item)
                   (negb (ChecklistItem.completed item)).

(** The handler runs on the last render, so the [plan] of its closure and
    the [prevPlan] of its updater are both the plan of the state. *)
Definition handleChecklistToggle (toggledIndex : Z) (s : AppState) : AppState :=
  match plan s with
  | None => s
  | Some p =>
      let newChecklist :=
        imap (fun index item =>
                if Z.of_nat index =? toggledIndex then toggle_completed item else item)
             (Plan.checklist p) in
      set_isSaved false (set_plan (Some (Plan.with_checklist newChecklist p)) s)
  end.

Definition toggle_packed (item : PackingItem.t) : PackingItem.t :=
  PackingItem.mk (PackingItem.item item) (PackingItem.quantity item)
                 (negb (PackingItem.packed item)).

(** The indices come from the rendered lists.  A category index out of
    range is a TypeError before any state is set; an item index out of
    range would store an item with no name, which is no [PackingItem]: the
    state is left as it is here. *)
Definition handlePackingListToggle (categoryIndex itemIndex : nat) (s : AppState)
  : AppState :=
  match plan s with
  | None => s
  | Some p =>
      match Plan.packing_list p !! categoryIndex with
      | None => s
      | Some category =>
          match PackingCategory.items category !! itemIndex with
          | None => s
          | Some item =>
              let category' :=
                PackingCategory.mk (PackingCategory.category category)
                  (<[itemIndex := toggle_packed item]> (PackingCategory.items category)) in
              let newPackingList := <[categoryIndex := category']> (Plan.packing_list p) in
              set_isSaved false (set_plan (Some (Plan.with_packing_list newPackingList p)) s)
          end
      end
  end.

Definition handleSelectFlight (P : Platform) (flight : Flight.t) (s : AppState)
  : AppState :=
  let same :=
    match selectedFlight s with
    | Some sel =>
        String.eqb (JSON_stringify P (encode_Flight sel))
                   (JSON_stringify P (encode_Flight flight))
    | None => false
    end in
  set_isSaved false (set_selectedFlight (if same then None else Some flight) s).

(** ** History *)

Definition PLAN_KEY : string := "ernest-travel-plan".
Definition HISTORY_KEY : string := "ernest-travel-history".

Definition handleLoadHistoryItem (itemDetails : TripDetails.t) (s : AppState) : AppState :=
  set_selectedFlight None
    (set_currentItineraryPage 0%nat
       (set_isSaved false
          (set_error "" (setPlan_value None (set_tripDetails itemDetails s))))).

Definition handleClearHistory (confirmed : bool) (s : AppState) : AppState :=
  if confirmed
  then set_localStorage (removeItem HISTORY_KEY (localStorage s)) (set_searchHistory [] s)
  else s.

Definition history_title (d : TripDetails.t) : string :=
  TripDetails.origin d +:+ " → " +:+ String.concat ", " (TripDetails.destinations d).

Definition same_details (P : Platform) (a b : TripDetails.t) : bool :=
  String.eqb (JSON_stringify P (encode_TripDetails a))
             (JSON_stringify P (encode_TripDetails b)).

(** The updater given to [setSearchHistory] in [generatePlan]. *)
Definition updatedHistory (P : Platform) (newHistoryItem : HistoryItem.t)
  (prevHistory : list HistoryItem.t) : list HistoryItem.t :=
  let filteredHistory :=
    List.filter
      (fun item => negb (same_details P (HistoryItem.details item)
                                        (HistoryItem.details newHistoryItem)))
      prevHistory in
  slice 0 5 (newHistoryItem :: filteredHistory).

(** The updater with its write to the storage; a failed write is logged. *)
Definition appendHistory (P : Platform) (newHistoryItem : HistoryItem.t)
  (s : AppState) : AppState :=
  let h := updatedHistory P newHistoryItem (searchHistory s) in
  let st :=
    match setItem HISTORY_KEY (JSON_stringify P (JArr (encode_HistoryItem <$> h)))
                  (localStorage s) with
    | Some st' => st'
    | None => localStorage s
    end in
  set_localStorage st (set_searchHistory h s).

(** ** Plan generation *)

Definition String_trim (s : string) : string :=
  String.string_of_list_ascii (trim (String.list_ascii_of_string s)).

Definition endsWith (suffix s : string) : bool :=
  String.prefix (String.rev suffix) (String.rev s).

Definition lastIndexOf (c s : string) : option nat :=
  match String.index 0 (String.rev c) (String.rev s) with
  | Some i => Some (String.length s - String.length c - i)%nat
  | None => None
  end.

(** [s.substring(a, b)]: the two ends are swapped when [b < a]. *)
Definition JS_substring (a b : nat) (s : string) : string :=
  String.substring (a `min` b) (a `max` b - a `min` b) s.

(** The text handed to [JSON.parse]: trimmed, and cut to the span from the
    first [{] to the last [}] when the text is inside a code fence. *)
Definition fenced_json (text : string) : string :=
  let responseText := String_trim text in
  if String.prefix "```" responseText && endsWith "```" responseText then
    match String.index 0 "{" responseText, lastIndexOf "}" responseText with
    | Some firstBrace, Some lastBrace =>
        JS_substring firstBrace (lastBrace + 1) responseText
    | _, _ => responseText
    end
  else responseText.

(** [{...item, k: flag}] *)
Definition with_flag (k : string) (flag : json) (item : json) : json :=
  JObj (set_member k flag (spread item)).

(** [jsonResponse] as [planWithChecklistState]: the flags of the checklist
    and of the packing list are forced to false; a packing list that is
    absent is the empty one.  [None] is a TypeError. *)
Definition assemble (jsonResponse : json) : option json :=
  checklist ←
    member "checklist" jsonResponse
      ≫= array_map (fun item => Some (with_flag "completed" (JBool false) item));
  packing_list ←
    match member "packing_list" jsonResponse with
    | None => None
    | Some None | Some (Some JNull) => Some (JArr [])
    | Some (Some l) =>
        array_map
          (fun cat =>
             items ←
               member "items" cat
                 ≫= array_map (fun item => Some (with_flag "packed" (JBool false) item));
             Some (with_flag "items" items cat))
          (Some l)
    end;
  Some (JObj (set_member "packing_list" packing_list
                (set_member "checklist" checklist (spread jsonResponse)))).

(** The first updater of [generateDestinationImages]. *)
Definition mark_images_loading (prevPlan : option Plan.t) : option Plan.t :=
  match prevPlan with
  | None => None
  | Some p =>
      let updatedItinerary :=
        ItineraryDestination.with_imageUrl image_loading <$> Plan.itinerary p in
      Some (Plan.with_itinerary updatedItinerary p)
  end.

(** [generateDestinationImages] up to its [await]: the loading marks, and
    one image request per destination. *)
Definition generateDestinationImages (destinations : list ItineraryDestination.t)
  (s : AppState) : AppState :=
  set_imageRequests (imageRequests s ++ [destinations])
    (set_plan (mark_images_loading (plan s)) s).

(** The updater queued for the result at [index]: [None] is the TypeError of
    writing to a slot the itinerary does not have. *)
Definition apply_image_result (index : nat) (result : option string)
  (prevPlan : option Plan.t) : option (option Plan.t) :=
  let url :=
    match result with
    | Some base64Image => image_data base64Image
    | None => image_null
    end in
  match prevPlan with
  | None => Some None
  | Some p =>
      match Plan.itinerary p !! index with
      | Some d =>
          let updatedItinerary :=
            <[index := ItineraryDestination.with_imageUrl url d]> (Plan.itinerary p) in
          Some (Some (Plan.with_itinerary updatedItinerary p))
      | None => None
      end
  end.

(** [results.forEach]: the updaters run in order on the plan of the state. *)
Fixpoint apply_image_results (index : nat) (results : list (option string))
  (prevPlan : option Plan.t) : option (option Plan.t) :=
  match results with
  | [] => Some prevPlan
  | r :: rest =>
      apply_image_result index r prevPlan ≫= apply_image_results (S index) rest
  end.

(** The batch [k] settles with one result per destination it asked for. *)
Definition images_settle (k : nat) (results : list (option string)) (s : AppState)
  : option AppState :=
  match imageRequests s !! k with
  | Some destinations =>
      if bool_decide (length results = length destinations) then
        p ← apply_image_results 0 results (plan s);
        Some (set_plan p (set_imageRequests (delete k (imageRequests s)) s))
      else Some s
  | None => Some s
  end.

Definition generatePlan (P : Platform) (apiKey : option string) (s : AppState)
  : AppState :=
  match apiKey with
  | Some key =>
      if string_falsy key then
        set_error "A chave de API não foi encontrada. Por favor, recarregue a página e insira sua chave." s
      else
        let d := tripDetails s in
        let s1 :=
          set_selectedFlight None
            (set_isSaved false (setPlan_value None (set_error "" (set_loading true s)))) in
        if negb (string_falsy (TripDetails.startDate d))
           && negb (string_falsy (TripDetails.endDate d))
           && num_leb (Date_valueOf P (TripDetails.endDate d))
                      (Date_valueOf P (TripDetails.startDate d))
        then
          set_loading false
            (set_error "A data de fim da viagem deve ser posterior à data de início. Por favor, ajuste as datas." s1)
        else set_planRequests (planRequests s1 ++ [d]) s1
  | None =>
      set_error "A chave de API não foi encontrada. Por favor, recarregue a página e insira sua chave." s
  end.

(** The continuation of [generatePlan] after the model has answered with
    [text], at the time [now]; [tripDetails] is the one of the click.  An
    answer that parses but is no value of the interface [Plan] takes the
    branch of the parse error here. *)
Definition plan_response (P : Platform) (text now : string) (s : AppState) : AppState :=
  match planRequests s with
  | [] => s
  | d :: rest =>
      let s0 := set_planRequests rest s in
      let responseText := fenced_json text in
      let s1 :=
        match jsonResponse ← JSON_parse P responseText;
              assemble jsonResponse ≫= decode_Plan with
        | Some planWithChecklistState =>
            let s2 :=
              set_currentItineraryPage 0%nat
                (set_activeTab "roteiro"
                   (setPlan_value (Some planWithChecklistState) s0)) in
            let s3 :=
              generateDestinationImages (Plan.itinerary planWithChecklistState) s2 in
            let newHistoryItem := HistoryItem.mk now (history_title d) d in
            appendHistory P newHistoryItem s3
        | None =>
            set_error "A resposta da IA está em um formato inválido. Por favor, tente novamente." s0
        end in
      set_loading false s1
  end.

(** The request itself fails. *)
Definition plan_request_fails (s : AppState) : AppState :=
  match planRequests s with
  | [] => s
  | _ :: rest =>
      set_loading false
        (set_error "Desculpe, não foi possível gerar o plano de viagem. Por favor, tente novamente."
           (set_planRequests rest s))
  end.

(** ** Persistence *)

Definition snapshot (p : Plan.t) (d : TripDetails.t) (f : option Flight.t) : json :=
  JObj [("plan", encode_Plan p);
        ("tripDetails", encode_TripDetails d);
        ("selectedFlight", encode_selectedFlight f)].

Definition handleSavePlan (P : Platform) (s : AppState) : AppState :=
  match plan s with
  | Some p =>
      let dataToSave :=
        JSON_stringify P (snapshot p (tripDetails s) (selectedFlight s)) in
      match setItem PLAN_KEY dataToSave (localStorage s) with
      | Some st => set_isSaved true (set_localStorage st s)
      | None =>
          set_error "Não foi possível salvar o plano. O armazenamento local pode estar cheio." s
      end
  | None => s
  end.

(** [{...savedPlan, checklist: ..., packing_list: ...}] of the load effect:
    a flag that is absent or falsy becomes false.  A [packing_list] that
    comes out undefined is written as an absent member. *)
Definition restore_flags (savedPlan : json) : option json :=
  checklist ←
    member "checklist" savedPlan
      ≫= array_map (fun item =>
            c ← member "completed" item;
            Some (with_flag "completed" (js_or c (JBool false)) item));
  packing_list ←
    match member "packing_list" savedPlan with
    | None => None
    | Some None | Some (Some JNull) => Some None
    | Some (Some l) =>
        Some <$>
          array_map
            (fun cat =>
               items ←
                 member "items" cat
                   ≫= array_map (fun item =>
                         p ← member "packed" item;
                         Some (with_flag "packed" (js_or p (JBool false)) item));
               Some (with_flag "items" items cat))
            (Some l)
    end;
  let m := set_member "checklist" checklist (spread savedPlan) in
  Some (JObj match packing_list with
             | Some l => set_member "packing_list" l m
             | None => List.filter (fun kv => negb (String.eqb (fst kv) "packing_list")) m
             end).

Record Snapshot : Type := {
  saved_plan : Plan.t;
  saved_tripDetails : TripDetails.t;
  saved_selectedFlight : option Flight.t
}.

(** The body of the [try] of the load effect on the stored text.  [None] is
    an exception (a text that does not parse, a value that has not the
    shape read, or one that is no value of the annotated types);
    [Some None] is the case where nothing is restored. *)
Definition restore (P : Platform) (savedPlanData : string) : option (option Snapshot) :=
  data ← JSON_parse P savedPlanData;
  savedPlan ← member "plan" data;
  savedTripDetails ← member "tripDetails" data;
  savedFlight ← member "selectedFlight" data;
  match savedPlan, savedTripDetails with
  | Some sp, Some sd =>
      if truthy sp && truthy sd then
        planWithCheckedState ← restore_flags sp ≫= decode_Plan;
        d ← decode_TripDetails sd;
        f ← decode_selectedFlight (js_or savedFlight JNull);
        Some (Some {| saved_plan := planWithCheckedState;
                      saved_tripDetails := d;
                      saved_selectedFlight := f |})
      else Some None
  | _, _ => Some None
  end.

(** The load effect, first [try]: the plan. *)
Definition load_plan (P : Platform) (s : AppState) : AppState :=
  match getItem PLAN_KEY (localStorage s) with
  | Some savedPlanData =>
      if string_falsy savedPlanData then s
      else
        match restore P savedPlanData with
        | Some (Some snap) =>
            set_isSaved true
              (set_selectedFlight (saved_selectedFlight snap)
                 (set_tripDetails (saved_tripDetails snap)
                    (setPlan_value (Some (saved_plan snap)) s)))
        | Some None => s
        | None => set_localStorage (removeItem PLAN_KEY (localStorage s)) s
        end
  | None => s
  end.

(** The load effect, second [try]: the history.  A stored value that is no
    list of history items takes the branch of the exception here. *)
Definition load_history (P : Platform) (s : AppState) : AppState :=
  match getItem HISTORY_KEY (localStorage s) with
  | Some savedHistory =>
      if string_falsy savedHistory then s
      else
        match as_list decode_HistoryItem (JSON_parse P savedHistory) with
        | Some h => set_searchHistory h s
        | None => set_localStorage (removeItem HISTORY_KEY (localStorage s)) s
        end
  | None => s
  end.

(** ** The component as a transition system *)

(** The state of the first render, in the year [year], over a storage. *)
Definition initial_state (year : Z) (st : Storage) : AppState :=
  {| tripDetails :=
       TripDetails.mk (FNum (of_int (year + 1))) "Internacional" "São Paulo"
         ["Lisboa"; "Londres"] (FNum (of_int 2)) (FNum (of_int 0)) "" ""
         "Econômica" false "Aventura";
     currentDestination := "";
     loading := false;
     error := "";
     plan := None;
     isSaved := false;
     searchHistory := [];
     activeTab := "roteiro";
     currentItineraryPage := 0%nat;
     selectedFlight := None;
     filters := Filters.mk "all" "all" "";
     displayedFlights := [];
     isLoadingMore := false;
     localStorage := st;
     pageTimers := [];
     planRequests := [];
     imageRequests := [] |}.

(** The first render and its effects. *)
Definition mount (P : Platform) (year : Z) (st : Storage) : AppState :=
  load_history P (load_plan P (reset_displayed (initial_state year st))).

(** The two buttons under the itinerary: [p => p + 1] and [p => p - 1],
    each disabled at its end of the itinerary. *)
Definition itinerary_page (next : bool) (s : AppState) : AppState :=
  match plan s with
  | Some p =>
      let page := currentItineraryPage s in
      if next then
        if (S page =? length (Plan.itinerary p))%nat then s
        else set_currentItineraryPage (S page) s
      else
        if (page =? 0)%nat then s else set_currentItineraryPage (pred page) s
  | None => s
  end.

Inductive Event : Type :=
  | InputChange (name value type : string) (checked : bool)
  | CurrentDestinationChange (value : string)
  | AddDestination
  | RemoveDestination (destToRemove : string)
  | FilterChange (name value : string)
  | LastRowObserved (isIntersecting : bool)
  | PageTimerFires
  | LoadHistoryItem (itemDetails : TripDetails.t)
  | ClearHistory (confirmed : bool)
  | ChecklistToggle (toggledIndex : Z)
  | PackingListToggle (categoryIndex itemIndex : nat)
  | SelectFlight (flight : Flight.t)
  | GeneratePlan (apiKey : option string)
  | PlanResponse (text now : string)
  | PlanRequestFails
  | ImagesSettle (k : nat) (results : list (option string))
  | SavePlan
  | TabClick (tab : string)
  | ItineraryPage (next : bool).

(** One event handled, with the render and the effects that follow.
    [None]: an updater has thrown, and the component is gone.  The buttons
    that are disabled in a state do nothing in it. *)
Definition step (P : Platform) (e : Event) (s : AppState) : option AppState :=
  match e with
  | InputChange name value type checked => Some (handleInputChange name value type checked s)
  | CurrentDestinationChange value => Some (set_currentDestination value s)
  | AddDestination => Some (handleAddDestination s)
  | RemoveDestination d => Some (handleRemoveDestination d s)
  | FilterChange name value => Some (handleFilterChange name value s)
  | LastRowObserved isIntersecting => Some (observer_callback isIntersecting s)
  | PageTimerFires => Some (page_timer_fires s)
  | LoadHistoryItem d => Some (handleLoadHistoryItem d s)
  | ClearHistory confirmed => Some (handleClearHistory confirmed s)
  | ChecklistToggle i => Some (handleChecklistToggle i s)
  | PackingListToggle c i => Some (handlePackingListToggle c i s)
  | SelectFlight f => Some (handleSelectFlight P f s)
  | GeneratePlan apiKey => Some (if loading s then s else generatePlan P apiKey s)
  | PlanResponse text now => Some (plan_response P text now s)
  | PlanRequestFails => Some (plan_request_fails s)
  | ImagesSettle k results => images_settle k results s
  | SavePlan => Some (if isSaved s then s else handleSavePlan P s)
  | TabClick tab => Some (set_activeTab tab s)
  | ItineraryPage next => Some (itinerary_page next s)
  end.

(** A run: the events of a list handled one after the other. *)
Fixpoint run (P : Platform) (es : list Event) (s : AppState) : option AppState :=
  match es with
  | [] => Some s
  | e :: rest => step P e s ≫= run P rest
  end.

Definition empty_storage (quota : nat) : Storage := {| items := ∅; quota := quota |}.

(** The states of a session: those a run reaches from the first render
    over the storage of a first visit. *)
Definition reachable (P : Platform) (s : AppState) : Prop :=
  exists year quota es, run P es (mount P year (empty_storage quota)) = Some s.

(** ** A platform to run the component on

    One implementation of the built-ins: a JSON printer and parser and the
    time value of a date-only string.  The theorems below hold for every
    platform; this one runs the examples. *)

Module Reference.

(** The double quote, the character 34. *)
Abbreviation dquote := (Ascii false true false false false true false false).

Definition hex_digit (n : nat) : ascii :=
  ascii_of_nat (if (n <? 10)%nat then 48 + n else 87 + n).

Fixpoint escape (l : list ascii) : list ascii :=
  match l with
  | c :: r =>
      let n := nat_of_ascii c in
      (if (n =? 34)%nat then ["\"; dquote]
       else if (n =? 92)%nat then ["\"; "\"]
       else if (n <? 32)%nat
            then ["\"; "u"; "0"; "0"; hex_digit (n / 16); hex_digit (n mod 16)]
            else [c])%char ++ escape r
  | [] => []
  end.

Definition print_string (s : string) : string :=
  String dquote
    (String.string_of_list_ascii (escape (String.list_ascii_of_string s)))
  +:+ String dquote EmptyString.

Definition print_number (n : number) : string :=
  match n with
  | Finite m e => if e =? 0 then pretty m else pretty m +:+ "e" +:+ pretty e
  | _ => "null"
  end.

Fixpoint print (v : json) : string :=
  match v with
  | JNull => "null"
  | JBool true => "true"
  | JBool false => "false"
  | JNum n => print_number n
  | JStr s => print_string s
  | JArr l => "[" +:+ String.concat "," (map print l) +:+ "]"
  | JObj m =>
      "{" +:+ String.concat ","
                (map (fun kv => print_string (fst kv) +:+ ":" +:+ print (snd kv)) m)
          +:+ "}"
  end.

(** The characters of a string up to its closing quote, and the rest. *)
Fixpoint read_string (l : list ascii) : option (list ascii * list ascii) :=
  match l with
  | dquote :: r => Some ([], r)
  | "\"%char :: "u"%char :: a :: b :: c :: d :: r =>
      match digit_value 16 a, digit_value 16 b, digit_value 16 c, digit_value 16 d with
      | Some 0, Some 0, Some x, Some y =>
          '(s, r') ← read_string r;
          Some (ascii_of_nat (Z.to_nat (16 * x + y)) :: s, r')
      | _, _, _, _ => None
      end
  | "\"%char :: e :: r =>
      let c :=
        if bool_decide (e = "n"%char) then Some (ascii_of_nat 10)
        else if bool_decide (e = "t"%char) then Some (ascii_of_nat 9)
        else if bool_decide (e = "r"%char) then Some (ascii_of_nat 13)
        else if bool_decide (e = "b"%char) then Some (ascii_of_nat 8)
        else if bool_decide (e = "f"%char) then Some (ascii_of_nat 12)
        else if bool_decide (e = dquote) || bool_decide (e = "\"%char)
                || bool_decide (e = "/"%char) then Some e
        else None in
      x ← c; '(s, r') ← read_string r; Some (x :: s, r')
  | c :: r => '(s, r') ← read_string r; Some (c :: s, r')
  | [] => None
  end.

Definition read_number (l : list ascii) : option (number * list ascii) :=
  let '(neg, l1) := read_sign l in
  let '(ip, ki, l2) := read_digits 10 0 0%nat l1 in
  let '(m, kf, l3) :=
    match l2 with
    | "."%char :: r => read_digits 10 ip 0%nat r
    | _ => (ip, 0%nat, l2)
    end in
  if (ki =? 0)%nat then None
  else '(ex, r) ← read_exponent l3; Some (Finite (signed neg m) (ex - Z.of_nat kf), r).

Definition literal (word : string) (v : json) (l : list ascii)
  : option (json * list ascii) :=
  let w := String.list_ascii_of_string word in
  if bool_decide (take (length w) l = w) then Some (v, drop (length w) l) else None.

Fixpoint read_value (fuel : nat) (l : list ascii) : option (json * list ascii) :=
  match fuel with
  | O => None
  | S fuel' =>
      match trim_left l with
      | "n"%char :: _ => literal "null" JNull (trim_left l)
      | "t"%char :: _ => literal "true" (JBool true) (trim_left l)
      | "f"%char :: _ => literal "false" (JBool false) (trim_left l)
      | dquote :: r =>
          '(s, r') ← read_string r; Some (JStr (String.string_of_list_ascii s), r')
      | "["%char :: r =>
          match trim_left r with
          | "]"%char :: r' => Some (JArr [], r')
          | _ => '(vs, r') ← read_elements fuel' r; Some (JArr vs, r')
          end
      | "{"%char :: r =>
          match trim_left r with
          | "}"%char :: r' => Some (JObj [], r')
          | _ => '(kvs, r') ← read_members fuel' r; Some (JObj kvs, r')
          end
      | l' => '(n, r) ← read_number l'; Some (JNum n, r)
      end
  end
with read_elements (fuel : nat) (l : list ascii) : option (list json * list ascii) :=
  match fuel with
  | O => None
  | S fuel' =>
      '(v, r) ← read_value fuel' l;
      match trim_left r with
      | ","%char :: r' => '(vs, r'') ← read_elements fuel' r'; Some (v :: vs, r'')
      | "]"%char :: r' => Some ([v], r')
      | _ => None
      end
  end
with read_members (fuel : nat) (l : list ascii)
  : option (list (string * json) * list ascii) :=
  match fuel with
  | O => None
  | S fuel' =>
      match trim_left l with
      | dquote :: r =>
          '(k, r1) ← read_string r;
          match trim_left r1 with
          | ":"%char :: r2 =>
              '(v, r3) ← read_value fuel' r2;
              let kv := (String.string_of_list_ascii k, v) in
              match trim_left r3 with
              | ","%char :: r4 => '(kvs, r5) ← read_members fuel' r4; Some (kv :: kvs, r5)
              | "}"%char :: r4 => Some ([kv], r4)
              | _ => None
              end
          | _ => None
          end
      | _ => None
      end
  end.

Definition parse (s : string) : option json :=
  let l := String.list_ascii_of_string s in
  '(v, r) ← read_value (S (length l)) l;
  match trim_left r with
  | [] => Some v
  | _ => None
  end.

(** Days from 1970-01-01 to the day [d] of the month [m] of the year [y]. *)
Definition days_from_civil (y m d : Z) : Z :=
  let y' := if m <=? 2 then y - 1 else y in
  let era := y' / 400 in
  let yoe := y' - era * 400 in
  let doy := (153 * (if 2 <? m then m - 3 else m + 9) + 2) / 5 + d - 1 in
  let doe := yoe * 365 + yoe / 4 - yoe / 100 + doy in
  era * 146097 + doe - 719468.

(** The time value of a date input's [YYYY-MM-DD]; NaN for another text. *)
Definition date_valueOf (s : string) : number :=
  match String.list_ascii_of_string s with
  | [y1; y2; y3; y4; "-"%char; m1; m2; "-"%char; d1; d2] =>
      match read_digits 10 0 0%nat [y1; y2; y3; y4],
            read_digits 10 0 0%nat [m1; m2], read_digits 10 0 0%nat [d1; d2] with
      | (y, 4%nat, []), (m, 2%nat, []), (d, 2%nat, []) =>
          if (1 <=? m) && (m <=? 12) && (1 <=? d) && (d <=? 31)
          then Finite (days_from_civil y m d * 86400000) 0
          else NaN
      | _, _, _ => NaN
      end
  | _ => NaN
  end.

Definition platform : Platform :=
  {| JSON_stringify := print; JSON_parse := parse; Date_valueOf := date_valueOf |}.

End Reference.

(** The key by which the history is deduplicated: the text of the details. *)
Definition details_key (P : Platform) (item : HistoryItem.t) : string :=
  JSON_stringify P (encode_TripDetails (HistoryItem.details item)).

(** Sample data: a plan with a checklist, and a state that holds it. *)
Definition sample_plan : Plan.t :=
  Plan.mk [] no_costs
    [ChecklistItem.mk "Passaporte" "Conferir a validade" false;
     ChecklistItem.mk "Seguro" "Contratar seguro viagem" true]
    [flight_A; flight_B; flight_C] [] [] [].

Definition sample_state : AppState :=
  set_plan (Some sample_plan) (initial_state 2025 (empty_storage 4096)).

(** Sample data: an answer of the model, as the text of a payload. *)
Definition destination (name : string) : ItineraryDestination.t :=
  ItineraryDestination.mk name "" [] "" "" [] None.

Definition payload (names : list string) (flights : list Flight.t) : json :=
  JObj [("itinerary", JArr (encode_ItineraryDestination ∘ destination <$> names));
        ("costs", encode_CostDetails no_costs);
        ("checklist",
          JArr [JObj [("task", JStr "Passaporte"); ("details", JStr "Conferir a validade")]]);
        ("packing_list",
          JArr [JObj [("category", JStr "Documentos");
                      ("items", JArr [JObj [("item", JStr "Passaporte");
                                            ("quantity", JNum (of_int 1))]])]]);
        ("flights", JArr (encode_Flight <$> flights));
        ("locations", JArr []);
        ("weather", JArr [])].

Definition answer (names : list string) (flights : list Flight.t) : string :=
  Reference.print (payload names flights).

(** Eleven flights of the airline "A" and a last one of the airline "B". *)
Definition flights_A (n : nat) : list Flight.t :=
  (fun i => Flight.mk "A" 0 (Finite (100 + Z.of_nat i) 0) "Y") <$> seq 1 n.

Definition twelve_flights : list Flight.t := flights_A 11 ++ [flight_B].

Definition first_visit : AppState :=
  Eval vm_compute in mount Reference.platform 2025 (empty_storage 4096).

(** A plan is asked for and the model answers. *)
Definition plan_arrives (names : list string) (flights : list Flight.t) (now : string)
  : list Event :=
  [GeneratePlan (Some "key"); PlanResponse (answer names flights) now].

(** Sample sessions on the reference platform. *)
Definition session (es : list Event) : option AppState :=
  run Reference.platform es first_visit.

Definition first_plan : list Event :=
  plan_arrives ["Lisboa"; "Londres"] twelve_flights "2025-01-01T10:00:00.000Z".


Definition after_first_plan : AppState :=
  Eval vm_compute in default first_visit (session first_plan).

Definition flight_A11 : Flight.t := Flight.mk "A" 0 (Finite 111 0) "Y".

(** The flights tab is open and the last row comes into view. *)
Definition last_row_seen : list Event := [TabClick "voos"; LastRowObserved true].

(** A filter is changed while the page timer is pending. *)
Definition stale_page_events : list Event :=
  first_plan ++ last_row_seen ++ [FilterChange "airline" "B"; PageTimerFires].

Definition after_stale_page : AppState :=
  Eval vm_compute in default first_visit (session stale_page_events).

Definition on_flights_tab : AppState :=
  Eval vm_compute in default first_visit (session (first_plan ++ [TabClick "voos"])).


(** A second plan is asked for (the first is cleared) while the images of
    the first are still awaited. *)
Definition after_plan_cleared : AppState :=
  Eval vm_compute in
    default first_visit (session (first_plan ++ [GeneratePlan (Some "key")])).

(** The events that hand the plan to the image fill or replace it by a
    newly assembled one. *)
Definition fills_or_replaces (e : Event) : bool :=
  match e with
  | ImagesSettle _ _ | PlanResponse _ _ => true
  | _ => false
  end.

(** The invariant of the history ring in a state. *)
Definition ring_ok (P : Platform) (s : AppState) : Prop :=
  (length (searchHistory s) <= 5)%nat /\ NoDup (details_key P <$> searchHistory s).

(** The plan assembled from the first answer, and the plan the state holds
    once the answer is handled. *)
Definition first_plan_assembled : Plan.t :=
  Eval vm_compute in
    default sample_plan
      (jsonResponse ← Reference.parse
                        (fenced_json (answer ["Lisboa"; "Londres"] twelve_flights));
       assemble jsonResponse ≫= decode_Plan).

Definition first_plan_held : Plan.t :=
  Eval vm_compute in default sample_plan (plan after_first_plan).

(** The item [i] of the category [c] of the packing list of a plan. *)
Definition packing_item (p : Plan.t) (c i : nat) : option PackingItem.t :=
  Plan.packing_list p !! c ≫= fun category => PackingCategory.items category !! i.

(** The last row of the flight table comes into view and the timer it
    starts fires, with no event in between. *)
Definition load_next_page (s : AppState) : AppState :=
  page_timer_fires (observer_callback true s).

(** The image state a result of the batch leaves on its destination. *)
Definition settled_image (result : option string) : ImageUrl :=
  match result with
  | Some base64Image => image_data base64Image
  | None => image_null
  end.

(** The destinations with the results of a batch written to them, one
    result per destination from the first on. *)
Definition settle_images (results : list (option string))
  (itinerary : list ItineraryDestination.t) : list ItineraryDestination.t :=
  zip_with (fun r d => ItineraryDestination.with_imageUrl (settled_image r) d)
           results itinerary.

(** The state holds what the snapshot of the plan [p0], the trip details
    [d0] and the selection [f0] has put in the storage: the record of the
    plan is the text of that snapshot, the flight selected is [f0], and
    the plan held is [p0] up to the images of its destinations. *)
Definition saved_snapshot (P : Platform) (s : AppState) (p0 : Plan.t)
  (d0 : TripDetails.t) (f0 : option Flight.t) : Prop :=
  selectedFlight s = f0
  /\ getItem PLAN_KEY (localStorage s) = Some (JSON_stringify P (snapshot p0 d0 f0))
  /\ exists p, plan s = Some p
       /\ mark_images_loading (Some p0) = mark_images_loading (Some p).

(** A plan with a flight whose price is infinite (the number that
    [JSON.parse] gives for a literal such as 1e999), and a state that holds
    it. *)
Definition unbounded_price_plan : Plan.t :=
  plan_of_flights [Flight.mk "A" 0 (Infinity false) "Y"].

Definition unbounded_price_state : AppState :=
  setPlan_value (Some unbounded_price_plan) (initial_state 2025 (empty_storage 4096)).

(** A flight is selected and the plan is saved. *)
Definition after_save : AppState :=
  Eval vm_compute in
    default first_visit (session (first_plan ++ [SelectFlight flight_B; SavePlan])).

(** A plan has been asked for on the first visit. *)
Definition plan_asked : AppState :=
  Eval vm_compute in default first_visit (session [GeneratePlan (Some "key")]).

(** A storage whose two records are no JSON text. *)
Definition unreadable_storage : Storage :=
  {| items := {[ PLAN_KEY := "{plan"; HISTORY_KEY := "[history" ]}; quota := 4096 |}.

(** The entry the first plan has left in the history, and the state after
    it has been loaded into the form and run again. *)
Definition first_entry : HistoryItem.t :=
  Eval vm_compute in
    default (HistoryItem.mk "" "" (tripDetails first_visit))
            (head (searchHistory after_first_plan)).

Definition rerun_events : list Event :=
  [LoadHistoryItem (HistoryItem.details first_entry); GeneratePlan (Some "key");
   PlanResponse (answer ["Lisboa"; "Londres"] twelve_flights) "2025-01-05T09:00:00.000Z"].

Definition after_rerun : AppState :=
  Eval vm_compute in
    default first_visit (run Reference.platform rerun_events after_first_plan).

(** The events of the form: they change the trip details and the
    destination being typed. *)
Definition form_edit (e : Event) : bool :=
  match e with
  | InputChange _ _ _ _ | CurrentDestinationChange _ | AddDestination
  | RemoveDestination _ => true
  | _ => false
  end.

(** The origin is edited while the plan is awaited. *)
Definition edited_while_loading : list Event :=
  [GeneratePlan (Some "key"); InputChange "origin" "Rio" "text" false;
   PlanResponse (answer ["Lisboa"; "Londres"] twelve_flights) "2025-01-01T10:00:00.000Z"].

Definition after_edit_while_loading : AppState :=
  Eval vm_compute in default first_visit (session edited_while_loading).

(** An answer inside a code fence: the line of the opening fence, the
    text, and the closing fence on a line of its own. *)
Definition fenced (body : string) : string :=
  "```json" +:+ String "010"%char (body +:+ String "010"%char "```").

(* ===================================================================== *)
(** * Properties *)
(* ===================================================================== *)

Example JS_Number_samples :
  JS_Number "5000" = Finite 5000 0 /\ JS_Number "4500.50" = Finite 450050 (-2) /\
  JS_Number "0" = Finite 0 0 /\ JS_Number "-5" = Finite (-5) 0 /\
  JS_Number " 12e3 " = Finite 12 3 /\ JS_Number ".5" = Finite 5 (-1) /\
  JS_Number "0x1F" = Finite 31 0 /\ JS_Number "abc" = NaN /\
  JS_Number "12px" = NaN /\ JS_Number "." = NaN /\ JS_Number "1e" = NaN /\
  JS_Number "" = Finite 0 0 /\ JS_Number "-Infinity" = Infinity true.
Proof. repeat split; reflexivity. Qed.

(** ** Numbers *)

Lemma num_leb_le x y : num_leb x y = true <-> num_le x y.
Proof.
  split.
  - destruct x as [|[]|m1 e1], y as [|[]|m2 e2]; simpl; try discriminate;
      intros H; try (constructor; discriminate).
    apply le_finite. unfold finite_leb in H. lia.
  - intros H. destruct H as [y Hy|x Hx|m1 e1 m2 e2 H].
    + destruct y as [|[]|]; done.
    + destruct x as [|[]|]; done.
    + simpl. unfold finite_leb. lia.
Qed.

#[global] Instance num_le_dec x y : Decision (num_le x y).
Proof.
  refine (cast_if (decide (num_leb x y = true))); by rewrite <- num_leb_le.
Defined.

Lemma num_le_NaN_r x : ~ num_le x NaN.
Proof. intros H. inversion H; congruence. Qed.

#[global] Instance price_within_dec s p : Decision (price_within s p).
Proof. unfold price_within. apply _. Defined.

#[global] Instance flight_passes_dec c f : Decision (flight_passes c f).
Proof. unfold flight_passes. apply _. Defined.

#[global] Instance spec_flightMatches_dec c f : Decision (spec_flightMatches c f).
Proof.
  unfold spec_flightMatches.
  destruct (valid_positive_max (Filters.maxPrice c)); apply _.
Defined.

(** ** The flight filter *)

Lemma flightMatches_passes c f : flightMatches c f = true <-> flight_passes c f.
Proof.
  unfold flightMatches, flight_passes, price_within, string_falsy.
  rewrite !andb_true_iff, !orb_true_iff, !String.eqb_eq, num_leb_le.
  tauto.
Qed.

Lemma filteredFlights_filter (plan : option Plan.t) (filters : Filters.t) :
  filteredFlights plan filters
  = filter (flight_passes filters) (from_option Plan.flights [] plan).
Proof.
  destruct plan as [p|]; simpl; [|done].
  induction (Plan.flights p) as [|f l IH]; simpl; [done|].
  rewrite filter_cons, IH.
  destruct (flightMatches filters f) eqn:E; case_decide as Hp; try done.
  - apply flightMatches_passes in E. done.
  - apply flightMatches_passes in Hp. congruence.
Qed.

(** C1, as amended: the filtered list is exactly the flights of the plan,
    in their order, that pass the conjunction of: the airline criterion is
    "all" or equals the flight's airline; the stop criterion is "all" or
    equals the flight's stop count written as a string; the maximum price
    is the empty string or the price is at most [Number(maxPrice)] (so a
    maximum that is zero or negative constrains, and one that is not a
    number lets nothing through).  A plan that is absent has no filtered
    flights.  The computation is a total function. *)
Theorem filteredFlights_conjunctive (plan : option Plan.t) (filters : Filters.t) :
  let flights := from_option Plan.flights [] plan in
  filteredFlights plan filters = filter (flight_passes filters) flights
  /\ (forall flight,
        flight ∈ filteredFlights plan filters
        <-> flight ∈ flights
            /\ (Filters.airline filters = "all"
                \/ Flight.airline flight = Filters.airline filters)
            /\ (Filters.stops filters = "all"
                \/ JS_String (Flight.stops flight) = Filters.stops filters)
            /\ (Filters.maxPrice filters = ""
                \/ num_le (Flight.price flight) (JS_Number (Filters.maxPrice filters))))
  /\ filteredFlights plan filters `sublist_of` flights.
Proof.
  intros flights. rewrite filteredFlights_filter. fold flights.
  split; [done|]. split; [|apply sublist_filter].
  intros flight. rewrite list_elem_of_filter.
  unfold flight_passes, price_within. tauto.
Qed.

(** C1, as stated, fails: with the maximum price "0" (not a positive
    number, so the price should be unconstrained) the flight priced 100 is
    filtered out. *)
Lemma filteredFlights_max_zero_counterexample :
  filteredFlights (Some (plan_of_flights [flight_A])) (Filters.mk "all" "all" "0") = []
  /\ filter (spec_flightMatches (Filters.mk "all" "all" "0")) [flight_A] = [flight_A]
  /\ filteredFlights (Some (plan_of_flights [flight_A])) (Filters.mk "all" "all" "0")
     <> filter (spec_flightMatches (Filters.mk "all" "all" "0")) [flight_A].
Proof. split; [reflexivity|]. split; [reflexivity|]. vm_compute. discriminate. Qed.

(** A maximum price that is not a number lets no flight through. *)
Lemma filteredFlights_max_NaN (p : Plan.t) (filters : Filters.t) :
  Filters.maxPrice filters <> "" ->
  JS_Number (Filters.maxPrice filters) = NaN ->
  filteredFlights (Some p) filters = [].
Proof.
  intros Hne HNaN. rewrite filteredFlights_filter. simpl.
  induction (Plan.flights p) as [|f l IH]; [done|].
  rewrite filter_cons, IH. case_decide as H; [|done].
  destruct H as (_ & _ & [H|H]); [done|].
  rewrite HNaN in H. by apply num_le_NaN_r in H.
Qed.

Example filteredFlights_spec_example :
  filteredFlights (Some (plan_of_flights [flight_A; flight_B; flight_C]))
                  (Filters.mk "all" "0" "")
  = [flight_A].
Proof. reflexivity. Qed.

Example filteredFlights_malformed_max :
  filteredFlights (Some (plan_of_flights [flight_A; flight_B; flight_C]))
                  (Filters.mk "all" "all" "abc")
  = [].
Proof. reflexivity. Qed.

(** With the airline wildcard and no maximum price, the stop bucket "2"
    keeps the flights with exactly two stops, and only those. *)
Lemma filteredFlights_stops_two (p : Plan.t) :
  filteredFlights (Some p) (Filters.mk "all" "2" "")
  = filter (fun f => Flight.stops f = 2) (Plan.flights p).
Proof.
  rewrite filteredFlights_filter. simpl.
  apply list_filter_iff. intros f. unfold flight_passes, price_within. simpl.
  split.
  - intros (_ & [H|H] & _); [discriminate H|].
    change "2" with (pretty 2) in H. unfold JS_String in H.
    by apply (inj (pretty : Z -> string)) in H.
  - intros ->. tauto.
Qed.

(** C6 fails on the code: under the bucket "2" (labelled "2+ Paradas" in
    the select) a flight with three stops is filtered out, although its
    stop count is at least 2. *)
Theorem filteredFlights_bucket_two_drops_three_stops :
  filteredFlights (Some (plan_of_flights [flight_D])) (Filters.mk "all" "2" "") = []
  /\ 2 <= Flight.stops flight_D.
Proof. split; [reflexivity | simpl; lia]. Qed.

(** ** The checklist toggle *)

Lemma with_checklist_id (p : Plan.t) : Plan.with_checklist (Plan.checklist p) p = p.
Proof. by destruct p. Qed.

Lemma set_plan_id (s : AppState) (p : Plan.t) : plan s = Some p -> set_plan (Some p) s = s.
Proof. destruct s; simpl; by intros ->. Qed.

(** What [map] with the index test computes: the list with the one item at
    the index replaced, or the list itself when no index matches. *)
Lemma toggle_map_lookup (l : list ChecklistItem.t) (i : Z) (j : nat) :
  imap (fun index item =>
          if Z.of_nat index =? i then toggle_completed item else item) l !! j
  = (fun item => if Z.of_nat j =? i then toggle_completed item else item) <$> l !! j.
Proof. by rewrite list_lookup_imap. Qed.

Lemma toggle_map_in_range (l : list ChecklistItem.t) (i : nat) (item : ChecklistItem.t) :
  l !! i = Some item ->
  imap (fun index item =>
          if Z.of_nat index =? Z.of_nat i then toggle_completed item else item) l
  = <[i := toggle_completed item]> l.
Proof.
  intros Hi. apply list_eq. intros j. rewrite toggle_map_lookup.
  destruct (decide (j = i)) as [->|Hne].
  - rewrite Z.eqb_refl, Hi, list_lookup_insert_eq; [done|].
    by apply lookup_lt_Some in Hi.
  - rewrite list_lookup_insert_ne by done.
    destruct (Z.eqb_spec (Z.of_nat j) (Z.of_nat i)) as [E|_]; [lia|].
    by destruct (l !! j).
Qed.

Lemma toggle_map_out_of_range (l : list ChecklistItem.t) (i : Z) :
  i < 0 \/ Z.of_nat (length l) <= i ->
  imap (fun index item =>
          if Z.of_nat index =? i then toggle_completed item else item) l
  = l.
Proof.
  intros Hi. apply list_eq. intros j. rewrite toggle_map_lookup.
  destruct (l !! j) as [x|] eqn:E; [|done]. simpl.
  apply lookup_lt_Some in E.
  destruct (Z.eqb_spec (Z.of_nat j) i); [lia|done].
Qed.

Lemma toggle_completed_involutive item : toggle_completed (toggle_completed item) = item.
Proof. destruct item as [t d c]. unfold toggle_completed. simpl. by rewrite negb_involutive. Qed.

Lemma handleChecklistToggle_insert (s : AppState) (p : Plan.t) (i : nat)
  (item : ChecklistItem.t) :
  plan s = Some p ->
  Plan.checklist p !! i = Some item ->
  handleChecklistToggle (Z.of_nat i) s
  = set_isSaved false
      (set_plan (Some (Plan.with_checklist
                         (<[i := toggle_completed item]> (Plan.checklist p)) p)) s).
Proof.
  intros Hp Hi. unfold handleChecklistToggle. rewrite Hp.
  by rewrite (toggle_map_in_range _ _ _ Hi).
Qed.

(** C7: on a plan, [handleChecklistToggle] at an index [i] of the checklist
    negates [completed] of item [i] and keeps its task and details, keeps
    every other item, keeps every other field of the plan, and sets
    [isSaved] to false; a second toggle at [i] gives back the plan as it
    was, so item [i] has its first [completed] and the others are as they
    were. *)
Theorem handleChecklistToggle_in_range (s : AppState) (p : Plan.t) (i : nat)
  (item : ChecklistItem.t) :
  plan s = Some p ->
  Plan.checklist p !! i = Some item ->
  let s1 := handleChecklistToggle (Z.of_nat i) s in
  let s2 := handleChecklistToggle (Z.of_nat i) s1 in
  (exists p1,
      plan s1 = Some p1
      /\ Plan.checklist p1 !! i
         = Some (ChecklistItem.mk (ChecklistItem.task item) (ChecklistItem.details item)
                                  (negb (ChecklistItem.completed item)))
      /\ (forall j, j <> i -> Plan.checklist p1 !! j = Plan.checklist p !! j)
      /\ length (Plan.checklist p1) = length (Plan.checklist p)
      /\ Plan.itinerary p1 = Plan.itinerary p
      /\ Plan.costs p1 = Plan.costs p
      /\ Plan.flights p1 = Plan.flights p
      /\ Plan.locations p1 = Plan.locations p
      /\ Plan.weather p1 = Plan.weather p
      /\ Plan.packing_list p1 = Plan.packing_list p)
  /\ isSaved s1 = false
  /\ s1 = set_isSaved false (set_plan (plan s1) s)
  /\ plan s2 = Some p
  /\ isSaved s2 = false.
Proof.
  intros Hp Hi s1 s2.
  assert (Hlt : (i < length (Plan.checklist p))%nat) by by apply lookup_lt_Some in Hi.
  pose proof (handleChecklistToggle_insert s p i item Hp Hi) as E1.
  fold s1 in E1.
  set (p1 := Plan.with_checklist (<[i := toggle_completed item]> (Plan.checklist p)) p) in E1.
  assert (Hp1 : plan s1 = Some p1) by by rewrite E1.
  assert (Hi1 : Plan.checklist p1 !! i = Some (toggle_completed item))
    by (subst p1; simpl; by rewrite list_lookup_insert_eq).
  pose proof (handleChecklistToggle_insert s1 p1 i _ Hp1 Hi1) as E2.
  fold s2 in E2.
  split; [|split; [|split; [|split]]].
  - exists p1. split; [done|]. split; [done|]. subst p1. simpl.
    split; [intros j Hj; by rewrite list_lookup_insert_ne|].
    split; [by rewrite length_insert|]. done.
  - by rewrite E1.
  - by rewrite Hp1, E1.
  - rewrite E2. simpl. f_equal. subst p1. destruct p as [it co ch fl lo we pa].
    unfold Plan.with_checklist. simpl in *.
    rewrite list_insert_insert_eq, toggle_completed_involutive.
    by rewrite list_insert_id.
  - by rewrite E2.
Qed.

(** C10: on a plan, [handleChecklistToggle] at an integer that is no index
    of the checklist is defined, leaves the plan (every checklist item and
    every other field) as it is, and changes the state only by setting
    [isSaved] to false. *)
Theorem handleChecklistToggle_out_of_range (s : AppState) (p : Plan.t) (i : Z) :
  plan s = Some p ->
  i < 0 \/ Z.of_nat (length (Plan.checklist p)) <= i ->
  handleChecklistToggle i s = set_isSaved false s
  /\ plan (handleChecklistToggle i s) = Some p
  /\ isSaved (handleChecklistToggle i s) = false.
Proof.
  intros Hp Hi.
  assert (E : handleChecklistToggle i s = set_isSaved false s).
  { unfold handleChecklistToggle. rewrite Hp.
    rewrite (toggle_map_out_of_range _ _ Hi), with_checklist_id.
    by rewrite (set_plan_id _ _ Hp). }
  rewrite E. by destruct s.
Qed.

Lemma handleChecklistToggle_in_range_witness :
  plan sample_state = Some sample_plan
  /\ isSaved (handleChecklistToggle 1 sample_state) = false
  /\ plan (handleChecklistToggle 1 (handleChecklistToggle 1 sample_state))
     = Some sample_plan.
Proof.
  split; [reflexivity|].
  destruct (handleChecklistToggle_in_range sample_state sample_plan 1
              (ChecklistItem.mk "Seguro" "Contratar seguro viagem" true)
              eq_refl eq_refl) as (_ & H1 & _ & H2 & _).
  split; [exact H1 | exact H2].
Defined.

Lemma handleChecklistToggle_out_of_range_witness :
  handleChecklistToggle 2 sample_state = set_isSaved false sample_state
  /\ handleChecklistToggle (-1) sample_state = set_isSaved false sample_state.
Proof.
  split.
  - apply (handleChecklistToggle_out_of_range sample_state sample_plan 2 eq_refl).
    right. simpl. lia.
  - apply (handleChecklistToggle_out_of_range sample_state sample_plan (-1) eq_refl).
    left. lia.
Defined.

(** ** Frame reasoning over the handlers *)

Ltac unfold_handlers :=
  unfold handleInputChange, handleAddDestination, handleRemoveDestination,
    handleFilterChange, observer_callback, page_timer_fires, page_timer_callback,
    handleLoadHistoryItem, handleClearHistory, handleChecklistToggle,
    handlePackingListToggle, handleSelectFlight, generatePlan, plan_response,
    plan_request_fails, images_settle, handleSavePlan, generateDestinationImages,
    appendHistory, setPlan_value, reset_displayed, lastFlightElementRef,
    itinerary_page in *.

(** ** The search history *)

Lemma List_filter_stdpp {A} (f : A -> bool) (l : list A) :
  List.filter f l = filter (fun x => f x = true) l.
Proof.
  induction l as [|x l IH]; simpl; [done|].
  rewrite filter_cons, IH. destruct (f x); by case_decide.
Qed.

Lemma slice_from_start {A} (n : nat) (l : list A) : slice 0 n l = take n l.
Proof. unfold slice. simpl. by rewrite Nat.sub_0_r. Qed.

Section History.
Context (P : Platform).

Lemma updatedHistory_unfold n h :
  updatedHistory P n h
  = take 5 (n :: filter (fun item => details_key P item <> details_key P n) h).
Proof.
  unfold updatedHistory. rewrite slice_from_start, List_filter_stdpp.
  f_equal. f_equal. apply list_filter_iff. intros x.
  unfold same_details, details_key.
  rewrite negb_true_iff, <- not_true_iff_false, String.eqb_eq. done.
Qed.

Lemma updatedHistory_length n h : (length (updatedHistory P n h) <= 5)%nat.
Proof. rewrite updatedHistory_unfold, length_take. lia. Qed.

Lemma updatedHistory_head n h : head (updatedHistory P n h) = Some n.
Proof. by rewrite updatedHistory_unfold. Qed.

Lemma updatedHistory_tail_fresh n h old :
  old ∈ tail (updatedHistory P n h) -> details_key P old <> details_key P n.
Proof.
  rewrite updatedHistory_unfold. simpl. intros Hin.
  apply elem_of_take in Hin as (i & Hi & _).
  apply list_elem_of_lookup_2 in Hi. by apply list_elem_of_filter in Hi as [? _].
Qed.

Lemma updatedHistory_NoDup n h :
  NoDup (details_key P <$> h) -> NoDup (details_key P <$> updatedHistory P n h).
Proof.
  intros Hnd. rewrite updatedHistory_unfold.
  eapply sublist_NoDup; [|apply fmap_sublist, sublist_take].
  rewrite fmap_cons. apply NoDup_cons. split.
  - intros Hin. apply list_elem_of_fmap in Hin as (x & Hx & Hin).
    apply list_elem_of_filter in Hin as [Hne _]. congruence.
  - eapply sublist_NoDup; [exact Hnd|]. apply fmap_sublist, sublist_filter.
Qed.

(** What a step can do to the history: nothing, empty it, or append. *)
Lemma step_searchHistory e s s' :
  step P e s = Some s' ->
  searchHistory s' = searchHistory s
  \/ searchHistory s' = []
  \/ exists n, searchHistory s' = updatedHistory P n (searchHistory s).
Proof.
  destruct e; simpl; intros H; simplify_eq; unfold_handlers;
    repeat case_match; simplify_option_eq; eauto.
Qed.

Lemma step_ring_ok e s s' : ring_ok P s -> step P e s = Some s' -> ring_ok P s'.
Proof.
  intros [Hlen Hnd] Hstep. unfold ring_ok.
  destruct (step_searchHistory e s s' Hstep) as [-> | [-> | [n ->]]].
  - done.
  - simpl. split; [lia | constructor].
  - split; [apply updatedHistory_length | by apply updatedHistory_NoDup].
Qed.

Lemma run_ring_ok es : forall s s', ring_ok P s -> run P es s = Some s' -> ring_ok P s'.
Proof.
  induction es as [|e es IH]; simpl; intros s s' Hs Hrun.
  - by simplify_eq.
  - destruct (step P e s) as [s1|] eqn:E; [|done]. simpl in Hrun.
    eapply IH; [|exact Hrun]. by eapply step_ring_ok.
Qed.

Lemma mount_first_visit year quota :
  mount P year (empty_storage quota)
  = reset_displayed (initial_state year (empty_storage quota)).
Proof.
  unfold mount, load_history, load_plan, getItem. simpl. by rewrite !lookup_empty.
Qed.

Lemma reachable_ring_ok s : reachable P s -> ring_ok P s.
Proof.
  intros (year & quota & es & Hrun).
  eapply run_ring_ok; [|exact Hrun].
  rewrite mount_first_visit. split; simpl; [lia | constructor].
Qed.

Lemma NoDup_details h : NoDup (details_key P <$> h) -> NoDup (HistoryItem.details <$> h).
Proof.
  intros H.
  apply (NoDup_fmap_1 (fun d => JSON_stringify P (encode_TripDetails d))).
  by rewrite <- list_fmap_compose.
Qed.

End History.

(** C8: in every state a session reaches the history has at most 5 entries
    and no two entries with equal details; after [appendHistory] from such
    a state the history has at most 5 entries, the new entry is its first,
    no two entries have equal details, and no entry after the first has
    the details of the new one (an earlier entry with these details is
    gone). *)
Theorem appendHistory_ring (P : Platform) (s : AppState) (newHistoryItem : HistoryItem.t) :
  reachable P s ->
  let s' := appendHistory P newHistoryItem s in
  ((length (searchHistory s) <= 5)%nat /\ NoDup (HistoryItem.details <$> searchHistory s))
  /\ (length (searchHistory s') <= 5)%nat
  /\ head (searchHistory s') = Some newHistoryItem
  /\ NoDup (HistoryItem.details <$> searchHistory s')
  /\ (forall old, old ∈ tail (searchHistory s') ->
        HistoryItem.details old <> HistoryItem.details newHistoryItem).
Proof.
  intros Hr s'. destruct (reachable_ring_ok P s Hr) as [Hlen Hnd].
  assert (E : searchHistory s' = updatedHistory P newHistoryItem (searchHistory s)) by done.
  rewrite E. split; [split; [done | by apply (NoDup_details P)]|].
  split; [apply updatedHistory_length|].
  split; [apply updatedHistory_head|].
  split; [by apply (NoDup_details P), updatedHistory_NoDup|].
  intros old Hin Heq. apply (updatedHistory_tail_fresh P _ _ _ Hin).
  unfold details_key. by rewrite Heq.
Qed.

Lemma after_first_plan_reachable : reachable Reference.platform after_first_plan.
Proof. exists 2025, 4096%nat, first_plan. vm_compute. reflexivity. Qed.

Lemma appendHistory_ring_witness :
  let again :=
    HistoryItem.mk "2025-01-03T08:00:00.000Z" "again" (tripDetails after_first_plan) in
  let s' := appendHistory Reference.platform again after_first_plan in
  (length (searchHistory s') <= 5)%nat
  /\ head (searchHistory s') = Some again
  /\ NoDup (HistoryItem.details <$> searchHistory s').
Proof.
  intros again s'.
  destruct (appendHistory_ring Reference.platform after_first_plan again
              after_first_plan_reachable) as (_ & Hlen & Hhead & Hnd & _).
  split; [exact Hlen | split; [exact Hhead | exact Hnd]].
Defined.

Example appendHistory_evicts_equal_details :
  let again :=
    HistoryItem.mk "2025-01-03T08:00:00.000Z" "again" (tripDetails after_first_plan) in
  length (searchHistory after_first_plan) = 1%nat
  /\ searchHistory (appendHistory Reference.platform again after_first_plan) = [again].
Proof. split; vm_compute; reflexivity. Qed.

(** ** Records and the objects they stand for *)

Lemma as_int_of_int z : as_int (Some (JNum (of_int z))) = Some z.
Proof. unfold as_int, of_int. simpl. by rewrite Z.mul_1_r. Qed.

Lemma as_list_encode {A} (enc : A -> json) (dec : json -> option A) (l : list A) :
  (forall x, dec (enc x) = Some x) ->
  as_list dec (Some (JArr (enc <$> l))) = Some l.
Proof. intros H. simpl. by apply mapM_fmap_Some. Qed.

Local Ltac decode_record :=
  unfold as_object; cbn -[as_int as_list];
  rewrite ?as_int_of_int; cbn -[as_int as_list].

Lemma decode_encode_Flight f : decode_Flight (encode_Flight f) = Some f.
Proof. destruct f. unfold decode_Flight, encode_Flight. by decode_record. Qed.

Lemma decode_encode_Location l : decode_Location (encode_Location l) = Some l.
Proof. destruct l. unfold decode_Location, encode_Location. by decode_record. Qed.

Lemma decode_encode_ChecklistItem i :
  decode_ChecklistItem (encode_ChecklistItem i) = Some i.
Proof. destruct i. unfold decode_ChecklistItem, encode_ChecklistItem. by decode_record. Qed.

Lemma decode_encode_PackingItem i : decode_PackingItem (encode_PackingItem i) = Some i.
Proof. destruct i. unfold decode_PackingItem, encode_PackingItem. by decode_record. Qed.

Lemma decode_encode_PackingCategory c :
  decode_PackingCategory (encode_PackingCategory c) = Some c.
Proof.
  destruct c. unfold decode_PackingCategory, encode_PackingCategory. decode_record.
  by rewrite (as_list_encode _ _ _ decode_encode_PackingItem).
Qed.

Lemma decode_encode_WeatherInfo w : decode_WeatherInfo (encode_WeatherInfo w) = Some w.
Proof. destruct w. unfold decode_WeatherInfo, encode_WeatherInfo. by decode_record. Qed.

Lemma decode_encode_FoodRecommendation r :
  decode_FoodRecommendation (encode_FoodRecommendation r) = Some r.
Proof.
  destruct r. unfold decode_FoodRecommendation, encode_FoodRecommendation.
  by decode_record.
Qed.

Lemma decode_encode_DailyActivity a :
  decode_DailyActivity (encode_DailyActivity a) = Some a.
Proof. destruct a. unfold decode_DailyActivity, encode_DailyActivity. by decode_record. Qed.

Lemma decode_encode_ItineraryDestination d :
  decode_ItineraryDestination (encode_ItineraryDestination d) = Some d.
Proof.
  destruct d as [n s p t y f u].
  unfold decode_ItineraryDestination, encode_ItineraryDestination. decode_record.
  rewrite (as_list_encode _ _ _ decode_encode_DailyActivity). cbn -[as_list].
  rewrite (as_list_encode _ _ _ decode_encode_FoodRecommendation).
  by destruct u as [[?|]|].
Qed.

Lemma decode_encode_CostDetails c : decode_CostDetails (encode_CostDetails c) = Some c.
Proof. destruct c. unfold decode_CostDetails, encode_CostDetails. by decode_record. Qed.

Lemma decode_encode_Plan p : decode_Plan (encode_Plan p) = Some p.
Proof.
  destruct p as [i c k f l w pl]. unfold decode_Plan, encode_Plan, as_object.
  cbn -[as_list decode_CostDetails encode_CostDetails].
  rewrite (as_list_encode _ _ _ decode_encode_ItineraryDestination).
  cbn -[as_list decode_CostDetails encode_CostDetails].
  rewrite decode_encode_CostDetails. cbn -[as_list].
  rewrite (as_list_encode _ _ _ decode_encode_ChecklistItem). cbn -[as_list].
  rewrite (as_list_encode _ _ _ decode_encode_Flight). cbn -[as_list].
  rewrite (as_list_encode _ _ _ decode_encode_Location). cbn -[as_list].
  rewrite (as_list_encode _ _ _ decode_encode_WeatherInfo). cbn -[as_list].
  by rewrite (as_list_encode _ _ _ decode_encode_PackingCategory).
Qed.

Lemma decode_encode_TripDetails d : decode_TripDetails (encode_TripDetails d) = Some d.
Proof.
  destruct d as [p t o ds a c sd ed k v y].
  unfold decode_TripDetails, encode_TripDetails. decode_record.
  destruct p, a, c; cbn -[as_list];
    by rewrite (as_list_encode JStr _ ds).
Qed.

Lemma decode_encode_selectedFlight f :
  decode_selectedFlight (js_or (Some (encode_selectedFlight f)) JNull) = Some f.
Proof.
  destruct f as [f|]; [|done].
  change (Some <$> decode_Flight (encode_Flight f) = Some (Some f)).
  by rewrite decode_encode_Flight.
Qed.

(** ** The history across a reload *)

Lemma decode_encode_HistoryItem h : decode_HistoryItem (encode_HistoryItem h) = Some h.
Proof.
  destruct h as [i t d]. unfold decode_HistoryItem, encode_HistoryItem, as_object.
  cbn -[decode_TripDetails encode_TripDetails].
  by rewrite decode_encode_TripDetails.
Qed.

Lemma load_plan_history (P : Platform) (s : AppState) :
  getItem HISTORY_KEY (localStorage (load_plan P s)) = getItem HISTORY_KEY (localStorage s)
  /\ searchHistory (load_plan P s) = searchHistory s.
Proof.
  unfold load_plan, setPlan_value, reset_displayed.
  repeat case_match; simpl; try done.
  split; [|done]. unfold getItem, removeItem. simpl. by apply lookup_delete_ne.
Qed.

(** A ring written by [appendHistory] is the ring of the next first
    render, when its text parses back to the value it was printed from. *)
Lemma history_survives_reload (P : Platform) (st : Storage) (h : list HistoryItem.t)
  (year : Z) :
  getItem HISTORY_KEY st = Some (JSON_stringify P (JArr (encode_HistoryItem <$> h))) ->
  JSON_parse P "" = None ->
  JSON_parse P (JSON_stringify P (JArr (encode_HistoryItem <$> h)))
  = Some (JArr (encode_HistoryItem <$> h)) ->
  searchHistory (mount P year st) = h.
Proof.
  intros Hget Hempty Hrt. unfold mount.
  set (s0 := reset_displayed (initial_state year st)).
  destruct (load_plan_history P s0) as [Hk Hh].
  unfold load_history. rewrite Hk. simpl. rewrite Hget.
  assert (Hne : string_falsy (JSON_stringify P (JArr (encode_HistoryItem <$> h))) = false).
  { unfold string_falsy. apply not_true_iff_false. rewrite String.eqb_eq.
    intros E. rewrite E in Hrt. congruence. }
  rewrite Hne, Hrt.
  by rewrite (as_list_encode _ _ _ decode_encode_HistoryItem).
Qed.

(** ** Save and load *)

Lemma array_map_encode {A} (enc : A -> json) (f : json -> option json) (l : list A) :
  (forall x, f (enc x) = Some (enc x)) ->
  array_map f (Some (JArr (enc <$> l))) = Some (JArr (enc <$> l)).
Proof.
  intros H. simpl.
  assert (E : mapM f (enc <$> l) = Some (enc <$> l)).
  { induction l as [|x l IH]; [done|]. rewrite fmap_cons. simpl.
    rewrite H. simpl. by rewrite IH. }
  by rewrite E.
Qed.

Lemma restore_completed i :
  (c ← member "completed" (encode_ChecklistItem i);
   Some (with_flag "completed" (js_or c (JBool false)) (encode_ChecklistItem i)))
  = Some (encode_ChecklistItem i).
Proof. by destruct i as [t d []]. Qed.

Lemma restore_packed i :
  (p ← member "packed" (encode_PackingItem i);
   Some (with_flag "packed" (js_or p (JBool false)) (encode_PackingItem i)))
  = Some (encode_PackingItem i).
Proof. by destruct i as [t q []]. Qed.

Lemma restore_items c :
  (items ←
     member "items" (encode_PackingCategory c)
       ≫= array_map (fun item =>
             p ← member "packed" item;
             Some (with_flag "packed" (js_or p (JBool false)) item));
   Some (with_flag "items" items (encode_PackingCategory c)))
  = Some (encode_PackingCategory c).
Proof.
  destruct c as [n l].
  change (member "items" (encode_PackingCategory (PackingCategory.mk n l)))
    with (Some (Some (JArr (encode_PackingItem <$> l)))).
  cbn -[array_map]. by rewrite (array_map_encode _ _ _ restore_packed).
Qed.

(** The flags of a plan of the component are booleans already: restoring
    them changes nothing. *)
Lemma restore_flags_encode p : restore_flags (encode_Plan p) = Some (encode_Plan p).
Proof.
  destruct p as [i c k f l w pl]. unfold restore_flags.
  change (member "checklist" (encode_Plan (Plan.mk i c k f l w pl)))
    with (Some (Some (JArr (encode_ChecklistItem <$> k)))).
  cbn -[array_map]. rewrite (array_map_encode _ _ _ restore_completed).
  cbn -[array_map]. by rewrite (array_map_encode _ _ _ restore_items).
Qed.

Lemma restore_snapshot (P : Platform) (p : Plan.t) (d : TripDetails.t)
  (f : option Flight.t) (text : string) :
  JSON_parse P text = Some (snapshot p d f) ->
  restore P text
  = Some (Some {| saved_plan := p; saved_tripDetails := d; saved_selectedFlight := f |}).
Proof.
  intros H. unfold restore. rewrite H.
  change (Some (snapshot p d f) ≫= _)
    with (if truthy (encode_Plan p) && truthy (encode_TripDetails d) then
            planWithCheckedState ← restore_flags (encode_Plan p) ≫= decode_Plan;
            d' ← decode_TripDetails (encode_TripDetails d);
            f' ← decode_selectedFlight (js_or (Some (encode_selectedFlight f)) JNull);
            Some (Some {| saved_plan := planWithCheckedState;
                          saved_tripDetails := d';
                          saved_selectedFlight := f' |})
          else Some None).
  change (truthy (encode_Plan p) && truthy (encode_TripDetails d)) with true.
  cbv iota. rewrite restore_flags_encode. cbn [mbind option_bind].
  rewrite decode_encode_Plan. cbn [mbind option_bind].
  rewrite decode_encode_TripDetails. cbn [mbind option_bind].
  by rewrite decode_encode_selectedFlight.
Qed.

Lemma load_history_frame (P : Platform) (s : AppState) :
  plan (load_history P s) = plan s
  /\ tripDetails (load_history P s) = tripDetails s
  /\ selectedFlight (load_history P s) = selectedFlight s
  /\ isSaved (load_history P s) = isSaved s.
Proof. unfold load_history. by repeat case_match. Qed.

(** C9, as amended: a save followed by a load gives back the plan, the trip
    details and the selected flight that were saved, when the write to the
    storage succeeds and the text written parses back to the value it was
    printed from (the empty text being no JSON).  The save is [handleSavePlan] in a
    state that holds a plan; the load is the first render of the component
    over the storage the save has left. *)
Theorem save_then_load (P : Platform) (s : AppState) (p : Plan.t) (year : Z) :
  plan s = Some p ->
  JSON_parse P "" = None ->
  JSON_parse P (JSON_stringify P (snapshot p (tripDetails s) (selectedFlight s)))
  = Some (snapshot p (tripDetails s) (selectedFlight s)) ->
  is_Some (setItem PLAN_KEY
             (JSON_stringify P (snapshot p (tripDetails s) (selectedFlight s)))
             (localStorage s)) ->
  let s1 := handleSavePlan P s in
  let s2 := mount P year (localStorage s1) in
  isSaved s1 = true
  /\ plan s2 = Some p
  /\ tripDetails s2 = tripDetails s
  /\ selectedFlight s2 = selectedFlight s
  /\ isSaved s2 = true.
Proof.
  intros Hp Hempty Hrt [st Hst] s1 s2.
  set (text := JSON_stringify P (snapshot p (tripDetails s) (selectedFlight s))) in *.
  assert (E1 : s1 = set_isSaved true (set_localStorage st s)).
  { subst s1. unfold handleSavePlan. rewrite Hp. fold text. by rewrite Hst. }
  assert (Hget : getItem PLAN_KEY st = Some text).
  { unfold setItem in Hst. case_match; [|done]. simplify_eq. unfold getItem. simpl.
    apply lookup_insert_eq. }
  assert (Hne : string_falsy text = false).
  { unfold string_falsy. apply not_true_iff_false. rewrite String.eqb_eq.
    intros E. rewrite E in Hrt. congruence. }
  split; [by rewrite E1|].
  destruct (load_history_frame P
              (load_plan P (reset_displayed (initial_state year (localStorage s1)))))
    as (Ha & Hb & Hc & Hd).
  subst s2. unfold mount. rewrite Ha, Hb, Hc, Hd. clear Ha Hb Hc Hd.
  unfold load_plan. rewrite E1. simpl localStorage. rewrite Hget, Hne.
  rewrite (restore_snapshot P _ _ _ _ Hrt). by simpl.
Qed.

Lemma save_then_load_witness :
  let s := handleSelectFlight Reference.platform flight_B after_first_plan in
  let s2 := mount Reference.platform 2026 (localStorage (handleSavePlan Reference.platform s)) in
  plan s = Some first_plan_held
  /\ plan s2 = Some first_plan_held
  /\ tripDetails s2 = tripDetails s
  /\ selectedFlight s2 = Some flight_B.
Proof.
  intros s s2. split; [reflexivity|].
  assert (Hparse : JSON_parse Reference.platform
                     (JSON_stringify Reference.platform
                        (snapshot first_plan_held (tripDetails s) (selectedFlight s)))
                   = Some (snapshot first_plan_held (tripDetails s) (selectedFlight s)))
    by (vm_compute; reflexivity).
  assert (Hroom : is_Some (setItem PLAN_KEY
                             (JSON_stringify Reference.platform
                                (snapshot first_plan_held (tripDetails s) (selectedFlight s)))
                             (localStorage s)))
    by (vm_compute; eexists; reflexivity).
  destruct (save_then_load Reference.platform s first_plan_held 2026
              eq_refl eq_refl Hparse Hroom) as (_ & H1 & H2 & H3 & _).
  split; [exact H1|]. split; [exact H2 | exact H3].
Defined.

(** C9, as stated, fails: a plan with a flight of infinite price is saved
    (the write succeeds and the plan is marked as saved), [JSON.stringify]
    prints the price as null, so the text written does not parse back to
    the snapshot, and the load that follows does not give back the plan
    that was saved. *)
Lemma save_then_load_unbounded_price_counterexample :
  let s := unbounded_price_state in
  let saved := snapshot unbounded_price_plan (tripDetails s) (selectedFlight s) in
  let s1 := handleSavePlan Reference.platform s in
  let s2 := mount Reference.platform 2026 (localStorage s1) in
  plan s = Some unbounded_price_plan
  /\ isSaved s1 = true
  /\ getItem PLAN_KEY (localStorage s1)
     = Some (JSON_stringify Reference.platform saved)
  /\ JSON_parse Reference.platform (JSON_stringify Reference.platform saved)
     <> Some saved
  /\ plan s2 <> Some unbounded_price_plan.
Proof.
  split; [reflexivity|]. split; [vm_compute; reflexivity|].
  split; [vm_compute; reflexivity|].
  split; vm_compute; discriminate.
Qed.

(** ** Assembly and the image fill *)

Lemma plan_setPlan_value v s : plan (setPlan_value v s) = v.
Proof. unfold setPlan_value. destruct (plan s) eqn:E, v; simpl; congruence. Qed.

Lemma step_itinerary_frame (P : Platform) e s1 s2 p1 p2 :
  fills_or_replaces e = false ->
  step P e s1 = Some s2 -> plan s1 = Some p1 -> plan s2 = Some p2 ->
  Plan.itinerary p2 = Plan.itinerary p1.
Proof.
  destruct e; simpl; intros He Hstep H1 H2; try discriminate He;
    simplify_eq; unfold_handlers; repeat case_match; simplify_eq/=; congruence.
Qed.

(** C5: when the answer of the model is assembled into a plan, the state
    that follows (the assembled plan set, then the first updater of the
    image fill, in the one handler) holds that plan with every destination
    of its itinerary in the image state "loading", a key that is present;
    and afterwards no event other than the settling of an image batch
    changes the itinerary of the plan held (a new answer replaces the plan
    by a newly assembled one, pending again). *)
Theorem images_pending_after_assembly (P : Platform) (text now : string)
  (s : AppState) (d : TripDetails.t) (rest : list TripDetails.t) (raw : Plan.t) :
  planRequests s = d :: rest ->
  (jsonResponse ← JSON_parse P (fenced_json text);
   assemble jsonResponse ≫= decode_Plan) = Some raw ->
  let s' := plan_response P text now s in
  (exists p,
      plan s' = Some p
      /\ Forall (fun dest => ItineraryDestination.imageUrl dest = image_loading)
                (Plan.itinerary p)
      /\ Plan.itinerary p
         = ItineraryDestination.with_imageUrl image_loading <$> Plan.itinerary raw
      /\ Plan.with_itinerary (Plan.itinerary raw) p = raw)
  /\ (forall e s1 s2 p1 p2,
         fills_or_replaces e = false ->
         step P e s1 = Some s2 -> plan s1 = Some p1 -> plan s2 = Some p2 ->
         Plan.itinerary p2 = Plan.itinerary p1).
Proof.
  intros Hreq Hasm s'. split; [|apply step_itinerary_frame].
  exists (Plan.with_itinerary
            (ItineraryDestination.with_imageUrl image_loading <$> Plan.itinerary raw) raw).
  split; [|split; [|split]].
  - subst s'. unfold plan_response. rewrite Hreq, Hasm.
    unfold appendHistory, generateDestinationImages. simpl.
    by rewrite plan_setPlan_value.
  - simpl. apply Forall_fmap, Forall_forall. by intros x _.
  - done.
  - by destruct raw.
Qed.

Lemma images_pending_after_assembly_witness :
  let s := generatePlan Reference.platform (Some "key") first_visit in
  let s' :=
    plan_response Reference.platform (answer ["Lisboa"; "Londres"] twelve_flights)
                  "2025-01-01T10:00:00.000Z" s in
  planRequests s = [tripDetails first_visit]
  /\ exists p,
      plan s' = Some p
      /\ Forall (fun dest => ItineraryDestination.imageUrl dest = image_loading)
                (Plan.itinerary p)
      /\ ItineraryDestination.destination_name <$> Plan.itinerary p = ["Lisboa"; "Londres"].
Proof.
  intros s s'. split; [reflexivity|].
  assert (Hasm : (jsonResponse ← JSON_parse Reference.platform
                                    (fenced_json (answer ["Lisboa"; "Londres"] twelve_flights));
                  assemble jsonResponse ≫= decode_Plan) = Some first_plan_assembled)
    by (vm_compute; reflexivity).
  destruct (images_pending_after_assembly Reference.platform
              (answer ["Lisboa"; "Londres"] twelve_flights) "2025-01-01T10:00:00.000Z"
              s (tripDetails first_visit) [] first_plan_assembled eq_refl Hasm)
    as [(p & Hp & Hall & Hit & _) _].
  exists p. split; [exact Hp|]. split; [exact Hall|].
  rewrite Hit. reflexivity.
Defined.

Lemma apply_image_results_cleared index results :
  apply_image_results index results None = Some None.
Proof. revert index. induction results as [|r rs IH]; intros index; simpl; [done|apply IH]. Qed.




(** ** The paginated flight list *)

Lemma slice_page {A} (n : nat) (l : list A) :
  slice n (n + FLIGHTS_PER_PAGE) l = take FLIGHTS_PER_PAGE (drop n l).
Proof. unfold slice. f_equal. lia. Qed.

(** The effect on the filtered list leaves the first page displayed. *)
Lemma reset_displayed_first_page (s : AppState) :
  displayedFlights (reset_displayed s) = take FLIGHTS_PER_PAGE (filtered (reset_displayed s))
  /\ (length (displayedFlights (reset_displayed s)) <= FLIGHTS_PER_PAGE)%nat
  /\ displayedFlights (reset_displayed s) `prefix_of` filtered (reset_displayed s).
Proof.
  assert (E : displayedFlights (reset_displayed s)
              = take FLIGHTS_PER_PAGE (filtered (reset_displayed s))) by done.
  rewrite E. split; [done|]. split; [rewrite length_take; lia | apply prefix_take].
Qed.

(** A change of a filter displays the first page of the list as it is
    filtered now, whether a page timer is pending or not. *)
Lemma handleFilterChange_first_page (name value : string) (s : AppState) :
  let s' := handleFilterChange name value s in
  displayedFlights s' = take FLIGHTS_PER_PAGE (filtered s')
  /\ (length (displayedFlights s') <= FLIGHTS_PER_PAGE)%nat
  /\ pageTimers s' = pageTimers s.
Proof.
  intros s'. destruct (reset_displayed_first_page
                         (set_filters (filters s') s)) as (H1 & H2 & _).
  split; [|split]; [exact H1 | exact H2 | done].
Qed.

Lemma lastFlightElementRef_closure (s : AppState) (c : PageTimer) :
  lastFlightElementRef s = Some c ->
  isLoadingMore s = false
  /\ timer_displayedFlights c = displayedFlights s
  /\ timer_filteredFlights c = filtered s.
Proof.
  unfold lastFlightElementRef. intros H. repeat case_match; by simplify_eq.
Qed.

(** A page load that nothing interrupts: from a list displayed that is the
    first [n] flights of the filtered list, the timer leaves the first
    [n + 10] flights displayed (all of them on the last page). *)
Lemma page_load_next_page (s : AppState) (c : PageTimer) (n : nat) :
  lastFlightElementRef s = Some c ->
  pageTimers s = [] ->
  (n < length (filtered s))%nat ->
  displayedFlights s = take n (filtered s) ->
  let s' := page_timer_fires (observer_callback true s) in
  filtered s' = filtered s
  /\ displayedFlights s' = take (n + FLIGHTS_PER_PAGE) (filtered s)
  /\ length (displayedFlights s') = ((n + FLIGHTS_PER_PAGE) `min` length (filtered s))%nat
  /\ isLoadingMore s' = false.
Proof.
  intros Href Htimers Hn Hd s'.
  destruct (lastFlightElementRef_closure s c Href) as (Hload & Hcd & Hcf).
  assert (Hlen : length (displayedFlights s) = n) by (rewrite Hd, length_take; lia).
  assert (E1 : observer_callback true s = set_pageTimers [c] (set_isLoadingMore true s)).
  { unfold observer_callback. rewrite Href, Hcd, Hcf, Htimers, Hlen.
    apply Nat.ltb_lt in Hn. by rewrite Hn. }
  assert (E : displayedFlights s' = take (n + FLIGHTS_PER_PAGE) (filtered s)).
  { subst s'. rewrite E1. unfold page_timer_fires, page_timer_callback. simpl.
    rewrite slice_page, Hcd, Hcf, Hlen. rewrite Hd at 1.
    by rewrite take_take_drop. }
  split; [by subst s'; rewrite E1|]. split; [exact E|].
  split; [by rewrite E, length_take|]. by subst s'; rewrite E1.
Qed.

(** C2 fails on the code: the last row is seen with 10 of 12 flights
    displayed, the airline filter is changed to "B" before the page timer
    fires, and the timer then appends flights 11 and 12 of the list as it
    was filtered before to the page displayed now.  The list displayed is
    no prefix of the filtered list, is longer than it, and shows a flight
    that does not pass the filter. *)
Theorem stale_page_after_filter_change :
  session stale_page_events = Some after_stale_page
  /\ filtered after_stale_page = [flight_B]
  /\ displayedFlights after_stale_page = [flight_B; flight_A11; flight_B]
  /\ ~ displayedFlights after_stale_page `prefix_of` filtered after_stale_page
  /\ flightMatches (filters after_stale_page) flight_A11 = false.
Proof.
  split; [vm_compute; reflexivity|]. split; [reflexivity|]. split; [reflexivity|].
  split; [|reflexivity].
  intros [k Hk]. vm_compute in Hk. discriminate Hk.
Qed.

(** C3, as amended: a flight selection made while a page load is pending
    leaves the load pending, and leaves the filtered list as it is; when
    the timer fires the next page of that list is appended, and the list
    displayed stays a prefix of the filtered list. *)
Theorem selection_keeps_pending_page (P : Platform) (s : AppState) (c : PageTimer)
  (flight : Flight.t) :
  lastFlightElementRef s = Some c ->
  pageTimers s = [] ->
  (length (displayedFlights s) < length (filtered s))%nat ->
  displayedFlights s `prefix_of` filtered s ->
  let s1 := observer_callback true s in
  let s2 := handleSelectFlight P flight s1 in
  let s3 := page_timer_fires s2 in
  (isLoadingMore s1 = true /\ pageTimers s1 = [c])
  /\ (isLoadingMore s2 = true /\ pageTimers s2 = [c]
      /\ displayedFlights s2 = displayedFlights s)
  /\ filtered s3 = filtered s
  /\ displayedFlights s3
     = (displayedFlights s
        ++ take FLIGHTS_PER_PAGE (drop (length (displayedFlights s)) (filtered s)))%list
  /\ displayedFlights s3 `prefix_of` filtered s3
  /\ isLoadingMore s3 = false
  /\ pageTimers s3 = [].
Proof.
  intros Href Htimers Hmore Hprefix s1 s2 s3.
  destruct (lastFlightElementRef_closure s c Href) as (Hload & Hd & Hf).
  assert (E1 : s1 = set_pageTimers [c] (set_isLoadingMore true s)).
  { subst s1. unfold observer_callback. rewrite Href, Hd, Hf, Htimers.
    apply Nat.ltb_lt in Hmore. by rewrite Hmore. }
  assert (E3 : displayedFlights s3
               = (displayedFlights s
                  ++ take FLIGHTS_PER_PAGE
                       (drop (length (displayedFlights s)) (filtered s)))%list).
  { subst s3 s2. rewrite E1. unfold page_timer_fires, page_timer_callback. simpl.
    by rewrite slice_page, Hd, Hf. }
  assert (F3 : filtered s3 = filtered s) by (subst s3 s2; by rewrite E1).
  split; [by rewrite E1|]. split; [by subst s2; rewrite E1|].
  split; [exact F3|]. split; [exact E3|].
  split; [|split; subst s3 s2; by rewrite E1].
  rewrite E3, F3. destruct Hprefix as [k Hk].
  rewrite Hk, drop_app_length.
  apply prefix_app, prefix_take.
Qed.

Lemma selection_keeps_pending_page_witness :
  let s3 :=
    page_timer_fires
      (handleSelectFlight Reference.platform flight_B
         (observer_callback true on_flights_tab)) in
  displayedFlights s3 = twelve_flights
  /\ displayedFlights s3 `prefix_of` filtered s3.
Proof.
  intros s3.
  assert (Href : lastFlightElementRef on_flights_tab
                 = Some {| timer_displayedFlights := displayedFlights on_flights_tab;
                           timer_filteredFlights := filtered on_flights_tab |})
    by reflexivity.
  assert (Hmore : (length (displayedFlights on_flights_tab)
                   < length (filtered on_flights_tab))%nat)
    by (vm_compute; lia).
  assert (Hprefix : displayedFlights on_flights_tab `prefix_of` filtered on_flights_tab)
    by (exists [flight_A11; flight_B]; reflexivity).
  destruct (selection_keeps_pending_page Reference.platform on_flights_tab _ flight_B
              Href eq_refl Hmore Hprefix) as (_ & _ & _ & H4 & H5 & _).
  split; [|exact H5]. unfold s3. rewrite H4. reflexivity.
Defined.

(** C3, as stated, fails: a flight is selected while the page load is
    pending; the load is not cancelled, and the list displayed does not
    remain the first page. *)
Lemma selection_does_not_cancel_page_load_counterexample :
  exists s1 s2,
    session (first_plan ++ last_row_seen) = Some s1
    /\ isLoadingMore s1 = true
    /\ length (pageTimers s1) = 1%nat
    /\ run Reference.platform [SelectFlight flight_B; PageTimerFires] s1 = Some s2
    /\ displayedFlights s2 = twelve_flights
    /\ displayedFlights s2 <> take FLIGHTS_PER_PAGE (filtered s2).
Proof.
  eexists _, _. split; [vm_compute; reflexivity|].
  split; [reflexivity|]. split; [reflexivity|].
  split; [vm_compute; reflexivity|]. split; [reflexivity|].
  vm_compute. discriminate.
Qed.


(* ===================================================================== *)
(** * Further properties of the handlers *)
(* ===================================================================== *)

(** ** Flight selection *)

Lemma handleSelectFlight_frame (P : Platform) (f : Flight.t) (s : AppState) :
  handleSelectFlight P f s
  = set_isSaved false (set_selectedFlight (selectedFlight (handleSelectFlight P f s)) s).
Proof. done. Qed.

(** X1: with no flight selected, [handleSelectFlight] selects the flight; a
    second call with the same flight clears the selection, and the state
    is then the first one but for [isSaved], which is false; a call with a
    flight of another text replaces the selection. *)
Theorem handleSelectFlight_toggles (P : Platform) (s : AppState) (f : Flight.t) :
  selectedFlight s = None ->
  let s1 := handleSelectFlight P f s in
  let s2 := handleSelectFlight P f s1 in
  selectedFlight s1 = Some f
  /\ isSaved s1 = false
  /\ selectedFlight s2 = None
  /\ s2 = set_isSaved false s
  /\ (forall g,
         JSON_stringify P (encode_Flight f) <> JSON_stringify P (encode_Flight g) ->
         selectedFlight (handleSelectFlight P g s1) = Some g).
Proof.
  intros Hnone s1 s2.
  assert (E1 : s1 = set_isSaved false (set_selectedFlight (Some f) s)).
  { subst s1. unfold handleSelectFlight. by rewrite Hnone. }
  assert (E2 : s2 = set_isSaved false (set_selectedFlight None s1)).
  { subst s2. unfold handleSelectFlight at 1. rewrite E1. simpl.
    by rewrite String.eqb_refl. }
  split; [by rewrite E1|]. split; [by rewrite E1|]. split; [by rewrite E2|].
  split.
  - rewrite E2, E1. destruct s; simpl in *; by subst.
  - intros g Hg. unfold handleSelectFlight. rewrite E1. simpl.
    apply String.eqb_neq in Hg. by rewrite Hg.
Qed.

Lemma handleSelectFlight_toggles_witness :
  let s1 := handleSelectFlight Reference.platform flight_A after_first_plan in
  selectedFlight s1 = Some flight_A
  /\ selectedFlight (handleSelectFlight Reference.platform flight_A s1) = None
  /\ selectedFlight (handleSelectFlight Reference.platform flight_B s1) = Some flight_B.
Proof.
  intros s1.
  destruct (handleSelectFlight_toggles Reference.platform after_first_plan flight_A
              eq_refl) as (H1 & _ & H2 & _ & H3).
  split; [exact H1|]. split; [exact H2|]. apply H3. vm_compute. discriminate.
Defined.

(** ** The packing list toggle *)

Lemma with_packing_list_id (p : Plan.t) :
  Plan.with_packing_list (Plan.packing_list p) p = p.
Proof. by destruct p. Qed.

Lemma toggle_packed_involutive item : toggle_packed (toggle_packed item) = item.
Proof. destruct item as [t q c]. unfold toggle_packed. simpl. by rewrite negb_involutive. Qed.

Lemma handlePackingListToggle_insert (s : AppState) (p : Plan.t) (c i : nat)
  (category : PackingCategory.t) (item : PackingItem.t) :
  plan s = Some p ->
  Plan.packing_list p !! c = Some category ->
  PackingCategory.items category !! i = Some item ->
  handlePackingListToggle c i s
  = set_isSaved false
      (set_plan
         (Some (Plan.with_packing_list
                  (<[c := PackingCategory.mk (PackingCategory.category category)
                            (<[i := toggle_packed item]> (PackingCategory.items category))]>
                     (Plan.packing_list p)) p)) s).
Proof. intros Hp Hc Hi. unfold handlePackingListToggle. by rewrite Hp, Hc, Hi. Qed.

(** X2: on a plan, [handlePackingListToggle] at a category and an item of
    the packing list negates [packed] of that item and keeps its name and
    quantity, keeps every other item of every category, the names and the
    sizes of the categories and every other field of the plan, and sets
    [isSaved] to false; a second toggle at the same place gives back the
    plan as it was. *)
Theorem handlePackingListToggle_in_range (s : AppState) (p : Plan.t) (c i : nat)
  (category : PackingCategory.t) (item : PackingItem.t) :
  plan s = Some p ->
  Plan.packing_list p !! c = Some category ->
  PackingCategory.items category !! i = Some item ->
  let s1 := handlePackingListToggle c i s in
  let s2 := handlePackingListToggle c i s1 in
  (exists p1,
      plan s1 = Some p1
      /\ packing_item p1 c i
         = Some (PackingItem.mk (PackingItem.item item) (PackingItem.quantity item)
                                (negb (PackingItem.packed item)))
      /\ (forall c' i', (c', i') <> (c, i) -> packing_item p1 c' i' = packing_item p c' i')
      /\ PackingCategory.category <$> Plan.packing_list p1
         = PackingCategory.category <$> Plan.packing_list p
      /\ (length ∘ PackingCategory.items) <$> Plan.packing_list p1
         = (length ∘ PackingCategory.items) <$> Plan.packing_list p
      /\ Plan.with_packing_list (Plan.packing_list p) p1 = p)
  /\ isSaved s1 = false
  /\ s1 = set_isSaved false (set_plan (plan s1) s)
  /\ plan s2 = Some p
  /\ isSaved s2 = false.
Proof.
  intros Hp Hc Hi s1 s2.
  pose proof (handlePackingListToggle_insert s p c i category item Hp Hc Hi) as E1.
  fold s1 in E1.
  set (category1 := PackingCategory.mk (PackingCategory.category category)
                      (<[i := toggle_packed item]> (PackingCategory.items category))) in E1.
  set (p1 := Plan.with_packing_list (<[c := category1]> (Plan.packing_list p)) p) in E1.
  assert (Hlc : (c < length (Plan.packing_list p))%nat) by by apply lookup_lt_Some in Hc.
  assert (Hli : (i < length (PackingCategory.items category))%nat)
    by by apply lookup_lt_Some in Hi.
  assert (Hp1 : plan s1 = Some p1) by by rewrite E1.
  assert (Hc1 : Plan.packing_list p1 !! c = Some category1)
    by (subst p1; simpl; by rewrite list_lookup_insert_eq).
  assert (Hi1 : PackingCategory.items category1 !! i = Some (toggle_packed item))
    by (subst category1; simpl; by rewrite list_lookup_insert_eq).
  pose proof (handlePackingListToggle_insert s1 p1 c i _ _ Hp1 Hc1 Hi1) as E2.
  fold s2 in E2.
  split; [|split; [|split; [|split]]].
  - exists p1. split; [done|]. split; [|split; [|split; [|split]]].
    + unfold packing_item. rewrite Hc1. cbn [mbind option_bind]. exact Hi1.
    + intros c' i' Hne. unfold packing_item. subst p1. simpl.
      destruct (decide (c' = c)) as [->|Hcne].
      * rewrite list_lookup_insert_eq, Hc by done. simpl.
        rewrite list_lookup_insert_ne; [done|]. congruence.
      * by rewrite list_lookup_insert_ne.
    + subst p1. simpl. rewrite list_fmap_insert. simpl.
      apply list_insert_id. by rewrite list_lookup_fmap, Hc.
    + subst p1. simpl. rewrite list_fmap_insert. simpl.
      apply list_insert_id. rewrite list_lookup_fmap, Hc. simpl.
      by rewrite length_insert.
    + subst p1. by destruct p.
  - by rewrite E1.
  - by rewrite Hp1, E1.
  - rewrite E2. simpl. f_equal. subst p1 category1.
    destruct p as [it co ch fl lo we pa]. unfold Plan.with_packing_list. simpl in *.
    rewrite list_insert_insert_eq, list_insert_insert_eq, toggle_packed_involutive.
    rewrite (list_insert_id (PackingCategory.items category)) by done.
    f_equal. apply list_insert_id. rewrite Hc. by destruct category.
  - by rewrite E2.
Qed.

Lemma handlePackingListToggle_in_range_witness :
  let s1 := handlePackingListToggle 0 0 after_first_plan in
  (exists p1,
      plan s1 = Some p1
      /\ packing_item p1 0 0 = Some (PackingItem.mk "Passaporte" (Finite 1 0) true))
  /\ plan (handlePackingListToggle 0 0 s1) = Some first_plan_held.
Proof.
  intros s1.
  destruct (handlePackingListToggle_in_range after_first_plan first_plan_held 0 0
              (PackingCategory.mk "Documentos" [PackingItem.mk "Passaporte" (Finite 1 0) false])
              (PackingItem.mk "Passaporte" (Finite 1 0) false) eq_refl eq_refl eq_refl)
    as ((p1 & Hp1 & Hitem & _) & _ & _ & H2 & _).
  split; [|exact H2]. exists p1. split; [exact Hp1 | exact Hitem].
Defined.

(** ** The destinations of the form *)

Lemma destinations_with_destinations ds d :
  TripDetails.destinations (with_destinations ds d) = ds.
Proof. by destruct d. Qed.

Lemma handleAddDestination_fresh (s : AppState) :
  currentDestination s <> "" ->
  currentDestination s ∉ TripDetails.destinations (tripDetails s) ->
  TripDetails.destinations (tripDetails (handleAddDestination s))
  = (TripDetails.destinations (tripDetails s) ++ [currentDestination s])%list
  /\ currentDestination (handleAddDestination s) = "".
Proof.
  intros Hne Hnot. unfold handleAddDestination, string_falsy.
  apply String.eqb_neq in Hne. rewrite Hne. simpl.
  rewrite bool_decide_eq_false_2 by done. simpl.
  by rewrite destinations_with_destinations.
Qed.

(** X3: [handleAddDestination] keeps the destinations free of duplicates.
    A destination typed that is empty or already listed changes nothing;
    another one is appended at the end and the input is emptied. *)
Theorem handleAddDestination_distinct (s : AppState) :
  NoDup (TripDetails.destinations (tripDetails s)) ->
  let s' := handleAddDestination s in
  NoDup (TripDetails.destinations (tripDetails s'))
  /\ (currentDestination s = ""
      \/ currentDestination s ∈ TripDetails.destinations (tripDetails s) ->
      s' = s)
  /\ (currentDestination s <> "" ->
      currentDestination s ∉ TripDetails.destinations (tripDetails s) ->
      TripDetails.destinations (tripDetails s')
      = (TripDetails.destinations (tripDetails s) ++ [currentDestination s])%list
      /\ currentDestination s' = "").
Proof.
  intros Hnd s'. subst s'. unfold handleAddDestination, string_falsy.
  destruct (String.eqb_spec (currentDestination s) "") as [E|E]; simpl.
  - split; [done|]. split; [done|]. intros H. by destruct H.
  - case_bool_decide as Hin; simpl.
    + split; [done|]. split; [done|]. intros _ H. by destruct H.
    + rewrite destinations_with_destinations.
      split; [|split; [intros [H|H]; done | done]].
      apply NoDup_app. split; [done|]. split; [|apply NoDup_singleton].
      intros x Hx Hx'. apply list_elem_of_singleton in Hx'. by subst.
Qed.

Lemma handleAddDestination_distinct_witness :
  let s := set_currentDestination "Paris" first_visit in
  TripDetails.destinations (tripDetails (handleAddDestination s))
  = ["Lisboa"; "Londres"; "Paris"]
  /\ NoDup (TripDetails.destinations (tripDetails (handleAddDestination s))).
Proof.
  intros s.
  assert (Hnd : NoDup (TripDetails.destinations (tripDetails s))).
  { apply (bool_decide_unpack _). vm_compute. exact I. }
  destruct (handleAddDestination_distinct s Hnd) as (H1 & _ & H3).
  split; [|exact H1]. apply H3; [discriminate|].
  apply (bool_decide_unpack _). vm_compute. exact I.
Defined.

(** X4: [handleRemoveDestination] removes every occurrence of the
    destination and nothing else: the destinations left are those that
    differ from it, in their order; a destination that is not listed
    leaves the list as it is; and removing a destination that
    [handleAddDestination] has just appended gives back the list. *)
Theorem handleRemoveDestination_exact (s : AppState) (destToRemove : string) :
  let before := TripDetails.destinations (tripDetails s) in
  let after :=
    TripDetails.destinations (tripDetails (handleRemoveDestination destToRemove s)) in
  (forall d, d ∈ after <-> d ∈ before /\ d <> destToRemove)
  /\ after `sublist_of` before
  /\ (NoDup before -> NoDup after)
  /\ (destToRemove ∉ before -> after = before)
  /\ (currentDestination s = destToRemove -> destToRemove <> "" ->
      destToRemove ∉ before ->
      TripDetails.destinations
        (tripDetails (handleRemoveDestination destToRemove (handleAddDestination s)))
      = before).
Proof.
  intros before after.
  assert (E : forall s0,
             TripDetails.destinations (tripDetails (handleRemoveDestination destToRemove s0))
             = filter (fun d => d <> destToRemove)
                      (TripDetails.destinations (tripDetails s0))).
  { intros s0. unfold handleRemoveDestination. simpl.
    rewrite destinations_with_destinations, List_filter_stdpp.
    apply list_filter_iff. intros d.
    rewrite negb_true_iff, <- not_true_iff_false, String.eqb_eq. done. }
  assert (Hid : forall l : list string,
             destToRemove ∉ l -> filter (fun d => d <> destToRemove) l = l).
  { intros l Hl. induction l as [|x l IH]; [done|].
    apply not_elem_of_cons in Hl as [Hx Hl].
    rewrite filter_cons_True by done. by rewrite IH. }
  subst after. rewrite E. fold before.
  split; [intros d; rewrite list_elem_of_filter; tauto|].
  split; [apply sublist_filter|].
  split; [intros Hnd; eapply sublist_NoDup; [exact Hnd | apply sublist_filter]|].
  split; [apply Hid|].
  intros Hc Hne Hnot. rewrite E. subst destToRemove.
  destruct (handleAddDestination_fresh s Hne Hnot) as [-> _].
  rewrite filter_app, Hid by done.
  rewrite filter_cons_False by (intros H; by apply H). by rewrite app_nil_r.
Qed.

(** ** The airline facet *)

Lemma rev_is_reverse {A} (l : list A) : rev l = reverse l.
Proof. apply rev_alt. Qed.

(** X5: the airlines offered by the filter are the airlines of the flights
    of the plan, each once; choosing one of them (with the other two
    filters at rest) lists at least one flight, and, unless the airline is
    called "all", only flights of that airline.  Without a plan no airline
    is offered. *)
Theorem airlines_facet (p : Plan.t) :
  NoDup (airlines (Some p))
  /\ (forall a, a ∈ airlines (Some p)
               <-> exists f, f ∈ Plan.flights p /\ Flight.airline f = a)
  /\ (forall a, a ∈ airlines (Some p) ->
               (exists f, f ∈ filteredFlights (Some p) (Filters.mk a "all" ""))
               /\ (a <> "all" ->
                   Forall (fun f => Flight.airline f = a)
                          (filteredFlights (Some p) (Filters.mk a "all" ""))))
  /\ airlines None = [].
Proof.
  assert (Hin : forall a, a ∈ airlines (Some p)
                          <-> exists f, f ∈ Plan.flights p /\ Flight.airline f = a).
  { intros a. unfold airlines.
    rewrite rev_is_reverse, elem_of_reverse, elem_of_remove_dups.
    rewrite rev_is_reverse, elem_of_reverse, list_elem_of_fmap.
    split; [intros (f & -> & Hf)|intros (f & Hf & <-)]; by exists f. }
  split; [|split; [exact Hin|split; [|done]]].
  - unfold airlines. rewrite rev_is_reverse, reverse_Permutation.
    apply NoDup_remove_dups.
  - intros a Ha. apply Hin in Ha as (f & Hf & Hfa).
    rewrite filteredFlights_filter. simpl. split.
    + exists f. apply list_elem_of_filter. split; [|done].
      unfold flight_passes, price_within. simpl. tauto.
    + intros Hne. apply Forall_forall. intros g Hg.
      apply list_elem_of_filter in Hg as [([H|H] & _) _]; simpl in H; done.
Qed.

(** ** Clearing the history *)

(** X6: a confirmed [handleClearHistory] empties the ring and removes its
    record from the storage, leaving the record of the plan and the rest
    of the state as they are, so that the next first render starts with an
    empty ring on every platform; without the confirmation nothing
    changes. *)
Theorem handleClearHistory_clears (P : Platform) (s : AppState) (year : Z) :
  let s' := handleClearHistory true s in
  searchHistory s' = []
  /\ getItem HISTORY_KEY (localStorage s') = None
  /\ getItem PLAN_KEY (localStorage s') = getItem PLAN_KEY (localStorage s)
  /\ s' = set_localStorage (localStorage s') (set_searchHistory [] s)
  /\ searchHistory (mount P year (localStorage s')) = []
  /\ handleClearHistory false s = s.
Proof.
  intros s'.
  assert (Hk : getItem HISTORY_KEY (localStorage s') = None).
  { unfold getItem. simpl. apply lookup_delete_eq. }
  split; [done|]. split; [exact Hk|].
  split; [unfold getItem; simpl; by apply lookup_delete_ne|].
  split; [done|]. split; [|done].
  unfold mount.
  destruct (load_plan_history P (reset_displayed (initial_state year (localStorage s'))))
    as [Hh Hs].
  change (localStorage (reset_displayed (initial_state year (localStorage s'))))
    with (localStorage s') in Hh.
  unfold load_history. rewrite Hh, Hk. by rewrite Hs.
Qed.

(** ** Scrolling through the flights *)

Lemma load_next_page_take (s : AppState) (n : nat) :
  isLoadingMore s = false -> pageTimers s = [] -> activeTab s = "voos" ->
  (0 < n)%nat ->
  displayedFlights s = take n (filtered s) ->
  load_next_page s
  = set_displayedFlights (take (n + FLIGHTS_PER_PAGE) (filtered s)) s.
Proof.
  intros Hl Ht Htab Hn Hd.
  assert (Hid : set_displayedFlights (displayedFlights s) s = s) by by destruct s.
  unfold load_next_page, observer_callback.
  destruct (lastFlightElementRef s) as [c|] eqn:Href.
  - destruct (lastFlightElementRef_closure s c Href) as (_ & Hcd & Hcf).
    rewrite Hcd, Hcf. simpl andb.
    destruct (length (displayedFlights s) <? length (filtered s))%nat eqn:Hlt.
    + apply Nat.ltb_lt in Hlt.
      assert (Hlen : length (displayedFlights s) = n).
      { rewrite Hd, length_take in *. lia. }
      unfold page_timer_fires, page_timer_callback. rewrite Ht. simpl.
      rewrite slice_page, Hcd, Hcf, Hlen. rewrite Hd at 1.
      rewrite take_take_drop. destruct s; simpl in *; by subst.
    + apply Nat.ltb_ge in Hlt. rewrite Hd, length_take in Hlt.
      unfold page_timer_fires. rewrite Ht.
      rewrite take_ge by lia. rewrite take_ge in Hd by lia. by rewrite <- Hd.
  - unfold page_timer_fires. rewrite Ht.
    assert (He : filtered s = []).
    { unfold lastFlightElementRef in Href. rewrite Hl, Htab in Href. simpl in Href.
      destruct (plan s) eqn:Hp; [|by unfold filtered; rewrite Hp].
      destruct (displayedFlights s) eqn:Hds; [|done].
      symmetry in Hd. destruct (filtered s); [done|].
      destruct n; [lia|done]. }
    rewrite He, take_nil in *. by rewrite <- Hd.
Qed.

(** X7: scrolling the flight table to its end shows every filtered flight.
    From the first page on the tab of the flights, with no page load
    pending, [k] page loads in a row leave the first [10 * (k + 1)]
    flights of the filtered list displayed and change nothing else in the
    state; the list displayed stays a prefix of the filtered list, and is
    the whole list once [10 * (k + 1)] reaches its length. *)
Theorem scrolling_shows_every_flight (s : AppState) (k : nat) :
  isLoadingMore s = false -> pageTimers s = [] -> activeTab s = "voos" ->
  displayedFlights s = take FLIGHTS_PER_PAGE (filtered s) ->
  let s' := Nat.iter k load_next_page s in
  s' = set_displayedFlights (take ((k + 1) * FLIGHTS_PER_PAGE) (filtered s)) s
  /\ displayedFlights s' `prefix_of` filtered s
  /\ ((length (filtered s) <= (k + 1) * FLIGHTS_PER_PAGE)%nat ->
      displayedFlights s' = filtered s).
Proof.
  intros Hl Ht Htab Hd s'.
  assert (E : s' = set_displayedFlights (take ((k + 1) * FLIGHTS_PER_PAGE) (filtered s)) s).
  { subst s'. induction k as [|k IH]; simpl Nat.iter.
    - change ((0 + 1) * FLIGHTS_PER_PAGE)%nat with FLIGHTS_PER_PAGE.
      rewrite <- Hd. by destruct s.
    - rewrite IH.
      rewrite (load_next_page_take _ ((k + 1) * FLIGHTS_PER_PAGE)); try done.
      + replace ((S k + 1) * FLIGHTS_PER_PAGE)%nat
          with ((k + 1) * FLIGHTS_PER_PAGE + FLIGHTS_PER_PAGE)%nat by lia.
        by destruct s.
      + unfold FLIGHTS_PER_PAGE. lia. }
  split; [exact E|]. rewrite E. simpl. split; [apply prefix_take|].
  intros Hlen. by apply take_ge.
Qed.

Lemma scrolling_shows_every_flight_witness :
  displayedFlights (Nat.iter 1 load_next_page on_flights_tab) = twelve_flights.
Proof.
  destruct (scrolling_shows_every_flight on_flights_tab 1 eq_refl eq_refl eq_refl eq_refl)
    as (_ & _ & H).
  rewrite H; [vm_compute; reflexivity | vm_compute; lia].
Defined.

(** ** Invariants of a session *)

Lemma run_invariant (P : Platform) (I : AppState -> Prop) :
  (forall e s s', I s -> step P e s = Some s' -> I s') ->
  forall es s s', I s -> run P es s = Some s' -> I s'.
Proof.
  intros Hstep. induction es as [|e es IH]; simpl; intros s s' Hs Hrun.
  - by simplify_eq.
  - destruct (step P e s) as [s1|] eqn:E; [|done]. simpl in Hrun.
    eapply IH; [|exact Hrun]. by eapply Hstep.
Qed.

Lemma run_app (P : Platform) (es1 es2 : list Event) (s : AppState) :
  run P (es1 ++ es2)%list s = run P es1 s ≫= run P es2.
Proof.
  revert s. induction es1 as [|e es1 IH]; intros s; simpl; [done|].
  destruct (step P e s); simpl; [apply IH|done].
Qed.

(** The first render over any storage: nothing is pending. *)
Lemma mount_idle (P : Platform) (year : Z) (st : Storage) :
  let s := mount P year st in
  loading s = false /\ planRequests s = [] /\ isLoadingMore s = false
  /\ pageTimers s = [] /\ imageRequests s = [] /\ currentItineraryPage s = 0%nat.
Proof.
  unfold mount, load_history, load_plan, setPlan_value, reset_displayed.
  repeat case_match; simpl; done.
Qed.

(** X8: at most one page load is pending at a time.  In every state of a
    session, over whatever the storage held at the first render, either no
    page is being loaded and no timer is pending, or a page is being loaded
    and exactly one timer is pending. *)
Theorem one_page_load_at_a_time (P : Platform) (year : Z) (st : Storage)
  (es : list Event) (s : AppState) :
  run P es (mount P year st) = Some s ->
  (isLoadingMore s = false /\ pageTimers s = [])
  \/ (isLoadingMore s = true /\ exists c, pageTimers s = [c]).
Proof.
  apply (run_invariant P (fun s =>
    (isLoadingMore s = false /\ pageTimers s = [])
    \/ (isLoadingMore s = true /\ exists c, pageTimers s = [c]))).
  - clear. intros e s s' Hs Hstep.
    destruct e; simpl in Hstep; simplify_eq;
      try (unfold_handlers; repeat case_match; simplify_option_eq; exact Hs).
    + unfold observer_callback.
      destruct (lastFlightElementRef s) as [c|] eqn:Href; [|done].
      apply lastFlightElementRef_closure in Href as (Hl & _).
      destruct Hs as [[_ Ht]|[Hs _]]; [|congruence].
      case_match; [|by left]. right. simpl. rewrite Ht. eauto.
    + unfold page_timer_fires.
      destruct Hs as [[Hl Ht]|[Hl [c Ht]]]; rewrite Ht; [by left|]. by left.
  - destruct (mount_idle P year st) as (_ & _ & Hl & Ht & _). by left.
Qed.

Lemma one_page_load_at_a_time_witness :
  exists c, pageTimers (default first_visit (session (first_plan ++ last_row_seen))) = [c].
Proof.
  destruct (one_page_load_at_a_time Reference.platform 2025 (empty_storage 4096)
              (first_plan ++ last_row_seen)
              (default first_visit (session (first_plan ++ last_row_seen))))
    as [[H _]|[_ H]].
  - vm_compute. reflexivity.
  - vm_compute in H. discriminate H.
  - exact H.
Defined.

(** What the events other than the three of the request leave as it is. *)
Lemma step_frame_requests (P : Platform) e s s' :
  step P e s = Some s' ->
  match e with
  | GeneratePlan _ | PlanResponse _ _ | PlanRequestFails => True
  | _ =>
      loading s' = loading s /\ planRequests s' = planRequests s
      /\ (plan s = None -> plan s' = None /\ (isSaved s = false -> isSaved s' = false))
  end.
Proof.
  intros Hstep.
  destruct e; try exact I; simpl in Hstep; simplify_eq.
  all: try (unfold_handlers; repeat case_match; simplify_option_eq; by eauto).
  unfold images_settle in Hstep. repeat case_match; simplify_option_eq; try by eauto.
  split; [done|]. split; [done|]. intros Hp. rewrite Hp in *.
  rewrite apply_image_results_cleared in *. by simplify_eq.
Qed.

(** The request of a plan in a state: none, or one that is being awaited
    with no plan held and nothing saved. *)
Lemma step_one_request (P : Platform) e s s' :
  (loading s = true /\ plan s = None /\ isSaved s = false
   /\ exists d, planRequests s = [d]
        /\ (TripDetails.startDate d = "" \/ TripDetails.endDate d = ""
            \/ ~ num_le (Date_valueOf P (TripDetails.endDate d))
                        (Date_valueOf P (TripDetails.startDate d))))
  \/ (loading s = false /\ planRequests s = []) ->
  step P e s = Some s' ->
  (loading s' = true /\ plan s' = None /\ isSaved s' = false
   /\ exists d, planRequests s' = [d]
        /\ (TripDetails.startDate d = "" \/ TripDetails.endDate d = ""
            \/ ~ num_le (Date_valueOf P (TripDetails.endDate d))
                        (Date_valueOf P (TripDetails.startDate d))))
  \/ (loading s' = false /\ planRequests s' = []).
Proof.
  intros Hs Hstep.
  assert (Hframe := step_frame_requests P e s s' Hstep).
  destruct e;
    try (destruct Hframe as (El & Er & Hp');
         destruct Hs as [(Hl & Hp & Hsv & d & Hd & Hdates)|[Hl Hr]];
         [left; destruct (Hp' Hp) as [Hp1 Hs1]; rewrite El, Er; eauto 10
         |right; by rewrite El, Er]);
    clear Hframe; simpl in Hstep; injection Hstep as <-.
  - (* GeneratePlan *)
    destruct Hs as [(Hl & Hp & Hsv & d & Hd & Hdates)|[Hl Hr]].
    { rewrite Hl. left. eauto 10. }
    rewrite Hl. unfold generatePlan. simpl.
    destruct apiKey as [key|]; [|by right].
    destruct (string_falsy key); [by right|].
    case_match eqn:Hcheck.
    { right. unfold setPlan_value, reset_displayed. by repeat case_match. }
    left. unfold setPlan_value, reset_displayed.
    split; [by repeat case_match|]. split; [by repeat case_match|].
    split; [by repeat case_match|].
    exists (tripDetails s). split; [by repeat case_match; simpl; rewrite Hr|].
    unfold string_falsy in Hcheck.
    destruct (String.eqb_spec (TripDetails.startDate (tripDetails s)) "") as [E1|N1];
      [by left|].
    destruct (String.eqb_spec (TripDetails.endDate (tripDetails s)) "") as [E2|N2];
      [by right; left|].
    right; right. simpl in Hcheck. rewrite <- num_leb_le. by rewrite Hcheck.
  - (* PlanResponse *)
    right. unfold plan_response.
    destruct Hs as [(Hl & Hp & Hsv & d & Hd & Hdates)|[Hl Hr]].
    + rewrite Hd. split; [done|].
      unfold_handlers. repeat case_match; done.
    + by rewrite Hr.
  - (* PlanRequestFails *)
    right. unfold plan_request_fails.
    destruct Hs as [(Hl & Hp & Hsv & d & Hd & Hdates)|[Hl Hr]].
    + by rewrite Hd.
    + by rewrite Hr.
Qed.

(** X9: one plan is asked for at a time.  In every state of a session,
    over whatever the storage held at the first render, either no request
    is outstanding and the component is not loading, or it is loading with
    exactly one request outstanding, and then it holds no plan, nothing is
    marked as saved, and the details of the request have no end date at or
    before their start date (a date left empty passes, and so does a date
    whose time value is NaN). *)
Theorem one_plan_request_at_a_time (P : Platform) (year : Z) (st : Storage)
  (es : list Event) (s : AppState) :
  run P es (mount P year st) = Some s ->
  (loading s = true /\ plan s = None /\ isSaved s = false
   /\ exists d, planRequests s = [d]
        /\ (TripDetails.startDate d = "" \/ TripDetails.endDate d = ""
            \/ ~ num_le (Date_valueOf P (TripDetails.endDate d))
                        (Date_valueOf P (TripDetails.startDate d))))
  \/ (loading s = false /\ planRequests s = []).
Proof.
  apply (run_invariant P (fun s =>
    (loading s = true /\ plan s = None /\ isSaved s = false
     /\ exists d, planRequests s = [d]
          /\ (TripDetails.startDate d = "" \/ TripDetails.endDate d = ""
              \/ ~ num_le (Date_valueOf P (TripDetails.endDate d))
                          (Date_valueOf P (TripDetails.startDate d))))
    \/ (loading s = false /\ planRequests s = []))).
  - apply step_one_request.
  - destruct (mount_idle P year st) as (Hl & Hr & _). by right.
Qed.

Lemma one_plan_request_at_a_time_witness :
  plan after_plan_cleared = None /\ isSaved after_plan_cleared = false.
Proof.
  destruct (one_plan_request_at_a_time Reference.platform 2025 (empty_storage 4096)
              (first_plan ++ [GeneratePlan (Some "key")]) after_plan_cleared)
    as [(_ & H1 & H2 & _)|[H _]].
  - vm_compute. reflexivity.
  - by split.
  - vm_compute in H. discriminate H.
Defined.
(** ** The image fill, settled *)

Lemma apply_image_results_fill results : forall i p,
  (i + length results <= length (Plan.itinerary p))%nat ->
  apply_image_results i results (Some p)
  = Some (Some (Plan.with_itinerary
                  (take i (Plan.itinerary p)
                   ++ settle_images results (drop i (Plan.itinerary p))
                   ++ drop (i + length results) (Plan.itinerary p))%list p)).
Proof.
  induction results as [|r rest IH]; intros i p Hlen.
  - simpl. rewrite Nat.add_0_r, take_drop. by destruct p.
  - cbn [length] in Hlen.
    destruct (lookup_lt_is_Some_2 (Plan.itinerary p) i ltac:(lia)) as [d Hd].
    cbn [apply_image_results]. unfold apply_image_result. rewrite Hd.
    cbn [mbind option_bind]. rewrite IH by (unfold Plan.with_itinerary; simpl; rewrite length_insert; lia).
    do 2 f_equal. destruct p as [it c k f l w pl]. simpl in *.
    unfold Plan.with_itinerary. simpl. f_equal.
    rewrite (take_S_r _ _ (ItineraryDestination.with_imageUrl (settled_image r) d))
      by (apply list_lookup_insert_eq; lia).
    rewrite take_insert_ge by lia.
    rewrite !drop_insert_lt by lia.
    rewrite (drop_S it d i Hd). simpl.
    rewrite <- app_assoc. simpl. do 4 f_equal. lia.
Qed.

Lemma apply_image_results_overflow results : forall i p,
  results <> [] ->
  (length (Plan.itinerary p) < i + length results)%nat ->
  apply_image_results i results (Some p) = None.
Proof.
  induction results as [|r rest IH]; intros i p Hne Hlen; [done|].
  cbn [apply_image_results]. unfold apply_image_result.
  destruct (Plan.itinerary p !! i) as [d|] eqn:Hd; [|done].
  cbn [mbind option_bind]. apply lookup_lt_Some in Hd.
  apply IH.
  - intros ->. simpl in Hlen. lia.
  - unfold Plan.with_itinerary. simpl. rewrite length_insert. simpl in Hlen. lia.
Qed.

Lemma settled_image_not_loading r : settled_image r <> image_loading.
Proof. destruct r; discriminate. Qed.

(** X10: what the settling of an image batch does to a plan that is held.
    With one result per destination asked for and at most as many results
    as the itinerary has destinations, the batch leaves the state, each
    result is written to the destination at its index (the image, or null
    for a failure) and nothing else changes: the destinations written to
    are no longer loading, keep their names, and the destinations after
    them are as they were.  With more results than destinations the
    updater throws. *)
Theorem images_settle_fills (s : AppState) (k : nat)
  (destinations : list ItineraryDestination.t) (results : list (option string))
  (p : Plan.t) :
  imageRequests s !! k = Some destinations ->
  length results = length destinations ->
  plan s = Some p ->
  ((length destinations <= length (Plan.itinerary p))%nat ->
   images_settle k results s
   = Some (set_plan
             (Some (Plan.with_itinerary
                      (settle_images results (Plan.itinerary p)
                       ++ drop (length results) (Plan.itinerary p))%list p))
             (set_imageRequests (delete k (imageRequests s)) s))
   /\ Forall (fun d => ItineraryDestination.imageUrl d <> image_loading)
             (settle_images results (Plan.itinerary p))
   /\ ItineraryDestination.destination_name <$> settle_images results (Plan.itinerary p)
      = take (length results) (ItineraryDestination.destination_name <$> Plan.itinerary p))
  /\ ((length (Plan.itinerary p) < length destinations)%nat ->
      images_settle k results s = None).
Proof.
  intros Hk Hlen Hp. unfold images_settle. rewrite Hk, Hp.
  rewrite bool_decide_eq_true_2 by done. split.
  - intros Hle. split; [|split].
    + rewrite apply_image_results_fill by (simpl; lia). by simpl.
    + unfold settle_images. apply Forall_forall. intros d Hd.
      apply elem_of_lookup_zip_with in Hd as (i & r & d0 & -> & _ & _).
      apply settled_image_not_loading.
    + unfold settle_images. rewrite <- Hlen in Hle. clear Hk Hp Hlen.
      revert results Hle. induction (Plan.itinerary p) as [|d it IH]; intros [|r rs] Hle;
        simpl in *; try done; try lia. f_equal. apply IH. lia.
  - intros Hlt. rewrite apply_image_results_overflow; [done| |simpl; lia].
    intros ->. simpl in Hlen. lia.
Qed.

Lemma images_settle_fills_witness :
  (plan <$> images_settle 0 [Some "abc"; None] after_first_plan)
  = Some (Some (Plan.with_itinerary
                  (settle_images [Some "abc"; None] (Plan.itinerary first_plan_held))
                  first_plan_held)).
Proof.
  destruct (images_settle_fills after_first_plan 0
              (Plan.itinerary first_plan_assembled) [Some "abc"; None] first_plan_held
              eq_refl eq_refl eq_refl) as [H _].
  destruct (H ltac:(vm_compute; lia)) as (-> & _). vm_compute. reflexivity.
Defined.

(** ** The page of the itinerary *)

Lemma with_imageUrl_twice u v d :
  ItineraryDestination.with_imageUrl u (ItineraryDestination.with_imageUrl v d)
  = ItineraryDestination.with_imageUrl u d.
Proof. done. Qed.

(** An image batch changes nothing of a plan but the images. *)
Lemma apply_image_results_frame results : forall i p q,
  apply_image_results i results (Some p) = Some q ->
  exists p', q = Some p'
    /\ mark_images_loading (Some p') = mark_images_loading (Some p)
    /\ length (Plan.itinerary p') = length (Plan.itinerary p).
Proof.
  induction results as [|r rest IH]; intros i p q H.
  - simpl in H. simplify_eq. eauto.
  - cbn [apply_image_results] in H. unfold apply_image_result in H.
    destruct (Plan.itinerary p !! i) as [d|] eqn:Hd; [|done].
    cbn [mbind option_bind] in H.
    apply IH in H as (p' & -> & Hm & Hl). exists p'. split; [done|].
    rewrite Hm, Hl. unfold mark_images_loading, Plan.with_itinerary. simpl.
    rewrite length_insert. split; [|done]. do 2 f_equal.
    rewrite list_fmap_insert, with_imageUrl_twice.
    apply list_insert_id. by rewrite list_lookup_fmap, Hd.
Qed.

Lemma step_page_in_range (P : Platform) e s s' :
  (forall p, plan s = Some p -> Plan.itinerary p <> [] ->
             (currentItineraryPage s < length (Plan.itinerary p))%nat) ->
  step P e s = Some s' ->
  forall p, plan s' = Some p -> Plan.itinerary p <> [] ->
            (currentItineraryPage s' < length (Plan.itinerary p))%nat.
Proof.
  intros Hs Hstep p Hp Hne.
  destruct e; simpl in Hstep; simplify_eq.
  all: try (unfold_handlers; repeat case_match; simplify_eq/=; by eauto).
  - (* PlanResponse *)
    unfold plan_response in *. destruct (planRequests s) as [|d rest]; [by eauto|].
    case_match; [|by simpl in *; eauto].
    unfold appendHistory, generateDestinationImages in *. simpl in *.
    rewrite plan_setPlan_value in Hp. simpl in Hp. simplify_eq.
    unfold Plan.with_itinerary in *. simpl in *.
    destruct (Plan.itinerary t); simpl in *; [done|lia].
  - (* ImagesSettle *)
    unfold images_settle in Hstep. repeat case_match; simplify_eq; try by eauto.
    destruct (plan s) as [p0|] eqn:Hp0.
    + destruct (apply_image_results 0 results (Some p0)) as [q|] eqn:Hq; [|done].
      apply apply_image_results_frame in Hq as (p' & -> & _ & Hl).
      cbn in Hstep. injection Hstep as <-. cbn in Hp. injection Hp as ->. cbn.
      rewrite Hl. apply Hs; [done|].
      intros E. rewrite E in Hl. by destruct (Plan.itinerary p).
    + rewrite apply_image_results_cleared in Hstep. by simplify_eq/=.
  - (* ItineraryPage *)
    unfold itinerary_page in *.
    destruct (plan s) as [p0|] eqn:Hp0; [|cbn in Hp; congruence].
    assert (Hp1 : p0 = p) by (destruct next; case_match; cbn in Hp; congruence).
    subst p0. specialize (Hs p eq_refl Hne).
    destruct next; case_match eqn:E; cbn; try done.
    + apply Nat.eqb_neq in E. lia.
    + lia.
Qed.

(** X11: the page of the itinerary is always one of its destinations.  In
    every state of a session, over whatever the storage held at the first
    render, the page shown of a plan with a destination is an index of its
    itinerary: the buttons never lead past an end, and the answers, the
    image batches and the toggles leave the page in range. *)
Theorem itinerary_page_in_range (P : Platform) (year : Z) (st : Storage)
  (es : list Event) (s : AppState) (p : Plan.t) :
  run P es (mount P year st) = Some s ->
  plan s = Some p -> Plan.itinerary p <> [] ->
  is_Some (Plan.itinerary p !! currentItineraryPage s).
Proof.
  intros Hrun Hp Hne. apply lookup_lt_is_Some. revert p Hp Hne.
  apply (run_invariant P (fun s => forall p, plan s = Some p -> Plan.itinerary p <> [] ->
           (currentItineraryPage s < length (Plan.itinerary p))%nat)
           (step_page_in_range P) es (mount P year st) s); [|exact Hrun].
  intros p Hp Hne. destruct (mount_idle P year st) as (_ & _ & _ & _ & _ & ->).
  destruct (Plan.itinerary p); simpl; [done|lia].
Qed.

Lemma itinerary_page_in_range_witness :
  is_Some (Plan.itinerary first_plan_held
             !! currentItineraryPage
                  (default first_visit (session (first_plan ++ [ItineraryPage true])))).
Proof.
  apply (itinerary_page_in_range Reference.platform 2025 (empty_storage 4096)
           (first_plan ++ [ItineraryPage true])).
  - vm_compute. reflexivity.
  - vm_compute. reflexivity.
  - vm_compute. discriminate.
Defined.

(** ** The saved flag *)

(** Only a save sets the flag, and it leaves the snapshot it has written. *)
Lemma step_sets_saved (P : Platform) e s s' :
  isSaved s = false ->
  step P e s = Some s' ->
  isSaved s' = true ->
  e = SavePlan
  /\ exists p0, plan s = Some p0
       /\ saved_snapshot P s' p0 (tripDetails s) (selectedFlight s).
Proof.
  intros Hs Hstep Hs'.
  destruct e; simpl in Hstep; simplify_eq.
  all: try (exfalso; revert Hs'; unfold_handlers; repeat case_match;
            simplify_option_eq; congruence).
  split; [done|]. rewrite Hs in *.
  unfold handleSavePlan in *. destruct (plan s) as [p|] eqn:Hp; [|congruence].
  destruct (setItem _ _ _) as [st|] eqn:Hst; [|simpl in Hs'; congruence].
  exists p. split; [done|]. split; [done|]. split; [|by exists p].
  unfold setItem in Hst. case_match; [|done]. injection Hst as <-.
  unfold getItem. simpl. apply lookup_insert_eq.
Qed.

(** While the flag stays set, the snapshot in the storage stays the one of
    the save, the selection is the one saved, and the plan held is the one
    saved up to the images. *)
Lemma step_keeps_snapshot (P : Platform) e s s' p0 d0 f0 :
  ((loading s = true /\ plan s = None /\ isSaved s = false
    /\ exists d, planRequests s = [d]
         /\ (TripDetails.startDate d = "" \/ TripDetails.endDate d = ""
             \/ ~ num_le (Date_valueOf P (TripDetails.endDate d))
                         (Date_valueOf P (TripDetails.startDate d))))
   \/ (loading s = false /\ planRequests s = [])) ->
  isSaved s = true ->
  saved_snapshot P s p0 d0 f0 ->
  step P e s = Some s' ->
  isSaved s' = true ->
  saved_snapshot P s' p0 d0 f0.
Proof.
  intros Hreq Hs Hsnap Hstep Hs'.
  destruct e; simpl in Hstep; simplify_eq.
  all: try (unfold_handlers; repeat case_match; simplify_eq/=; by eauto).
  - (* ClearHistory *)
    destruct confirmed; [|done].
    destruct Hsnap as (Hf & Hget & Hp). split; [done|]. split; [|done].
    unfold getItem in *. simpl. by rewrite lookup_delete_ne.
  - (* PlanResponse *)
    unfold plan_response in *.
    destruct Hreq as [(Hl & Hp & Hf & _)|[Hl Hr]]; [congruence|].
    by rewrite Hr in *.
  - (* ImagesSettle *)
    destruct Hsnap as (Hf & Hget & p & Hp & Hm).
    assert (Hsame : saved_snapshot P s p0 d0 f0) by (split; [done|]; split; [done|]; eauto).
    unfold images_settle in Hstep. rewrite Hp in Hstep.
    destruct (imageRequests s !! k) as [ds|]; [|by injection Hstep as <-].
    destruct (bool_decide (length results = length ds)); [|by injection Hstep as <-].
    destruct (apply_image_results 0 results (Some p)) as [q|] eqn:Hq; [|done].
    apply apply_image_results_frame in Hq as (p' & -> & Hm' & _).
    cbn in Hstep. injection Hstep as <-.
    split; [done|]. split; [done|]. exists p'. split; [done|]. by rewrite Hm, Hm'.
Qed.

(** The request of a plan along a session, for the proofs below. *)
Lemma run_one_request (P : Platform) (year : Z) (st : Storage) (es : list Event)
  (s : AppState) :
  run P es (mount P year st) = Some s ->
  (loading s = true /\ plan s = None /\ isSaved s = false
   /\ exists d, planRequests s = [d]
        /\ (TripDetails.startDate d = "" \/ TripDetails.endDate d = ""
            \/ ~ num_le (Date_valueOf P (TripDetails.endDate d))
                        (Date_valueOf P (TripDetails.startDate d))))
  \/ (loading s = false /\ planRequests s = []).
Proof.
  pose (I := fun s : AppState =>
    (loading s = true /\ plan s = None /\ isSaved s = false
     /\ exists d, planRequests s = [d]
          /\ (TripDetails.startDate d = "" \/ TripDetails.endDate d = ""
              \/ ~ num_le (Date_valueOf P (TripDetails.endDate d))
                          (Date_valueOf P (TripDetails.startDate d))))
    \/ (loading s = false /\ planRequests s = [])).
  apply (run_invariant P I (step_one_request P)).
  destruct (mount_idle P year st) as (H1 & H2 & _). by right.
Qed.

(** X12: what the saved flag stands for.  In every state of a session from
    a first visit in which the plan is marked as saved, the session has a
    save, made in a state [s0] that held a plan and was not marked as
    saved, such that the storage holds what that save has written: the
    text of the snapshot of the plan, the trip details and the selection
    of [s0].  The flight selected now is the one of [s0], and the plan
    held now is the plan of [s0] up to the images of its destinations
    (the checklist, the packing list, the flights and the rest are those
    on display).  The trip details in the record are those of the time of
    the save: the form may have been edited since, which leaves the flag
    set. *)
Theorem saved_flag_record (P : Platform) (year : Z) (quota : nat)
  (es : list Event) (s : AppState) :
  run P es (mount P year (empty_storage quota)) = Some s ->
  isSaved s = true ->
  exists es1 es2 s0 p0,
    es = (es1 ++ SavePlan :: es2)%list
    /\ run P es1 (mount P year (empty_storage quota)) = Some s0
    /\ isSaved s0 = false
    /\ plan s0 = Some p0
    /\ saved_snapshot P s p0 (tripDetails s0) (selectedFlight s0).
Proof.
  set (init := mount P year (empty_storage quota)).
  revert s. induction es as [|e es IH] using rev_ind; intros s Hrun Hs.
  { simpl in Hrun. injection Hrun as <-. subst init.
    rewrite mount_first_visit in Hs. done. }
  rewrite run_app in Hrun.
  destruct (run P es init) as [s1|] eqn:Hrun1; [|done].
  cbn [mbind option_bind run] in Hrun.
  destruct (step P e s1) as [s2|] eqn:Hstep; [|done].
  cbn [mbind option_bind] in Hrun. injection Hrun as ->.
  destruct (isSaved s1) eqn:Hs1.
  - destruct (IH s1 eq_refl Hs1) as (es1 & es2 & s0 & p0 & -> & Hr0 & Hn0 & Hp0 & Hsnap).
    exists es1, (es2 ++ [e])%list, s0, p0.
    split; [by rewrite <- app_assoc|]. split; [done|]. split; [done|]. split; [done|].
    eapply step_keeps_snapshot; [|exact Hs1|exact Hsnap|exact Hstep|exact Hs].
    exact (run_one_request P year (empty_storage quota) _ s1 Hrun1).
  - destruct (step_sets_saved P e s1 s Hs1 Hstep Hs) as (-> & p0 & Hp0 & Hsnap).
    exists es, [], s1, p0. done.
Qed.

Lemma saved_flag_record_witness :
  exists p0 d0,
    getItem PLAN_KEY (localStorage after_save)
    = Some (JSON_stringify Reference.platform (snapshot p0 d0 (Some flight_B)))
    /\ mark_images_loading (Some p0) = mark_images_loading (plan after_save).
Proof.
  destruct (saved_flag_record Reference.platform 2025 4096
              (first_plan ++ [SelectFlight flight_B; SavePlan]) after_save)
    as (es1 & es2 & s0 & p0 & _ & _ & _ & _ & Hf & Hget & p & Hp & Hm).
  - vm_compute. reflexivity.
  - reflexivity.
  - exists p0, (tripDetails s0). rewrite <- Hf in Hget. rewrite Hp.
    split; [exact Hget | exact Hm].
Defined.

(** ** The flags of an assembled plan *)

Lemma assoc_get_set_member k v m : assoc_get k (set_member k v m) = Some v.
Proof.
  induction m as [|[k' v'] m IH]; simpl.
  - by rewrite String.eqb_refl.
  - destruct (String.eqb k k') eqn:E; simpl; rewrite ?String.eqb_refl, ?E; done.
Qed.

Lemma assoc_get_set_member_ne k k' v m :
  k <> k' -> assoc_get k (set_member k' v m) = assoc_get k m.
Proof.
  intros Hne. apply String.eqb_neq in Hne.
  induction m as [|[k2 v2] m IH]; simpl.
  - by rewrite Hne.
  - destruct (String.eqb k' k2) eqn:E; simpl.
    + apply String.eqb_eq in E. subst k2. by rewrite Hne.
    + by rewrite IH.
Qed.

Lemma mapM_total {A B} (f : A -> B) (l : list A) :
  mapM (fun x => Some (f x)) l = Some (f <$> l).
Proof. induction l as [|x l IH]; simpl; [done|]. by rewrite IH. Qed.

Lemma decode_completed_cleared item y :
  decode_ChecklistItem (with_flag "completed" (JBool false) item) = Some y ->
  ChecklistItem.completed y = false.
Proof.
  unfold decode_ChecklistItem, with_flag, as_object.
  rewrite assoc_get_set_member. intros H. by simplify_option_eq.
Qed.

Lemma decode_packed_cleared item y :
  decode_PackingItem (with_flag "packed" (JBool false) item) = Some y ->
  PackingItem.packed y = false.
Proof.
  unfold decode_PackingItem, with_flag, as_object.
  rewrite assoc_get_set_member. intros H. by simplify_option_eq.
Qed.

Lemma mapM_Forall {A B} (f : A -> option B) (Q : B -> Prop) (l : list A) (k : list B) :
  mapM f l = Some k -> (forall x y, f x = Some y -> Q y) -> Forall Q k.
Proof. intros H%mapM_Some HQ. induction H; constructor; eauto. Qed.

Lemma flagged_Forall {A} (dec : json -> option A) (g : json -> json) (Q : A -> Prop)
  (x : option json) (flagged : json) (k : list A) :
  array_map (fun item => Some (g item)) x = Some flagged ->
  as_list dec (Some flagged) = Some k ->
  (forall item y, dec (g item) = Some y -> Q y) ->
  Forall Q k.
Proof.
  intros Hmap Hdec HQ. destruct x as [[]|]; try done. simpl in Hmap.
  rewrite mapM_total in Hmap. simplify_eq/=.
  apply mapM_Some, Forall2_fmap_l in Hdec.
  induction Hdec; constructor; eauto.
Qed.

Lemma mapM_mapM_Forall {A B C} (f : A -> option B) (g : B -> option C)
  (Q : C -> Prop) (l : list A) (l' : list B) (k : list C) :
  mapM f l = Some l' -> mapM g l' = Some k ->
  (forall x y, f x ≫= g = Some y -> Q y) -> Forall Q k.
Proof.
  intros H1%mapM_Some H2%mapM_Some HQ. revert k H2.
  induction H1 as [|x x' l l' Hx _ IH]; intros k H2; inv H2; constructor; eauto.
  apply (HQ x). by rewrite Hx.
Qed.

Lemma decode_items_cleared cat y :
  (items ← member "items" cat
             ≫= array_map (fun item => Some (with_flag "packed" (JBool false) item));
   Some (with_flag "items" items cat)) ≫= decode_PackingCategory = Some y ->
  Forall (fun i => PackingItem.packed i = false) (PackingCategory.items y).
Proof.
  destruct (member "items" cat) as [x|]; [|done]. cbn [mbind option_bind].
  destruct (array_map _ x) as [items|] eqn:Hitems; [|done]. cbn [mbind option_bind].
  unfold decode_PackingCategory, with_flag, as_object.
  rewrite assoc_get_set_member. intros H.
  destruct (as_string _); [|done]. cbn [mbind option_bind] in H.
  destruct (as_list decode_PackingItem (Some items)) as [k|] eqn:Hk; [|done].
  simplify_eq/=.
  eapply flagged_Forall; [exact Hitems|exact Hk|]. apply decode_packed_cleared.
Qed.

(** X13: the flags of a plan that has just been assembled.  Whatever the
    answer of the model says, when it is taken for a plan (no plan being
    held), every item of the checklist of that plan is not completed and
    every item of its packing list is not packed; an answer with no
    packing list gives a plan with the empty one. *)
Theorem plan_response_flags_cleared (P : Platform) (text now : string) (s : AppState)
  (p : Plan.t) :
  plan s = None ->
  plan (plan_response P text now s) = Some p ->
  Forall (fun i => ChecklistItem.completed i = false) (Plan.checklist p)
  /\ Forall (fun c => Forall (fun i => PackingItem.packed i = false)
                             (PackingCategory.items c))
            (Plan.packing_list p)
  /\ (forall jsonResponse,
        JSON_parse P (fenced_json text) = Some jsonResponse ->
        member "packing_list" jsonResponse = Some None ->
        Plan.packing_list p = []).
Proof.
  intros Hnone Hp. unfold plan_response in Hp.
  destruct (planRequests s) as [|d rest]; [congruence|].
  destruct (JSON_parse P (fenced_json text)) as [j|] eqn:Hparse;
    [|cbn in Hp; congruence].
  cbn [mbind option_bind] in Hp.
  destruct (assemble j ≫= decode_Plan) as [p0|] eqn:Hasm; [|cbn in Hp; congruence].
  unfold appendHistory, generateDestinationImages in Hp. cbn in Hp.
  rewrite plan_setPlan_value in Hp. cbn in Hp. injection Hp as <-.
  cbn [Plan.checklist Plan.packing_list Plan.with_itinerary].
  unfold assemble in Hasm.
  destruct (member "checklist" j ≫= array_map _) as [cl|] eqn:Hcl; [|done].
  cbn [mbind option_bind] in Hasm.
  destruct (match member "packing_list" j with None => _ | _ => _ end)
    as [plj|] eqn:Hpl; [|done].
  cbn [mbind option_bind] in Hasm.
  set (m := set_member "packing_list" plj (set_member "checklist" cl (spread j))) in Hasm.
  assert (Hc : assoc_get "checklist" m = Some cl).
  { unfold m. rewrite assoc_get_set_member_ne by done. apply assoc_get_set_member. }
  assert (Hpk : assoc_get "packing_list" m = Some plj) by apply assoc_get_set_member.
  unfold decode_Plan, as_object in Hasm. rewrite Hc, Hpk in Hasm.
  destruct (as_list decode_ItineraryDestination _); [|done].
  cbn [mbind option_bind] in Hasm.
  destruct (assoc_get "costs" m ≫= decode_CostDetails); [|done].
  cbn [mbind option_bind] in Hasm.
  destruct (as_list decode_ChecklistItem (Some cl)) as [k|] eqn:Hk; [|done].
  cbn [mbind option_bind] in Hasm.
  destruct (as_list decode_Flight _); [|done]. cbn [mbind option_bind] in Hasm.
  destruct (as_list decode_Location _); [|done]. cbn [mbind option_bind] in Hasm.
  destruct (as_list decode_WeatherInfo _); [|done]. cbn [mbind option_bind] in Hasm.
  destruct (as_list decode_PackingCategory (Some plj)) as [pk|] eqn:Hpks; [|done].
  cbn [mbind option_bind] in Hasm. injection Hasm as <-.
  cbn [Plan.checklist Plan.packing_list].
  split; [|split].
  - destruct (member "checklist" j) as [x|]; [|done]. cbn [mbind option_bind] in Hcl.
    eapply flagged_Forall; [exact Hcl|exact Hk|]. apply decode_completed_cleared.
  - destruct (member "packing_list" j) as [[pj|]|]; [| |done].
    + destruct pj as [| | | |cats0|]; try (cbn [array_map] in Hpl; done).
      { injection Hpl as <-. change (Some [] = Some pk) in Hpks.
        injection Hpks as <-. constructor. }
      cbn [array_map] in Hpl.
      destruct (mapM _ cats0) as [cats|] eqn:Hcats; [|done].
      simplify_eq/=. eapply mapM_mapM_Forall; [exact Hcats|exact Hpks|].
      intros cat y. apply decode_items_cleared.
    + injection Hpl as <-. change (Some [] = Some pk) in Hpks.
      injection Hpks as <-. constructor.
  - intros j' [= <-] Hm. rewrite Hm in Hpl. injection Hpl as <-.
    change (Some [] = Some pk) in Hpks. by injection Hpks as <-.
Qed.

Lemma plan_response_flags_cleared_witness :
  Forall (fun i => ChecklistItem.completed i = false) (Plan.checklist first_plan_held)
  /\ Forall (fun c => Forall (fun i => PackingItem.packed i = false)
                             (PackingCategory.items c))
            (Plan.packing_list first_plan_held).
Proof.
  destruct (plan_response_flags_cleared Reference.platform
              (answer ["Lisboa"; "Londres"] twelve_flights) "2025-01-01T10:00:00.000Z"
              plan_asked first_plan_held) as (H1 & H2 & _).
  - reflexivity.
  - vm_compute. reflexivity.
  - by split.
Defined.

(** ** Records that cannot be read *)

Lemma removeItem_commute k1 k2 st :
  removeItem k1 (removeItem k2 st) = removeItem k2 (removeItem k1 st).
Proof. unfold removeItem. simpl. f_equal. apply delete_delete. Qed.

(** X14: a record of the plan that cannot be read is as good as none.
    When the text stored for the plan is not empty and [JSON.parse] throws
    on it, or gives [null], the load effect removes the record, and the
    first render is the first render over the storage without the record:
    no plan, nothing marked as saved, the form as on a first visit. *)
Theorem mount_unreadable_plan (P : Platform) (year : Z) (st : Storage) (text : string) :
  getItem PLAN_KEY st = Some text ->
  text <> "" ->
  JSON_parse P text = None \/ JSON_parse P text = Some JNull ->
  mount P year st = mount P year (removeItem PLAN_KEY st)
  /\ plan (mount P year st) = None
  /\ isSaved (mount P year st) = false
  /\ tripDetails (mount P year st) = tripDetails (initial_state year st)
  /\ getItem PLAN_KEY (localStorage (mount P year st)) = None.
Proof.
  intros Hget Hne Hparse.
  assert (Hfalsy : string_falsy text = false).
  { unfold string_falsy. by apply String.eqb_neq. }
  assert (Hrestore : restore P text = None).
  { unfold restore. by destruct Hparse as [-> | ->]. }
  assert (Hgone : getItem PLAN_KEY (removeItem PLAN_KEY st) = None).
  { unfold getItem. simpl. apply lookup_delete_eq. }
  assert (E1 : load_plan P (reset_displayed (initial_state year st))
               = reset_displayed (initial_state year (removeItem PLAN_KEY st))).
  { unfold load_plan. simpl localStorage. by rewrite Hget, Hfalsy, Hrestore. }
  assert (E2 : load_plan P (reset_displayed (initial_state year (removeItem PLAN_KEY st)))
               = reset_displayed (initial_state year (removeItem PLAN_KEY st))).
  { unfold load_plan. simpl localStorage. by rewrite Hgone. }
  assert (E : mount P year st = mount P year (removeItem PLAN_KEY st)).
  { unfold mount. by rewrite E1, E2. }
  split; [exact E|]. rewrite E. unfold mount. rewrite E2.
  destruct (load_history_frame P
              (reset_displayed (initial_state year (removeItem PLAN_KEY st))))
    as (-> & -> & _ & ->).
  split; [done|]. split; [done|]. split; [done|].
  unfold load_history. simpl localStorage.
  repeat case_match; simpl; try done.
  unfold getItem in *. simpl. rewrite lookup_delete_ne by done. apply lookup_delete_eq.
Qed.

Lemma mount_unreadable_plan_witness :
  plan (mount Reference.platform 2025 unreadable_storage) = None
  /\ getItem PLAN_KEY (localStorage (mount Reference.platform 2025 unreadable_storage))
     = None.
Proof.
  destruct (mount_unreadable_plan Reference.platform 2025 unreadable_storage "{plan")
    as (_ & H1 & _ & _ & H2).
  - vm_compute. reflexivity.
  - discriminate.
  - left. vm_compute. reflexivity.
  - by split.
Defined.

(** X15: a record of the history that cannot be read is as good as none.
    When the text stored for the history is not empty and [JSON.parse]
    throws on it, the load effect removes the record, and the first render
    is the first render over the storage without it, with an empty
    history; what is restored of the plan is not affected. *)
Theorem mount_unreadable_history (P : Platform) (year : Z) (st : Storage)
  (text : string) :
  getItem HISTORY_KEY st = Some text ->
  text <> "" ->
  JSON_parse P text = None ->
  mount P year st = mount P year (removeItem HISTORY_KEY st)
  /\ searchHistory (mount P year st) = []
  /\ getItem HISTORY_KEY (localStorage (mount P year st)) = None.
Proof.
  intros Hget Hne Hparse.
  assert (Hfalsy : string_falsy text = false).
  { unfold string_falsy. by apply String.eqb_neq. }
  set (s0 := reset_displayed (initial_state year st)).
  set (s1 := reset_displayed (initial_state year (removeItem HISTORY_KEY st))).
  assert (Hs1 : s1 = set_localStorage (removeItem HISTORY_KEY st) s0) by done.
  assert (Hplan : load_plan P s1
                  = set_localStorage (removeItem HISTORY_KEY (localStorage (load_plan P s0)))
                      (load_plan P s0)).
  { rewrite Hs1. unfold load_plan, getItem. simpl.
    rewrite lookup_delete_ne by done.
    unfold setPlan_value, reset_displayed.
    repeat case_match; simpl; try done.
    by rewrite removeItem_commute. }
  destruct (load_plan_history P s0) as [Hk Hh].
  assert (E0 : load_history P (load_plan P s0)
               = set_localStorage (removeItem HISTORY_KEY (localStorage (load_plan P s0)))
                   (load_plan P s0)).
  { unfold load_history. rewrite Hk. simpl localStorage. by rewrite Hget, Hfalsy, Hparse. }
  assert (E : mount P year st = mount P year (removeItem HISTORY_KEY st)).
  { unfold mount. fold s0 s1. rewrite E0, Hplan.
    unfold load_history, getItem. simpl. by rewrite lookup_delete_eq. }
  split; [exact E|]. unfold mount. fold s0. rewrite E0. simpl.
  split; [by rewrite Hh|]. unfold getItem. simpl. apply lookup_delete_eq.
Qed.

Lemma mount_unreadable_history_witness :
  searchHistory (mount Reference.platform 2025 unreadable_storage) = [].
Proof.
  destruct (mount_unreadable_history Reference.platform 2025 unreadable_storage
              "[history") as (_ & H & _).
  - vm_compute. reflexivity.
  - discriminate.
  - vm_compute. reflexivity.
  - exact H.
Defined.

(** ** A search run again from the history *)

Lemma reachable_idle_no_request (P : Platform) (s : AppState) :
  reachable P s -> loading s = false -> planRequests s = [].
Proof.
  intros (year & quota & es & Hrun) Hl.
  pose (I := fun s : AppState =>
    (loading s = true /\ plan s = None /\ isSaved s = false
     /\ exists d, planRequests s = [d]
          /\ (TripDetails.startDate d = "" \/ TripDetails.endDate d = ""
              \/ ~ num_le (Date_valueOf P (TripDetails.endDate d))
                          (Date_valueOf P (TripDetails.startDate d))))
    \/ (loading s = false /\ planRequests s = [])).
  assert (HI : I s).
  { apply (run_invariant P I (step_one_request P)) with
      (es := es) (s := mount P year (empty_storage quota)); [|exact Hrun].
    destruct (mount_idle P year (empty_storage quota)) as (H1 & H2 & _). by right. }
  destruct HI as [(Hl' & _)|[_ Hr]]; [congruence|done].
Qed.

Lemma filter_Forall_id {A} (Q : A -> Prop) `{!forall x, Decision (Q x)} (l : list A) :
  Forall Q l -> filter Q l = l.
Proof. induction 1; [done|]. rewrite filter_cons_True by done. by f_equal. Qed.

Lemma updatedHistory_rerun (P : Platform) (h1 h2 : list HistoryItem.t)
  (item n : HistoryItem.t) :
  NoDup (details_key P <$> (h1 ++ item :: h2)%list) ->
  (length (h1 ++ item :: h2)%list <= 5)%nat ->
  details_key P n = details_key P item ->
  updatedHistory P n (h1 ++ item :: h2)%list = (n :: h1 ++ h2)%list.
Proof.
  intros Hnd Hlen Hkey. rewrite updatedHistory_unfold.
  rewrite fmap_app, fmap_cons in Hnd.
  apply NoDup_app in Hnd as (Hnd1 & Hfresh & Hnd2).
  apply NoDup_cons in Hnd2 as [Hnot2 _].
  assert (Hf1 : filter (fun x => details_key P x <> details_key P n) h1 = h1).
  { apply filter_Forall_id. apply Forall_forall. intros x Hx. rewrite Hkey. intros E.
    apply (Hfresh (details_key P x)).
    - apply list_elem_of_fmap. eauto.
    - rewrite E. left. }
  assert (Hf2 : filter (fun x => details_key P x <> details_key P n) h2 = h2).
  { apply filter_Forall_id. apply Forall_forall. intros x Hx. rewrite Hkey. intros E.
    apply Hnot2. rewrite <- E. apply list_elem_of_fmap. eauto. }
  rewrite filter_app, filter_cons_False by (intros H; by apply H).
  rewrite Hf1, Hf2. apply take_ge. rewrite length_app in *. simpl in *.
  rewrite length_app. lia.
Qed.

(** X16: a search run again from the history moves to the front of the
    ring.  In a state of a session that is not loading, when an entry of
    the history is loaded into the form, the plan is asked for and the
    answer is taken for a plan, the history is the one before with that
    entry taken out and an entry with the same details, the time of the
    answer as its id, put first: the ring neither grows nor loses any
    other entry. *)
Theorem rerun_from_history (P : Platform) (s s' : AppState) (item : HistoryItem.t)
  (apiKey : option string) (text now : string) :
  reachable P s ->
  loading s = false ->
  item ∈ searchHistory s ->
  run P [LoadHistoryItem (HistoryItem.details item); GeneratePlan apiKey;
         PlanResponse text now] s = Some s' ->
  plan s' <> None ->
  exists h1 h2,
    searchHistory s = (h1 ++ item :: h2)%list
    /\ searchHistory s'
       = (HistoryItem.mk now (history_title (HistoryItem.details item))
                         (HistoryItem.details item) :: h1 ++ h2)%list.
Proof.
  intros Hreach Hl Hin Hrun Hplan.
  destruct (reachable_ring_ok P s Hreach) as [Hlen Hnd].
  pose proof (reachable_idle_no_request P s Hreach Hl) as Hreq.
  apply list_elem_of_split in Hin as (h1 & h2 & Hh).
  exists h1, h2. split; [exact Hh|].
  set (d := HistoryItem.details item) in *.
  cbn [run step mbind option_bind option_ret] in Hrun. injection Hrun as <-.
  set (s1 := handleLoadHistoryItem d s) in *.
  assert (H1 : loading s1 = false /\ planRequests s1 = [] /\ tripDetails s1 = d
               /\ plan s1 = None /\ searchHistory s1 = searchHistory s).
  { subst s1. unfold handleLoadHistoryItem, setPlan_value, reset_displayed.
    repeat case_match; simpl; done. }
  destruct H1 as (Hl1 & Hr1 & Hd1 & Hp1 & Hh1).
  change (loading (setPlan_value None (set_tripDetails d s))) with (loading s1) in *.
  rewrite Hl1 in *.
  set (s2 := generatePlan P apiKey s1) in *.
  assert (H2 : (planRequests s2 = [] /\ plan s2 = None)
               \/ (planRequests s2 = [d] /\ plan s2 = None
                   /\ searchHistory s2 = searchHistory s)).
  { subst s2. rewrite <- Hh1. clear -Hr1 Hd1 Hp1. clearbody s1.
    destruct s1. simpl in *. subst.
    unfold generatePlan, setPlan_value, reset_displayed.
    repeat case_match; simpl; auto. }
  destruct H2 as [[Hr2 Hp2]|(Hr2 & Hp2 & Hh2)].
  { exfalso. apply Hplan. unfold plan_response. by rewrite Hr2. }
  unfold plan_response in *. rewrite Hr2 in *.
  destruct (JSON_parse P (fenced_json text) ≫= _) as [p|] eqn:Hparse.
  - unfold generateDestinationImages. cbn -[updatedHistory].
    replace (searchHistory (setPlan_value (Some p) (set_planRequests [] s2)))
      with (searchHistory s2)
      by (unfold setPlan_value, reset_displayed; by repeat case_match).
    rewrite Hh2, Hh. apply updatedHistory_rerun.
    + by rewrite <- Hh.
    + by rewrite <- Hh.
    + done.
  - exfalso. apply Hplan. simpl. exact Hp2.
Qed.

Lemma rerun_from_history_witness :
  length (searchHistory after_rerun) = length (searchHistory after_first_plan)
  /\ (HistoryItem.id <$> head (searchHistory after_rerun))
     = Some "2025-01-05T09:00:00.000Z".
Proof.
  destruct (rerun_from_history Reference.platform after_first_plan after_rerun
              first_entry (Some "key") (answer ["Lisboa"; "Londres"] twelve_flights)
              "2025-01-05T09:00:00.000Z" after_first_plan_reachable eq_refl)
    as (h1 & h2 & Hh & Hs').
  - vm_compute. left.
  - vm_compute. reflexivity.
  - vm_compute. discriminate.
  - rewrite Hh, Hs'. split; [|done]. simpl. rewrite !length_app. simpl. lia.
Defined.

(** ** Widening the filter *)

Lemma filter_sublist_impl {A} (Q1 Q2 : A -> Prop)
  `{!forall x, Decision (Q1 x)} `{!forall x, Decision (Q2 x)} (l : list A) :
  (forall x, Q1 x -> Q2 x) -> filter Q1 l `sublist_of` filter Q2 l.
Proof.
  intros HQ. induction l as [|x l IH]; [done|].
  rewrite !filter_cons. destruct (decide (Q1 x)) as [H1|H1].
  - rewrite decide_True by auto. by apply sublist_skip.
  - destruct (decide (Q2 x)); [by apply sublist_cons|done].
Qed.

Lemma finite_le_scaled (m1 e1 m2 e2 E : Z) :
  E <= e1 -> E <= e2 ->
  (m1 * 10 ^ (e1 - Z.min e1 e2) <= m2 * 10 ^ (e2 - Z.min e1 e2)
   <-> m1 * 10 ^ (e1 - E) <= m2 * 10 ^ (e2 - E)).
Proof.
  intros H1 H2. set (mn := Z.min e1 e2).
  assert (Hmn : E <= mn /\ mn <= e1 /\ mn <= e2) by (subst mn; lia).
  replace (e1 - E) with ((e1 - mn) + (mn - E)) by lia.
  replace (e2 - E) with ((e2 - mn) + (mn - E)) by lia.
  rewrite !Z.pow_add_r, !Z.mul_assoc by lia.
  apply Z.mul_le_mono_pos_r. apply Z.pow_pos_nonneg; lia.
Qed.

Lemma num_le_trans x y z : num_le x y -> num_le y z -> num_le x z.
Proof.
  intros Hxy Hyz. inversion Hxy; subst; inversion Hyz; subst;
    try (constructor; congruence); try congruence.
  constructor.
  set (E := Z.min e1 (Z.min e2 e3)).
  match goal with
  | H12 : _ <= _, H23 : _ <= _ |- _ =>
      apply (finite_le_scaled _ _ _ _ E) in H12; [|subst E; lia..];
      apply (finite_le_scaled _ _ _ _ E) in H23; [|subst E; lia..]
  end.
  apply (finite_le_scaled _ _ _ _ E); [subst E; lia..|]. lia.
Qed.

(** X17: a wildcard only adds flights.  With the three filters at rest
    every flight of the plan is listed, in the order of the plan; and
    putting the airline filter back to "all", the stop filter back to "all"
    or the maximum price back to empty keeps every flight that was listed,
    in the same order. *)
Theorem filteredFlights_wildcards (p : Plan.t) (a st m : string) :
  filteredFlights (Some p) (Filters.mk "all" "all" "") = Plan.flights p
  /\ filteredFlights (Some p) (Filters.mk a st m)
       `sublist_of` filteredFlights (Some p) (Filters.mk "all" st m)
  /\ filteredFlights (Some p) (Filters.mk a st m)
       `sublist_of` filteredFlights (Some p) (Filters.mk a "all" m)
  /\ filteredFlights (Some p) (Filters.mk a st m)
       `sublist_of` filteredFlights (Some p) (Filters.mk a st "").
Proof.
  rewrite !filteredFlights_filter. simpl.
  split; [|split; [|split]].
  - apply filter_Forall_id, Forall_forall. intros f _.
    unfold flight_passes, price_within. simpl. tauto.
  - apply filter_sublist_impl. unfold flight_passes, price_within. simpl. tauto.
  - apply filter_sublist_impl. unfold flight_passes, price_within. simpl. tauto.
  - apply filter_sublist_impl. unfold flight_passes, price_within. simpl. tauto.
Qed.

(** X18: raising the maximum price keeps every flight listed.  When the
    maximum typed is not empty and its number is at most the number of a
    second maximum, the flights listed under the first are listed under
    the second, in the same order; this holds for an empty second maximum
    too, which lists every price. *)
Theorem filteredFlights_max_monotone (p : Plan.t) (a st m1 m2 : string) :
  m1 <> "" ->
  m2 = "" \/ num_le (JS_Number m1) (JS_Number m2) ->
  filteredFlights (Some p) (Filters.mk a st m1)
    `sublist_of` filteredFlights (Some p) (Filters.mk a st m2).
Proof.
  intros Hne Hle. rewrite !filteredFlights_filter. simpl.
  apply filter_sublist_impl. intros f (Ha & Hs & Hp).
  split; [done|]. split; [done|]. unfold price_within in *. simpl in *.
  destruct Hle as [->|Hle]; [by left|]. right.
  destruct Hp as [Hp|Hp]; [done|]. by eapply num_le_trans.
Qed.

Lemma filteredFlights_max_monotone_witness :
  filteredFlights (Some (plan_of_flights [flight_A; flight_B; flight_C]))
                  (Filters.mk "all" "all" "99.5")
    `sublist_of`
  filteredFlights (Some (plan_of_flights [flight_A; flight_B; flight_C]))
                  (Filters.mk "all" "all" "1e2").
Proof.
  apply filteredFlights_max_monotone.
  - discriminate.
  - right. vm_compute. constructor. vm_compute. discriminate.
Defined.

(** ** The history across a reload *)

(** X19: the history survives a reload.  When the write of [appendHistory]
    to the storage succeeds and the text written parses back to the value
    it was printed from (the empty text being no JSON), the first render
    over the storage the append has left starts with the history the
    append has left in the state. *)
Theorem appendHistory_then_load (P : Platform) (s : AppState)
  (newHistoryItem : HistoryItem.t) (year : Z) :
  let h := updatedHistory P newHistoryItem (searchHistory s) in
  let text := JSON_stringify P (JArr (encode_HistoryItem <$> h)) in
  is_Some (setItem HISTORY_KEY text (localStorage s)) ->
  JSON_parse P "" = None ->
  JSON_parse P text = Some (JArr (encode_HistoryItem <$> h)) ->
  let s1 := appendHistory P newHistoryItem s in
  searchHistory s1 = h
  /\ searchHistory (mount P year (localStorage s1)) = searchHistory s1.
Proof.
  intros h text [st Hst] Hempty Hrt s1.
  assert (E : localStorage s1 = st).
  { subst s1. unfold appendHistory. fold h. fold text. by rewrite Hst. }
  assert (Hget : getItem HISTORY_KEY st = Some text).
  { clear E. unfold setItem in Hst. case_match; [|done]. injection Hst as <-.
    unfold getItem. simpl. apply lookup_insert_eq. }
  split; [done|]. rewrite E. by apply history_survives_reload.
Qed.

Lemma appendHistory_then_load_witness :
  let again :=
    HistoryItem.mk "2025-01-03T08:00:00.000Z" "again" (tripDetails after_first_plan) in
  let s1 := appendHistory Reference.platform again after_first_plan in
  searchHistory (mount Reference.platform 2026 (localStorage s1)) = searchHistory s1.
Proof.
  intros again s1.
  destruct (appendHistory_then_load Reference.platform after_first_plan again 2026)
    as [_ H].
  - vm_compute. eexists. reflexivity.
  - reflexivity.
  - vm_compute. reflexivity.
  - exact H.
Defined.

(** ** The details of a history entry *)

Lemma run_form_edits (P : Platform) (es : list Event) : forall s,
  forallb form_edit es = true ->
  exists s', run P es s = Some s'
    /\ planRequests s' = planRequests s /\ error s' = error s
    /\ searchHistory s' = searchHistory s.
Proof.
  induction es as [|e es IH]; intros s Hes; simpl in *; [by eauto|].
  apply andb_true_iff in Hes as [He Hes].
  destruct e; try discriminate He; simpl;
    (edestruct IH as (s' & -> & H1 & H2 & H3); [exact Hes|]);
    exists s'; (split; [done|]); rewrite H1, H2, H3;
    unfold handleInputChange, handleAddDestination, handleRemoveDestination;
    repeat case_match; done.
Qed.

(** X20: an entry of the history holds the details the plan was asked
    with.  When a plan is asked for in a state with no request
    outstanding, the form is edited while the answer is awaited, and the
    answer leaves no error on display, then the answer has been taken for
    a plan, and the entry put first in the history has the trip details of
    the click and a title made of them: the edits made in between are not
    in it. *)
Theorem history_entry_of_the_click (P : Platform) (s s' : AppState)
  (apiKey : option string) (edits : list Event) (text now : string) :
  loading s = false ->
  planRequests s = [] ->
  forallb form_edit edits = true ->
  run P (GeneratePlan apiKey :: edits ++ [PlanResponse text now])%list s = Some s' ->
  error s' = "" ->
  plan s' <> None
  /\ head (searchHistory s')
     = Some (HistoryItem.mk now (history_title (tripDetails s)) (tripDetails s)).
Proof.
  intros Hl Hr Hedits Hrun Herr.
  cbn [run step mbind option_bind] in Hrun. rewrite Hl in Hrun.
  rewrite run_app in Hrun.
  set (s1 := generatePlan P apiKey s) in *.
  assert (H1 : (error s1 <> "" /\ planRequests s1 = [])
               \/ planRequests s1 = [tripDetails s]).
  { subst s1. clear -Hr. destruct s. simpl in *. subst.
    unfold generatePlan, setPlan_value, reset_displayed.
    repeat case_match; simpl; auto. }
  destruct (run_form_edits P edits s1 Hedits) as (s2 & E & Hr2 & He2 & _).
  rewrite E in Hrun. cbn [run step mbind option_bind] in Hrun. injection Hrun as <-.
  unfold plan_response in *. rewrite Hr2 in *.
  destruct H1 as [[He1 Hr1]|Hr1]; rewrite Hr1 in *.
  { exfalso. apply He1. congruence. }
  destruct (JSON_parse P (fenced_json text) ≫= _) as [p|] eqn:Hparse.
  - unfold generateDestinationImages. cbn -[updatedHistory].
    split; [|apply updatedHistory_head].
    rewrite plan_setPlan_value. done.
  - discriminate Herr.
Qed.

Lemma history_entry_of_the_click_witness :
  TripDetails.origin (tripDetails after_edit_while_loading) = "Rio"
  /\ (TripDetails.origin ∘ HistoryItem.details
        <$> head (searchHistory after_edit_while_loading)) = Some "São Paulo".
Proof.
  split; [reflexivity|].
  destruct (history_entry_of_the_click Reference.platform first_visit
              after_edit_while_loading (Some "key")
              [InputChange "origin" "Rio" "text" false]
              (answer ["Lisboa"; "Londres"] twelve_flights) "2025-01-01T10:00:00.000Z")
    as [_ ->].
  - reflexivity.
  - reflexivity.
  - reflexivity.
  - vm_compute. reflexivity.
  - reflexivity.
  - reflexivity.
Defined.

(** ** The code fence around an answer *)

Lemma rev_app_append (a b acc : string) :
  String.rev_app (a +:+ b) acc = String.rev_app b (String.rev_app a acc).
Proof. revert acc. induction a as [|c a IH]; intros acc; simpl; [done|apply IH]. Qed.

Lemma list_ascii_of_string_app (a b : string) :
  String.list_ascii_of_string (a +:+ b)
  = (String.list_ascii_of_string a ++ String.list_ascii_of_string b)%list.
Proof. induction a as [|c a IH]; simpl; [done|]. by rewrite IH. Qed.

Lemma substring_0_app (a b : string) :
  String.substring 0 (String.length a) (a +:+ b) = a.
Proof.
  induction a as [|c a IH]; simpl.
  - by destruct b.
  - by rewrite IH.
Qed.

Lemma string_length_app (a b : string) :
  String.length (a +:+ b) = (String.length a + String.length b)%nat.
Proof. induction a as [|c a IH]; simpl; [done|]. by rewrite IH. Qed.

Lemma trim_between (c1 c2 : ascii) (l : list ascii) :
  is_white c1 = false -> is_white c2 = false ->
  trim (c1 :: l ++ [c2]) = (c1 :: l ++ [c2])%list.
Proof.
  intros H1 H2. unfold trim. simpl. rewrite H1.
  change (c1 :: l ++ [c2])%list with ((c1 :: l) ++ [c2])%list.
  rewrite rev_app_distr. simpl. rewrite H2.
  change (c2 :: rev l ++ [c1])%list with ([c2] ++ rev (c1 :: l))%list.
  rewrite rev_app_distr, rev_involutive. done.
Qed.

Lemma string_app_assoc (a b c : string) : (a +:+ b) +:+ c = a +:+ (b +:+ c).
Proof.
  induction a as [|x a IH]; [done|].
  change (String x ((a +:+ b) +:+ c) = String x (a +:+ (b +:+ c))). by rewrite IH.
Qed.

Lemma String_trim_between (c1 c2 : ascii) (s : string) :
  is_white c1 = false -> is_white c2 = false ->
  String_trim (String c1 (s +:+ String c2 "")) = String c1 (s +:+ String c2 "").
Proof.
  intros H1 H2. unfold String_trim. cbn [String.list_ascii_of_string].
  rewrite list_ascii_of_string_app. cbn [String.list_ascii_of_string].
  rewrite trim_between by done.
  change (c1 :: String.list_ascii_of_string s ++ [c2])%list
    with (String.list_ascii_of_string (String c1 "")
          ++ (String.list_ascii_of_string s
              ++ String.list_ascii_of_string (String c2 "")))%list.
  rewrite <- !list_ascii_of_string_app.
  by rewrite String.string_of_list_ascii_of_string.
Qed.

Lemma prefix_empty (s : string) : String.prefix "" s = true.
Proof. by destruct s. Qed.

Lemma index_found (c : ascii) (s : string) :
  String.index 0 (String c "") (String c s) = Some 0%nat.
Proof.
  cbn [String.index]. unfold String.prefix. fold String.prefix.
  destruct (ascii_dec c c); [|done]. by rewrite prefix_empty.
Qed.

Lemma index_skip (c d : ascii) (s : string) :
  c <> d ->
  String.index 0 (String c "") (String d s) = S <$> String.index 0 (String c "") s.
Proof.
  intros Hne. cbn [String.index]. unfold String.prefix. fold String.prefix.
  destruct (ascii_dec c d); [done|]. by destruct (String.index 0 (String c "") s).
Qed.

(** X21: a code fence around the answer is taken off.  For every text
    between braces, the answer wrapped in a fence (the fence line, the
    text, the closing fence) is handed to [JSON.parse] as the text itself,
    and so is the text when it comes bare: the two answers are handled in
    the same way. *)
Theorem fenced_json_unwraps (mid : string) :
  let body := "{" +:+ mid +:+ "}" in
  fenced_json (fenced body) = body
  /\ fenced_json body = body
  /\ (forall P now s, plan_response P (fenced body) now s = plan_response P body now s).
Proof.
  intros body.
  assert (Hbody : body = String "{" (mid +:+ String "}" "")) by done.
  assert (Hbare : fenced_json body = body).
  { unfold fenced_json. rewrite Hbody, String_trim_between by done. done. }
  assert (Hshape : fenced body
                   = String "`" (("``json" +:+ String "010"%char (body +:+ String "010"%char "``"))
                                 +:+ String "`" "")).
  { unfold fenced.
    replace (body +:+ String "010"%char "```") with ((body +:+ String "010"%char "``") +:+ "`")
      by (by rewrite string_app_assoc).
    reflexivity. }
  assert (Htrim : String_trim (fenced body) = fenced body).
  { rewrite Hshape. by apply String_trim_between. }
  assert (Hassoc : fenced body
                   = ("```json" +:+ String "010"%char "{")
                     +:+ (mid +:+ ("}" +:+ String "010"%char "```"))).
  { unfold fenced, body. rewrite !string_app_assoc. reflexivity. }
  assert (Hrev : String.rev (fenced body)
                 = String "`" (String "`" (String "`" (String "010"%char
                     (String "}" (String.rev_app mid
                                    (String "{" (String.rev ("```json" +:+ String "010"%char ""))))))))).
  { unfold String.rev. rewrite Hassoc, !rev_app_append. reflexivity. }
  assert (Hlen : String.length (fenced body) = (14 + String.length mid)%nat).
  { rewrite Hassoc, !string_length_app. simpl. lia. }
  assert (Hfenced : fenced_json (fenced body) = body).
  { unfold fenced_json. rewrite Htrim.
    assert (Hp : String.prefix "```" (fenced body) = true) by reflexivity.
    assert (He : endsWith "```" (fenced body) = true).
    { unfold endsWith. rewrite Hrev. reflexivity. }
    rewrite Hp, He. cbn [andb].
    assert (Hfirst : String.index 0 "{" (fenced body) = Some 8%nat).
    { change (fenced body)
        with (String "`" (String "`" (String "`" (String "j" (String "s" (String "o"
                (String "n" (String "010"%char
                   (String "{" ((mid +:+ "}") +:+ String "010"%char "```")))))))))).
      rewrite !index_skip by discriminate. by rewrite index_found. }
    assert (Hlast : lastIndexOf "}" (fenced body) = Some (9 + String.length mid)%nat).
    { unfold lastIndexOf. rewrite Hrev, Hlen.
      change (String.rev "}") with "}".
      rewrite !index_skip by discriminate. rewrite index_found.
      simpl. f_equal; lia. }
    rewrite Hfirst, Hlast. unfold JS_substring.
    replace (8 `min` (9 + String.length mid + 1))%nat with 8%nat by lia.
    replace (8 `max` (9 + String.length mid + 1) - 8)%nat
      with (String.length body) by (rewrite Hbody; simpl; rewrite string_length_app; simpl; lia).
    change (String.substring 8 (String.length body) (fenced body))
      with (String.substring 0 (String.length body) (body +:+ String "010"%char "```")).
    apply substring_0_app. }
  split; [exact Hfenced|]. split; [exact Hbare|].
  intros P now s. unfold plan_response. by rewrite Hfenced, Hbare.
Qed.
